(** * J.A.R.V.I.S desktop shell: backend bridge

    A shallow embedding of the backend connection and request/response
    bridge of the Electron shell:

    - [electron-app/src/main-working.js]: the main process (backend
      process supervisor, WebSocket session, IPC handlers, cleanup);
    - the settings window script ([SettingsManager]): the model switch
      workflow.

    JavaScript strings that are inspected character by character (the
    port announcement on stdout and the sidecar port file) are lists of
    UTF-16 code units; identifiers, keys and messages that are only
    compared or concatenated are Rocq strings. *)

From Stdlib Require Import ZArith NArith QArith Ascii String List Lia Bool.
From stdpp Require Import base option list gmap strings pretty.
Import ListNotations.

Local Open Scope Z_scope.
Local Open Scope list_scope.

(** ** JavaScript strings and numbers *)

Module JS.

(** A string value: its UTF-16 code units. *)
Definition jsstring := list N.

(** The code units of an ASCII literal. *)
Definition lit (s : string) : jsstring :=
  map N_of_ascii (list_ascii_of_string s).

(** WhiteSpace and LineTerminator code points (ECMA-262, StrWhiteSpaceChar):
    TAB, LF, VT, FF, CR, SP, NBSP, the Zs category, LS, PS and ZWNBSP. *)
Definition isWhiteSpace (c : N) : bool :=
  ((9 <=? c) && (c <=? 13) || (c =? 32) || (c =? 160) || (c =? 5760)
   || (8192 <=? c) && (c <=? 8202) || (c =? 8232) || (c =? 8233)
   || (c =? 8239) || (c =? 8287) || (c =? 12288) || (c =? 65279))%N.

Fixpoint trimStart (s : jsstring) : jsstring :=
  match s with
  | c :: s' => if isWhiteSpace c then trimStart s' else s
  | [] => []
  end.

Definition trimEnd (s : jsstring) : jsstring := rev (trimStart (rev s)).

(** [String.prototype.trim]. *)
Definition trim (s : jsstring) : jsstring := trimEnd (trimStart s).

(** The Number values that occur as a port: NaN, the infinities and the
    integers.  (JavaScript's [-0], which [parseInt] yields on an input
    such as ["-0"], is not told apart from [0].) *)
Inductive number :=
| NaN
| Infinity (negative : bool)
| Int (z : Z).

#[global] Instance number_eq_dec : EqDecision number.
Proof. solve_decision. Defined.

(** The value of a code unit as a digit, up to radix 16. *)
Definition between (lo hi c : N) : bool := ((lo <=? c) && (c <=? hi))%N.

Definition digitValue (c : N) : option Z :=
  if between 48 57 c then Some (Z.of_N c - 48)
  else if between 97 102 c then Some (Z.of_N c - 87)
  else if between 65 70 c then Some (Z.of_N c - 55)
  else None.

Definition digitIn (radix : Z) (c : N) : option Z :=
  match digitValue c with
  | Some d => if d <? radix then Some d else None
  | None => None
  end.

(** The longest prefix of [s] made of radix-[radix] digits, as digits. *)
Fixpoint digitPrefix (radix : Z) (s : jsstring) : list Z :=
  match s with
  | c :: s' =>
      match digitIn radix c with
      | Some d => d :: digitPrefix radix s'
      | None => []
      end
  | [] => []
  end.

Definition mathInt (radix : Z) (ds : list Z) : Z :=
  fold_left (fun acc d => acc * radix + d) ds 0.

(** Rounding of a mathematical integer to the nearest binary64 value,
    ties to even; magnitudes that round to [2^1024] or more give an
    infinity. *)
Definition toNumber64 (z : Z) : number :=
  let a := Z.abs z in
  if a <? 2 ^ 53 then Int z
  else
    let e := Z.log2 a - 52 in
    let q := Z.shiftr a e in
    let r := Z.land a (Z.ones e) in
    let half := 2 ^ (e - 1) in
    let m := if (half <? r) || ((r =? half) && Z.odd q) then q + 1 else q in
    let v := Z.shiftl m e in
    if 2 ^ 1024 <=? v then Infinity (z <? 0)
    else Int (if z <? 0 then - v else v).

(** An optional sign: is it a minus, and what follows it. *)
Definition readSign (s : jsstring) : bool * jsstring :=
  match s with
  | 45%N :: t => (true, t)
  | 43%N :: t => (false, t)
  | _ => (false, s)
  end.

(** A ["0x"] or ["0X"] prefix selects radix 16; otherwise the radix is
    10. *)
Definition readRadix (s : jsstring) : Z * jsstring :=
  match s with
  | 48%N :: 120%N :: t => (16, t)
  | 48%N :: 88%N :: t => (16, t)
  | _ => (10, s)
  end.

(** [parseInt(string)] with no radix argument (ECMA-262 19.2.5):
    leading white space is skipped, the sign and the radix prefix are
    read, and the longest prefix of digits is converted; no digit gives
    NaN. *)
Definition parseInt (s : jsstring) : number :=
  let '(neg, s2) := readSign (trimStart s) in
  let '(radix, s3) := readRadix s2 in
  match digitPrefix radix s3 with
  | [] => NaN
  | ds => toNumber64 (if neg then - mathInt radix ds else mathInt radix ds)
  end.

(** Does [p] occur at the start of [s]?  If so, the rest of [s]. *)
Fixpoint stripPrefix (p s : jsstring) : option jsstring :=
  match p, s with
  | [], _ => Some s
  | a :: p', b :: s' => if (a =? b)%N then stripPrefix p' s' else None
  | _ :: _, [] => None
  end.

Definition isDecimalDigit (c : N) : bool := between 48 57 c.

(** The run of decimal digits at the start of [s] (the greedy [\d+]). *)
Fixpoint takeDigits (s : jsstring) : jsstring :=
  match s with
  | c :: s' => if isDecimalDigit c then c :: takeDigits s' else []
  | [] => []
  end.

(** [output.match(/Auto-selected port: (\d+)/)]: the first capture group
    of the leftmost match, if any. *)
Fixpoint matchPort (output : jsstring) : option jsstring :=
  let here :=
    match stripPrefix (lit "Auto-selected port: ") output with
    | Some rest =>
        match takeDigits rest with
        | [] => None
        | ds => Some ds
        end
    | None => None
    end in
  match here with
  | Some ds => Some ds
  | None =>
      match output with
      | _ :: output' => matchPort output'
      | [] => None
      end
  end.

(** How a call completes: a normal return (for an [async] function, the
    value its promise resolves with) or an exception of type [E] (a
    rejection). *)
Inductive completion (E A : Type) :=
| Normal (a : A)
| Throw (e : E).
Arguments Normal {E A} a.
Arguments Throw {E A} e.

(** [try { body } catch (error) { handler(error) }] over a state [S]. *)
Definition try_catch {E A S : Type} (body : completion E A * S)
    (handler : E -> S -> completion E A * S) : completion E A * S :=
  match body with
  | (Normal a, s) => (Normal a, s)
  | (Throw e, s) => handler e s
  end.

End JS.

(** ** JSON values *)

Module Json.

(** What [JSON.parse] (and [response.json()]) can produce.  Finite
    numbers are rationals; a literal too large for binary64 parses to an
    infinity.  The field list of an object holds each key once. *)
#[warnings="-register-all"]
Inductive json :=
| JNull
| JBool (b : bool)
| JNum (q : Q)
| JInf (negative : bool)
| JStr (s : string)
| JArr (items : list json)
| JObj (fields : list (string * json)).

(** ToBoolean. *)
Definition truthy (j : json) : bool :=
  match j with
  | JNull => false
  | JBool b => b
  | JNum q => negb (Qeq_bool q 0)
  | JInf _ => true
  | JStr s => negb (String.eqb s "")
  | JArr _ | JObj _ => true
  end.

(** [undefined] is [None]. *)
Definition truthy_opt (v : option json) : bool :=
  match v with
  | Some j => truthy j
  | None => false
  end.

Fixpoint assoc (k : string) (fields : list (string * json)) : option json :=
  match fields with
  | (k', v) :: rest => if String.eqb k k' then Some v else assoc k rest
  | [] => None
  end.

(** [j?.k], for a key that is not a built-in property of strings and
    arrays: [undefined] unless [j] is an object with that key.  The
    plain access [j.k] is the same except on [null], where it throws;
    its callers look at [j] first. *)
Definition prop (k : string) (j : json) : option json :=
  match j with
  | JObj fields => assoc k fields
  | _ => None
  end.

(** [v === 'lit']. *)
Definition is_str (lit : string) (v : option json) : bool :=
  match v with
  | Some (JStr s) => String.eqb s lit
  | _ => false
  end.

(** [a || b]. *)
Definition or_else (a : option json) (b : json) : json :=
  match a with
  | Some j => if truthy j then j else b
  | None => b
  end.

(** [JSON.parse(JSON.stringify(j))]: what a value is once it has been
    written to a JSON file and read again.  An infinity becomes
    [null]. *)
Fixpoint viaJson (j : json) : json :=
  match j with
  | JInf _ => JNull
  | JArr items => JArr (map viaJson items)
  | JObj fields => JObj (map (fun kv => (kv.1, viaJson kv.2)) fields)
  | _ => j
  end.

End Json.

(** ** The main process ([main-working.js]) *)

Module Main.
Import JS Json.

Inductive signal := SIGTERM | SIGKILL.

(** A [ChildProcess] object.  [kill] delivers the signal and sets
    [killed] unless the process has already exited. *)
Record child_process := {
  exited : bool;
  killed : bool;
  signals : list signal
}.

Definition kill (sig : signal) (c : child_process) : child_process :=
  if exited c then c
  else {| exited := false; killed := true; signals := signals c ++ [sig] |}.

Inductive ready_state := CONNECTING | OPEN | CLOSING | CLOSED.

(** The outbound chat frame [{id, type:'chat', message, timestamp}];
    [id] is the decimal rendering of [Date.now()] and [timestamp] the ISO
    rendering of the clock, both kept as the clock value. *)
Record chat_frame := {
  frame_id : Z;
  frame_message : string;
  frame_timestamp : Z
}.

(** A [WebSocket] created by [connectWebSocket].  Its open, message,
    close and error listeners are those of [connectWebSocket];
    [handlers] are the [responseHandler] closures of [sendToPython]
    attached after them, each with its promise and its timer. *)
Record socket := {
  readyState : ready_state;
  handlers : list (nat * nat);
  sent : list chat_frame
}.

Record error := Error { message : string }.

(** The calls made to a promise's [resolve] and [reject]; the first one
    settles it. *)
Inductive settlement :=
| Resolved (response : json)
| Rejected (e : error).

(** Inbound frame data, by what [JSON.parse] makes of it. *)
Inductive wsdata :=
| BadJson (syntaxError : string)
| Parsed (j : json).

Inductive callback :=
| ResumeStartup                 (* startPythonBackend's 5000 ms wait *)
| FirstConnect                  (* whenReady: connectWebSocket *)
| Reconnect                     (* close and error listeners *)
| RequestTimeout (promise : nat) (* sendToPython *)
| ForceKill.                    (* cleanup *)

Inductive ui_message :=
| BackendStatus (connected : bool) (pythonRunning : option bool) (port : option number)
| BackendMessage (msg : json).

(** A [fetch] call to [http://127.0.0.1:${port}${path}]; [http_timeout]
    is the delay of the abort timer armed with it, if any. *)
Record http_request := {
  http_port : number;
  http_path : string;
  http_method : string;
  http_body : option json;
  http_timeout : option Z
}.

Record state := {
  mainWindow : bool;   (* is [mainWindow] non-null? *)
  pythonProcess : option nat;   (* the global handle, an index into [children] *)
  children : list child_process;   (* the ChildProcess objects created so far *)
  ws : option nat;   (* the global handle, an index into [sockets] *)
  sockets : list socket;   (* the WebSocket objects created so far *)
  isQuitting : bool;
  currentPort : number;
  store : gmap string json;   (* the top-level properties of the electron-store file *)
  settings : gmap string json;   (* the [settings] object filled at load time *)
  timers : list (option (Z * callback));   (* by id; [None] once fired or cleared *)
  promises : list (list settlement);   (* the promises made by [sendToPython] *)
  ui : list ui_message;   (* messages sent to the renderer *)
  http : list http_request;   (* [fetch] calls issued *)
  uncaught : list error   (* exceptions that left an event listener *)
}.

Definition set_mainWindow (v : bool) (st : state) : state :=
  {| mainWindow := v; pythonProcess := pythonProcess st;
     children := children st; ws := ws st; sockets := sockets st;
     isQuitting := isQuitting st; currentPort := currentPort st;
     store := store st; settings := settings st; timers := timers st;
     promises := promises st; ui := ui st; http := http st;
     uncaught := uncaught st |}.

Definition set_pythonProcess (v : option nat) (st : state) : state :=
  {| mainWindow := mainWindow st; pythonProcess := v;
     children := children st; ws := ws st; sockets := sockets st;
     isQuitting := isQuitting st; currentPort := currentPort st;
     store := store st; settings := settings st; timers := timers st;
     promises := promises st; ui := ui st; http := http st;
     uncaught := uncaught st |}.

Definition set_children (v : list child_process) (st : state) : state :=
  {| mainWindow := mainWindow st; pythonProcess := pythonProcess st;
     children := v; ws := ws st; sockets := sockets st;
     isQuitting := isQuitting st; currentPort := currentPort st;
     store := store st; settings := settings st; timers := timers st;
     promises := promises st; ui := ui st; http := http st;
     uncaught := uncaught st |}.

Definition set_ws (v : option nat) (st : state) : state :=
  {| mainWindow := mainWindow st; pythonProcess := pythonProcess st;
     children := children st; ws := v; sockets := sockets st;
     isQuitting := isQuitting st; currentPort := currentPort st;
     store := store st; settings := settings st; timers := timers st;
     promises := promises st; ui := ui st; http := http st;
     uncaught := uncaught st |}.

Definition set_sockets (v : list socket) (st : state) : state :=
  {| mainWindow := mainWindow st; pythonProcess := pythonProcess st;
     children := children st; ws := ws st; sockets := v;
     isQuitting := isQuitting st; currentPort := currentPort st;
     store := store st; settings := settings st; timers := timers st;
     promises := promises st; ui := ui st; http := http st;
     uncaught := uncaught st |}.

Definition set_isQuitting (v : bool) (st : state) : state :=
  {| mainWindow := mainWindow st; pythonProcess := pythonProcess st;
     children := children st; ws := ws st; sockets := sockets st;
     isQuitting := v; currentPort := currentPort st; store := store st;
     settings := settings st; timers := timers st; promises := promises st;
     ui := ui st; http := http st; uncaught := uncaught st |}.

Definition set_currentPort (v : number) (st : state) : state :=
  {| mainWindow := mainWindow st; pythonProcess := pythonProcess st;
     children := children st; ws := ws st; sockets := sockets st;
     isQuitting := isQuitting st; currentPort := v; store := store st;
     settings := settings st; timers := timers st; promises := promises st;
     ui := ui st; http := http st; uncaught := uncaught st |}.

Definition set_store (v : gmap string json) (st : state) : state :=
  {| mainWindow := mainWindow st; pythonProcess := pythonProcess st;
     children := children st; ws := ws st; sockets := sockets st;
     isQuitting := isQuitting st; currentPort := currentPort st; store := v;
     settings := settings st; timers := timers st; promises := promises st;
     ui := ui st; http := http st; uncaught := uncaught st |}.

Definition set_settings (v : gmap string json) (st : state) : state :=
  {| mainWindow := mainWindow st; pythonProcess := pythonProcess st;
     children := children st; ws := ws st; sockets := sockets st;
     isQuitting := isQuitting st; currentPort := currentPort st;
     store := store st; settings := v; timers := timers st;
     promises := promises st; ui := ui st; http := http st;
     uncaught := uncaught st |}.

Definition set_timers (v : list (option (Z * callback))) (st : state) : state :=
  {| mainWindow := mainWindow st; pythonProcess := pythonProcess st;
     children := children st; ws := ws st; sockets := sockets st;
     isQuitting := isQuitting st; currentPort := currentPort st;
     store := store st; settings := settings st; timers := v;
     promises := promises st; ui := ui st; http := http st;
     uncaught := uncaught st |}.

Definition set_promises (v : list (list settlement)) (st : state) : state :=
  {| mainWindow := mainWindow st; pythonProcess := pythonProcess st;
     children := children st; ws := ws st; sockets := sockets st;
     isQuitting := isQuitting st; currentPort := currentPort st;
     store := store st; settings := settings st; timers := timers st;
     promises := v; ui := ui st; http := http st; uncaught := uncaught st |}.

Definition set_ui (v : list ui_message) (st : state) : state :=
  {| mainWindow := mainWindow st; pythonProcess := pythonProcess st;
     children := children st; ws := ws st; sockets := sockets st;
     isQuitting := isQuitting st; currentPort := currentPort st;
     store := store st; settings := settings st; timers := timers st;
     promises := promises st; ui := v; http := http st;
     uncaught := uncaught st |}.

Definition set_http (v : list http_request) (st : state) : state :=
  {| mainWindow := mainWindow st; pythonProcess := pythonProcess st;
     children := children st; ws := ws st; sockets := sockets st;
     isQuitting := isQuitting st; currentPort := currentPort st;
     store := store st; settings := settings st; timers := timers st;
     promises := promises st; ui := ui st; http := v;
     uncaught := uncaught st |}.

Definition set_uncaught (v : list error) (st : state) : state :=
  {| mainWindow := mainWindow st; pythonProcess := pythonProcess st;
     children := children st; ws := ws st; sockets := sockets st;
     isQuitting := isQuitting st; currentPort := currentPort st;
     store := store st; settings := settings st; timers := timers st;
     promises := promises st; ui := ui st; http := http st; uncaught := v |}.

(** [store.get(key, defaultValue)]. *)
Definition store_get (key : string) (dflt : json) (m : gmap string json) : json :=
  default dflt (m !! key).

(** The state when the module has been loaded and the main window
    created: [settings] is read from the store once, here. *)
Definition init (persisted : gmap string json) : state :=
  {| mainWindow := true; pythonProcess := None; children := [];
     ws := None; sockets := []; isQuitting := false;
     currentPort := Int 8000; store := persisted;
     settings :=
       <["theme" := store_get "theme" (JStr "dark") persisted]>
       (<["voiceEnabled" := store_get "voiceEnabled" (JBool true) persisted]>
       (<["autoStart" := store_get "autoStart" (JBool false) persisted]> ∅));
     timers := []; promises := []; ui := []; http := []; uncaught := [] |}.

(** [mainWindow.webContents.send] behind its [if (mainWindow)] guard. *)
Definition notify (m : ui_message) (st : state) : state :=
  if mainWindow st then set_ui (ui st ++ [m]) st else st.

Definition setTimeout (cb : callback) (ms : Z) (st : state) : nat * state :=
  (length (timers st), set_timers (timers st ++ [Some (ms, cb)]) st).

Definition clearTimeout (id : nat) (st : state) : state :=
  set_timers (<[id := None]> (timers st)) st.

Definition upd_socket (h : nat) (f : socket -> socket) (st : state) : state :=
  match sockets st !! h with
  | Some sk => set_sockets (<[h := f sk]> (sockets st)) st
  | None => st
  end.

Definition upd_child (p : nat) (f : child_process -> child_process) (st : state) : state :=
  match children st !! p with
  | Some c => set_children (<[p := f c]> (children st)) st
  | None => st
  end.

Definition set_readyState (r : ready_state) (sk : socket) : socket :=
  {| readyState := r; handlers := handlers sk; sent := sent sk |}.

Definition set_handlers (l : list (nat * nat)) (sk : socket) : socket :=
  {| readyState := readyState sk; handlers := l; sent := sent sk |}.

Definition push_sent (f : chat_frame) (sk : socket) : socket :=
  {| readyState := readyState sk; handlers := handlers sk; sent := sent sk ++ [f] |}.

(** [resolve]/[reject] of promise [k]: the call is recorded. *)
Definition record (k : nat) (s : settlement) (ps : list (list settlement))
    : list (list settlement) :=
  match ps !! k with
  | Some calls => <[k := calls ++ [s]]> ps
  | None => ps
  end.

Definition settle (k : nat) (s : settlement) (st : state) : state :=
  set_promises (record k s (promises st)) st.

(** The state of promise [k]: [None] while pending, else the first
    settlement. *)
Definition outcome (k : nat) (st : state) : option settlement :=
  match promises st !! k with
  | Some calls => head calls
  | None => None
  end.

Abbreviation completion := (JS.completion error).

(** The sidecar file [current_port.txt] as [fs] sees it: [existsSync] is
    true of the last two, [readFileSync] throws on [Unreadable]. *)
Inductive file :=
| Absent
| Unreadable (e : error)
| Content (text : jsstring).

(** What [spawn] does: it throws, or it returns a child whose [stdout]
    is [null] because the process could not be started, or it returns a
    running child. *)
Inductive spawn_result :=
| SpawnThrows (e : error)
| SpawnNoStdio
| Spawned.

(** What the environment decides at an event. *)
Record world := {
  scriptExists : bool;       (* fs.existsSync(scriptPath) *)
  spawned : spawn_result;
  portFile : file;
  globalFetch : bool;        (* is globalThis.fetch defined? *)
  requireNodeFetch : bool;   (* does require('node-fetch') succeed? *)
  importNodeFetch : bool;    (* does import('node-fetch') succeed? *)
  clock : Z;                 (* Date.now() *)
  (* [store.set(key, value)] on the store's top-level properties, for a
     key that electron-store does not take as a plain property name (a
     dot path, an escape, a reserved name): the library's, which may
     throw *)
  storeSetPath : string -> json -> gmap string json -> completion (gmap string json)
}.

(** *** Backend process supervisor *)

(** [startPythonBackend], up to its [await] of the 5000 ms timer.
    [Some b]: the function has returned [b]; [None]: it is suspended on
    the timer [ResumeStartup]. *)
Definition startPythonBackend_begin (w : world) (st : state)
    : completion (option bool) * state :=
  try_catch
    (if negb (scriptExists w) then (Normal (Some false), st)
     else
       let p := length (children st) in
       let child running :=
         {| exited := negb running; killed := false; signals := [] |} in
       let assign running :=
         set_pythonProcess (Some p) (set_children (children st ++ [child running]) st) in
       match spawned w with
       | SpawnThrows e => (Throw e, st)
       | SpawnNoStdio =>
           (Throw (Error "Cannot read properties of null (reading 'on')"), assign false)
       | Spawned => (Normal None, snd (setTimeout ResumeStartup 5000 (assign true)))
       end)
    (fun _ st' => (Normal (Some false), st')).

(** The [data] listener on the child's stdout. *)
Definition on_stdout (output : jsstring) (st : state) : state :=
  match matchPort output with
  | Some digits => set_currentPort (parseInt digits) st
  | None => st
  end.

(** The [close] listener on the child. *)
Definition on_child_close (p : nat) (st : state) : state :=
  notify (BackendStatus false (Some false) None)
    (upd_child p (fun c => {| exited := true; killed := killed c; signals := signals c |}) st).

(** The inner [try] of [startPythonBackend]: the sidecar file. *)
Definition readPortFile (w : world) (st : state) : state :=
  snd (try_catch
    (match portFile w with
     | Absent => (Normal (), st)
     | Unreadable e => (Throw e, st)
     | Content portData => (Normal (), set_currentPort (parseInt (trim portData)) st)
     end)
    (fun _ st' => (Normal (), st'))).

(** [startPythonBackend] from the timer on. *)
Definition startPythonBackend_resume (w : world) (st : state)
    : completion bool * state :=
  try_catch (Normal true, readPortFile w st)
            (fun _ st' => (Normal false, st')).

(** *** Settings sync *)

Definition settingsData (m : gmap string json) : json :=
  JObj [ ("jarvis-ai-model", store_get "jarvis-ai-model" (JStr "orca-mini-3b-gguf2-q4_0.gguf") m);
         ("jarvis-voice-enabled", store_get "jarvis-voice-enabled" (JBool true) m);
         ("jarvis-auto-start", store_get "jarvis-auto-start" (JBool false) m);
         ("jarvis-backend-port", store_get "jarvis-backend-port" (JStr "8000") m);
         ("jarvis-theme", store_get "jarvis-theme" (JStr "dark") m) ].

(** The body is [JSON.stringify(settingsData)]; the values come from
    the store's JSON file or are the defaults, so the text reads back as
    [settingsData] itself. *)
Definition syncRequest (st : state) : http_request :=
  {| http_port := currentPort st; http_path := "/settings/sync-frontend";
     http_method := "POST"; http_body := Some (settingsData (store st));
     http_timeout := None |}.

(** [syncSettingsWithBackend]: the settings and the URL are computed on
    entry; the request goes out when a [fetch] implementation is found;
    the response is only logged, and every exception is caught. *)
Definition syncSettingsWithBackend (w : world) (st : state) : state :=
  let request := syncRequest st in
  if globalFetch w || importNodeFetch w
  then set_http (http st ++ [request]) st
  else st.

(** *** Live connection *)

(** Does [new WebSocket(`ws://127.0.0.1:${currentPort}/ws`)] accept its
    URL?  The port must print as decimal digits no larger than 65535. *)
Definition validPort (n : number) : bool :=
  match n with
  | Int z => (0 <=? z) && (z <=? 65535)
  | _ => false
  end.

Definition connectWebSocket (st : state) : state :=
  if validPort (currentPort st) then
    let sk := {| readyState := CONNECTING; handlers := []; sent := [] |} in
    set_ws (Some (length (sockets st))) (set_sockets (sockets st ++ [sk]) st)
  else st.

(** The [open] listener. *)
Definition on_open (w : world) (h : nat) (st : state) : state :=
  let st1 := upd_socket h (set_readyState OPEN) st in
  let st2 := notify (BackendStatus true (Some true) (Some (currentPort st1))) st1 in
  syncSettingsWithBackend w st2.

(** [pythonProcess && !pythonProcess.killed]; [None] is [null]. *)
Definition pythonRunning (st : state) : option bool :=
  match pythonProcess st with
  | Some p =>
      match children st !! p with
      | Some c => Some (negb (killed c))
      | None => None
      end
  | None => None
  end.

(** The [close] listener. *)
Definition on_close (h : nat) (st : state) : state :=
  let st1 := upd_socket h (set_readyState CLOSED) st in
  let st2 := notify (BackendStatus false (pythonRunning st1) (Some (currentPort st1))) st1 in
  snd (setTimeout Reconnect 5000 st2).

(** The [error] listener. *)
Definition on_error (h : nat) (st : state) : state :=
  snd (setTimeout Reconnect 2000 st).

(** The socket [ws] refers to, when it is in the OPEN state. *)
Definition openSocket (st : state) : option nat :=
  match ws st with
  | Some h =>
      match sockets st !! h with
      | Some sk =>
          match readyState sk with
          | OPEN => Some h
          | _ => None
          end
      | None => None
      end
  | None => None
  end.

(** [sendToPython(message)]: the promise executor.  Returns the index of
    the promise. *)
Definition sendToPython (msg : string) (w : world) (st : state) : nat * state :=
  let k := length (promises st) in
  let st0 := set_promises (promises st ++ [[]]) st in
  match openSocket st0 with
  | None => (k, settle k (Rejected (Error "WebSocket not connected")) st0)
  | Some h =>
      let fullMessage :=
        {| frame_id := clock w; frame_message := msg; frame_timestamp := clock w |} in
      let '(timeout, st1) := setTimeout (RequestTimeout k) 30000 st0 in
      let st2 := upd_socket h (fun sk => set_handlers (handlers sk ++ [(k, timeout)]) sk) st1 in
      (k, upd_socket h (push_sent fullMessage) st2)
  end.

(** [ws.off('message', responseHandler)] on the socket the global [ws]
    refers to at that moment; a [TypeError] when [ws] is [null]. *)
Definition ws_off (k timeout : nat) (st : state) : completion unit * state :=
  match ws st with
  | Some h =>
      (Normal (),
       upd_socket h (fun sk =>
         set_handlers (filter (fun x => x <> (k, timeout)) (handlers sk)) sk) st)
  | None => (Throw (Error "Cannot read properties of null (reading 'off')"), st)
  end.

(** [clearTimeout(timeout); ws.off('message', responseHandler); settle]. *)
Definition detach_and_settle (k timeout : nat) (s : settlement) (st : state)
    : completion unit * state :=
  match ws_off k timeout (clearTimeout timeout st) with
  | (Normal _, st1) => (Normal (), settle k s st1)
  | (Throw e, st1) => (Throw e, st1)
  end.

(** [response.type === 'chat_response'] inside the handler's [try]. *)
Definition isChatResponse (response : json) : completion bool :=
  match response with
  | JNull => Throw (Error "Cannot read properties of null (reading 'type')")
  | _ => Normal (is_str "chat_response" (prop "type" response))
  end.

(** The [responseHandler] closure of promise [k] with timer [timeout]. *)
Definition responseHandler (k timeout : nat) (data : wsdata) (st : state)
    : completion unit * state :=
  try_catch
    match data with
    | BadJson m => (Throw (Error m), st)
    | Parsed response =>
        match isChatResponse response with
        | Throw e => (Throw e, st)
        | Normal true => detach_and_settle k timeout (Resolved response) st
        | Normal false => (Normal (), st)
        end
    end
    (fun error st' => detach_and_settle k timeout (Rejected error) st').

(** Frames that [responseHandler] lets pass: the data parses to a value
    other than [null] whose [type] is not ['chat_response']. *)
Definition ignored (data : wsdata) : bool :=
  match data with
  | Parsed JNull => false
  | Parsed response => negb (is_str "chat_response" (prop "type" response))
  | BadJson _ => false
  end.

(** Frames of type ['chat_response']. *)
Definition chatResponse (data : wsdata) : bool :=
  match data with
  | Parsed response => is_str "chat_response" (prop "type" response)
  | BadJson _ => false
  end.

(** The [message] listener of [connectWebSocket]. *)
Definition forwardMessage (data : wsdata) (st : state) : state :=
  match data with
  | Parsed msg => notify (BackendMessage msg) st
  | BadJson _ => st
  end.

(** The listeners are called in the order they were attached; one that
    throws ends the round. *)
Fixpoint callHandlers (hs : list (nat * nat)) (data : wsdata) (st : state)
    : completion unit * state :=
  match hs with
  | [] => (Normal (), st)
  | (k, timeout) :: hs' =>
      match responseHandler k timeout data st with
      | (Normal _, st1) => callHandlers hs' data st1
      | (Throw e, st1) => (Throw e, st1)
      end
  end.

(** A [message] event on socket [h]: the listeners attached when the
    event is emitted are the ones called. *)
Definition on_message (h : nat) (data : wsdata) (st : state) : state :=
  match sockets st !! h with
  | Some sk =>
      match callHandlers (handlers sk) data (forwardMessage data st) with
      | (Normal _, st1) => st1
      | (Throw e, st1) => set_uncaught (uncaught st1 ++ [e]) st1
      end
  | None => st
  end.

(** *** Shutdown *)

(** The part of the state that signals act on. *)
Definition processes (st : state) : option nat * list (list signal) :=
  (pythonProcess st, map signals (children st)).

(** The callback of the timer armed by [cleanup]; it reads the global
    [pythonProcess] when it runs. *)
Definition forceKill (st : state) : state :=
  match pythonProcess st with
  | Some p =>
      match children st !! p with
      | Some c => if killed c then st else upd_child p (kill SIGKILL) st
      | None => st
      end
  | None => st
  end.

(** [ws.close()]: a socket that is not yet closed starts closing. *)
Definition closeSocket (sk : socket) : socket :=
  match readyState sk with
  | CLOSED => sk
  | _ => set_readyState CLOSING sk
  end.

Definition cleanup (st : state) : state :=
  let st1 :=
    match ws st with
    | Some h => set_ws None (upd_socket h closeSocket st)
    | None => st
    end in
  match pythonProcess st1 with
  | Some p =>
      let st2 := upd_child p (kill SIGTERM) st1 in
      let st3 := snd (setTimeout ForceKill 5000 st2) in
      set_pythonProcess None st3
  | None => st1
  end.

(** *** Timers *)

Definition runCallback (w : world) (cb : callback) (st : state) : state :=
  match cb with
  | ResumeStartup =>
      match startPythonBackend_resume w st with
      | (Normal true, st1) => snd (setTimeout FirstConnect 2000 st1)
      | (_, st1) => st1
      end
  | FirstConnect => connectWebSocket st
  | Reconnect => if isQuitting st then st else connectWebSocket st
  | RequestTimeout k => settle k (Rejected (Error "Request timeout")) st
  | ForceKill => forceKill st
  end.

(** Timer [id] expires: its callback runs if the timer is still armed. *)
Definition fire (w : world) (id : nat) (st : state) : state :=
  match timers st !! id with
  | Some (Some (_, cb)) => runCallback w cb (clearTimeout id st)
  | _ => st
  end.

(** *** IPC handlers *)

Definition failure (e : error) : json :=
  JObj [("success", JBool false); ("error", JStr (message e))].

(** [await sendToPython(message)], once the promise has settled. *)
Definition awaitPromise (s : settlement) : completion json * unit :=
  match s with
  | Resolved response => (Normal response, ())
  | Rejected e => (Throw e, ())
  end.

(** The [send-message] handler, once the promise of [sendToPython] has
    settled. *)
Definition ipc_send_message (s : settlement) : completion json :=
  fst (try_catch (awaitPromise s) (fun error u => (Normal (failure error), u))).

(** The [get-backend-status] handler; [connected] is [null] when [ws]
    is. *)
Definition ipc_get_backend_status (st : state) : option bool * option bool * number :=
  (match ws st with
   | Some _ => Some (bool_decide (is_Some (openSocket st)))
   | None => None
   end,
   pythonRunning st, currentPort st).

(** The request object received by [send-backend-request]. *)
Record ipc_request := {
  url : option string;
  method : option string;
  data : option json
}.

Record response := {
  latency : Z;              (* ms until the response headers arrive *)
  ok : bool;
  status : Z;
  statusText : string;
  body : option json        (* [None]: response.json() rejects *)
}.

(** What the network does with a [fetch] call. *)
Inductive fetch_result :=
| FetchRejects (e : error)
| FetchResponds (r : response)
| FetchNever.

Fixpoint includes (needle hay : string) : bool :=
  String.prefix needle hay ||
  match hay with
  | String _ hay' => includes needle hay'
  | EmptyString => false
  end.

Definition abortError : error := Error "This operation was aborted".

(** The body of the [try] block of the [send-backend-request] handler. *)
Definition backendRequestBody (w : world) (net : fetch_result)
    (request : ipc_request) (st : state) : completion json * state :=
  if negb (globalFetch w || requireNodeFetch w || importNodeFetch w) then
    (Throw (Error "No fetch implementation available. Please install node-fetch or use Node.js 18+"), st)
  else
    match url request with
    | None => (Throw (Error "Cannot read properties of undefined (reading 'includes')"), st)
    | Some path =>
        let isDownloadRequest := includes "/model/download" path in
        let timeoutMs := if isDownloadRequest then 120000 else 30000 in
        let call :=
          {| http_port := currentPort st; http_path := path;
             http_method :=
               match method request with
               | Some m => if String.eqb m "" then "GET" else m
               | None => "GET"
               end;
             http_body := if truthy_opt (data request) then data request else None;
             http_timeout := Some timeoutMs |} in
        let st1 := set_http (http st ++ [call]) st in
        match net with
        | FetchRejects e => (Throw e, st1)
        | FetchNever => (Throw abortError, st1)
        | FetchResponds r =>
            if timeoutMs <=? latency r then (Throw abortError, st1)
            else if negb (ok r) then
              (Throw (Error ("HTTP " +:+ pretty (status r) +:+ ": " +:+ statusText r)), st1)
            else
              match body r with
              | Some d => (Normal d, st1)
              | None => (Throw (Error "Unexpected end of JSON input"), st1)
              end
        end
    end.

(** The [send-backend-request] handler. *)
Definition ipc_send_backend_request (w : world) (net : fetch_result)
    (request : ipc_request) (st : state) : completion json * state :=
  try_catch (backendRequestBody w net request st)
            (fun error st' => (Normal (failure error), st')).

(** ASCII letters; letters, digits, hyphen and underscore. *)
Definition isLetter (c : ascii) : bool :=
  between 65 90 (N_of_ascii c) || between 97 122 (N_of_ascii c).

Definition plainChar (c : ascii) : bool :=
  isLetter c || between 48 57 (N_of_ascii c) ||
  N.eqb (N_of_ascii c) 45 || N.eqb (N_of_ascii c) 95.

(** A key that electron-store takes as the name of a top-level property
    of the store: it starts with a letter, holds letters, digits,
    hyphens and underscores only, and is not a name that the library's
    path functions refuse.  Every key this application uses is of this
    kind.  Any other key (with a dot it is a path into nested objects)
    is left to [storeSetPath]. *)
Definition plainKey (k : string) : bool :=
  match k with
  | EmptyString => false
  | String c _ =>
      isLetter c && forallb plainChar (list_ascii_of_string k) &&
      negb (String.eqb k "prototype") && negb (String.eqb k "constructor")
  end.

(** [store.set(key, value)]: the store is written to its JSON file,
    from which every [store.get] reads (the write itself succeeds). *)
Definition store_set (w : world) (key : string) (value : json)
    (m : gmap string json) : completion (gmap string json) :=
  if plainKey key then Normal (<[key := viaJson value]> m)
  else storeSetPath w key value m.

(** [Object.keys(newSettings).forEach(key => store.set(key, newSettings[key]))]:
    a call that throws ends the loop. *)
Fixpoint store_set_all (w : world) (newSettings : list (string * json))
    (m : gmap string json) : completion unit * gmap string json :=
  match newSettings with
  | [] => (Normal (), m)
  | (key, value) :: rest =>
      match store_set w key value m with
      | Normal m' => store_set_all w rest m'
      | Throw e => (Throw e, m)
      end
  end.

(** The [save-settings] handler, which has no [try]: it returns
    [settings], or rejects with what [store.set] threw.  [newSettings]
    lists the entries of the object in the order of [Object.keys]. *)
Definition ipc_save_settings (w : world) (newSettings : list (string * json))
    (st : state) : state :=
  let st1 := set_settings (foldl (fun m kv => <[kv.1 := kv.2]> m) (settings st) newSettings) st in
  set_store (store_set_all w newSettings (store st1)).2 st1.

(** *** The event loop *)

Inductive event :=
| AppReady
| Stdout (output : jsstring)
| ChildClose (p : nat)
| TimerFires (id : nat)
| WsOpen (h : nat)
| WsMessage (h : nat) (data : wsdata)
| WsClose (h : nat)
| WsError (h : nat)
| SendMessage (msg : string)
| BackendRequest (request : ipc_request) (net : fetch_result)
| SaveSettings (newSettings : list (string * json))
| WindowClose
| WindowClosed
| WindowAllClosed
| BeforeQuit.

Definition step (st : state) (we : world * event) : state :=
  let '(w, e) := we in
  match e with
  | AppReady => snd (startPythonBackend_begin w st)
  | Stdout output => on_stdout output st
  | ChildClose p => on_child_close p st
  | TimerFires id => fire w id st
  | WsOpen h => on_open w h st
  | WsMessage h d => on_message h d st
  | WsClose h => on_close h st
  | WsError h => on_error h st
  | SendMessage msg => snd (sendToPython msg w st)
  | BackendRequest request net => snd (ipc_send_backend_request w net request st)
  | SaveSettings newSettings => ipc_save_settings w newSettings st
  | WindowClose => cleanup (set_isQuitting true st)
  | WindowClosed => set_mainWindow false st
  | WindowAllClosed => if mainWindow st then st else cleanup (set_isQuitting true st)
  | BeforeQuit => cleanup (set_isQuitting true st)
  end.

Definition run (st : state) (trace : list (world * event)) : state :=
  foldl step st trace.

Arguments step : simpl never.

(** *** Promises and timers along the event loop *)

(** Events that leave a pending request alone until its deadline: timer
    [t] does not expire and every inbound frame is one the response
    handler ignores. *)
Definition quiet (t : nat) (we : world * event) : bool :=
  match we.2 with
  | TimerFires id => negb (id =? t)%nat
  | WsMessage _ d => ignored d
  | _ => true
  end.

(** The promises and the timers of a state. *)
Definition pt (st : state) : list (list settlement) * list (option (Z * callback)) :=
  (promises st, timers st).

(** How the handlers change promises and timers: a call to [resolve] or
    [reject] of a promise allowed by [Pk], the end of a timer allowed by
    [Pt], a new timer that is not a request timeout, a new promise, and
    a new promise together with its request timeout. *)
Inductive evolve (Pk Pt : nat -> Prop)
  : list (list settlement) * list (option (Z * callback)) ->
    list (list settlement) * list (option (Z * callback)) -> Prop :=
| ev_refl x : evolve Pk Pt x x
| ev_trans x y z : evolve Pk Pt x y -> evolve Pk Pt y z -> evolve Pk Pt x z
| ev_record k s ps ts : Pk k -> evolve Pk Pt (ps, ts) (record k s ps, ts)
| ev_clear id ps ts : Pt id -> evolve Pk Pt (ps, ts) (ps, <[id := None]> ts)
| ev_timer ms cb ps ts :
    (forall k, cb <> RequestTimeout k) ->
    evolve Pk Pt (ps, ts) (ps, ts ++ [Some (ms, cb)])
| ev_promise ps ts : evolve Pk Pt (ps, ts) (ps ++ [[]], ts)
| ev_send ms ps ts :
    evolve Pk Pt (ps, ts) (ps ++ [[]], ts ++ [Some (ms, RequestTimeout (length ps))]).

(** Promise [k] is pending and [t] is its request timeout, still armed
    and the only one for [k]. *)
Definition pending (k t : nat) (st : state) : Prop :=
  promises st !! k = Some [] /\
  timers st !! t = Some (Some (30000, RequestTimeout k)) /\
  forall id ms, timers st !! id = Some (Some (ms, RequestTimeout k)) -> id = t.

(** Every request timeout among the timers belongs to a promise that
    exists. *)
Definition timers_wf (st : state) : Prop :=
  forall id ms k,
    timers st !! id = Some (Some (ms, RequestTimeout k)) ->
    (k < length (promises st))%nat.

End Main.

(** ** The settings window ([SettingsManager]) *)

Module Settings.
Import JS Json.

(** Text built by concatenation and template literals; a response value
    spliced into it is kept as it is rather than printed. *)
Inductive piece :=
| Lit (s : string)
| Val (v : json).
Definition text := list piece.

Abbreviation completion := (JS.completion text).

(** The argument of [sendBackendRequest]: the endpoint, the method and
    the [model_name] of [data], if any. *)
Record backend_call := {
  path : string;
  method : string;
  model_name : option string
}.

(** The elements [getElementById] finds. *)
Record dom := {
  modelStatus : bool;
  modelStatusText : bool;
  downloadProgress : bool;
  progressFill : bool;
  progressText : bool;
  settingsLoadingOverlay : bool
}.

(** The form controls; [None] when the element is missing. *)
Record form := {
  themeSelect : option string;
  voiceEnabledCheck : option bool;
  autoStartCheck : option bool;
  pythonPortInput : option string;
  modelSelect : option string
}.

Record page := {
  elements : dom;   (* which elements the document has *)
  fields : form;   (* the values of the form controls *)
  localStorage : gmap string string;
  calls : list backend_call;   (* requests made through [sendBackendRequest] *)
  saved : list string;   (* models sent with [ipcRenderer.invoke('save-settings', ...)] *)
  status : option (text * string);   (* textContent and className of [#modelStatusText] *)
  shown : option json;   (* the progress value last displayed *)
  polling : bool;   (* is the [setInterval] timer active? *)
  overlay : bool;   (* is the loading overlay shown? *)
  unhandled : list text   (* rejections of the interval callback *)
}.

Definition set_elements (v : dom) (pg : page) : page :=
  {| elements := v; fields := fields pg; localStorage := localStorage pg;
     calls := calls pg; saved := saved pg; status := status pg;
     shown := shown pg; polling := polling pg; overlay := overlay pg;
     unhandled := unhandled pg |}.

Definition set_fields (v : form) (pg : page) : page :=
  {| elements := elements pg; fields := v; localStorage := localStorage pg;
     calls := calls pg; saved := saved pg; status := status pg;
     shown := shown pg; polling := polling pg; overlay := overlay pg;
     unhandled := unhandled pg |}.

Definition set_localStorage (v : gmap string string) (pg : page) : page :=
  {| elements := elements pg; fields := fields pg; localStorage := v;
     calls := calls pg; saved := saved pg; status := status pg;
     shown := shown pg; polling := polling pg; overlay := overlay pg;
     unhandled := unhandled pg |}.

Definition set_calls (v : list backend_call) (pg : page) : page :=
  {| elements := elements pg; fields := fields pg;
     localStorage := localStorage pg; calls := v; saved := saved pg;
     status := status pg; shown := shown pg; polling := polling pg;
     overlay := overlay pg; unhandled := unhandled pg |}.

Definition set_saved (v : list string) (pg : page) : page :=
  {| elements := elements pg; fields := fields pg;
     localStorage := localStorage pg; calls := calls pg; saved := v;
     status := status pg; shown := shown pg; polling := polling pg;
     overlay := overlay pg; unhandled := unhandled pg |}.

Definition set_status (v : option (text * string)) (pg : page) : page :=
  {| elements := elements pg; fields := fields pg;
     localStorage := localStorage pg; calls := calls pg; saved := saved pg;
     status := v; shown := shown pg; polling := polling pg;
     overlay := overlay pg; unhandled := unhandled pg |}.

Definition set_shown (v : option json) (pg : page) : page :=
  {| elements := elements pg; fields := fields pg;
     localStorage := localStorage pg; calls := calls pg; saved := saved pg;
     status := status pg; shown := v; polling := polling pg;
     overlay := overlay pg; unhandled := unhandled pg |}.

Definition set_polling (v : bool) (pg : page) : page :=
  {| elements := elements pg; fields := fields pg;
     localStorage := localStorage pg; calls := calls pg; saved := saved pg;
     status := status pg; shown := shown pg; polling := v;
     overlay := overlay pg; unhandled := unhandled pg |}.

Definition set_overlay (v : bool) (pg : page) : page :=
  {| elements := elements pg; fields := fields pg;
     localStorage := localStorage pg; calls := calls pg; saved := saved pg;
     status := status pg; shown := shown pg; polling := polling pg;
     overlay := v; unhandled := unhandled pg |}.

Definition set_unhandled (v : list text) (pg : page) : page :=
  {| elements := elements pg; fields := fields pg;
     localStorage := localStorage pg; calls := calls pg; saved := saved pg;
     status := status pg; shown := shown pg; polling := polling pg;
     overlay := overlay pg; unhandled := v |}.

(** The elements of [settings.html]. *)
Definition settings_html : dom :=
  {| modelStatus := true; modelStatusText := true; downloadProgress := true;
     progressFill := true; progressText := true; settingsLoadingOverlay := true |}.

Definition defaultModel : string := "orca-mini-3b-gguf2-q4_0.gguf".

(** [s || dflt] for a string that may be missing. *)
Definition str_or (s : option string) (dflt : string) : string :=
  match s with
  | Some v => if String.eqb v "" then dflt else v
  | None => dflt
  end.

Definition setItem (key value : string) (pg : page) : page :=
  set_localStorage (<[key := value]> (localStorage pg)) pg.

Definition string_of_bool (b : bool) : string := if b then "true" else "false".

(** [v !== s] for a response value [v]. *)
Definition differs (v : json) (s : string) : bool :=
  match v with
  | JStr s' => negb (String.eqb s' s)
  | _ => true
  end.

Definition setStatus (t : text) (cls : string) (pg : page) : page :=
  if modelStatus (elements pg) && modelStatusText (elements pg)
  then set_status (Some (t, cls)) pg
  else pg.

Definition showSuccessMessage (t : text) := setStatus t "status-text success".
Definition showInfoMessage (t : text) := setStatus t "status-text info".
Definition showErrorMessage (t : text) := setStatus t "status-text error".

Definition showLoadingOverlay (show : bool) (pg : page) : page :=
  if settingsLoadingOverlay (elements pg) then set_overlay show pg else pg.

Definition setTheme (theme : string) (pg : page) : page :=
  setItem "jarvis-theme" theme pg.

Definition modelCall (p : string) (m : string) : backend_call :=
  {| path := p; method := "POST"; model_name := Some m |}.

Definition getCall (p : string) : backend_call :=
  {| path := p; method := "GET"; model_name := None |}.

(** [response && response.success]. *)
Definition succeeded (response : json) : bool :=
  truthy response && truthy_opt (prop "success" response).

(** [response?.error || dflt]. *)
Definition error_or (response : json) (dflt : string) : piece :=
  match prop "error" response with
  | Some v => if truthy v then Val v else Lit dflt
  | None => Lit dflt
  end.

Section Workflow.

(** The reply [sendBackendRequest] resolves with, for the [n]-th request
    of the page: what the main process returns, or the
    [{success:false, error}] that [sendBackendRequest] makes of a failed
    invoke. *)
Variable backend : nat -> backend_call -> json.

(** [progress >= 100] when [progress] is a string, an array or an
    object: ToPrimitive and the string-to-number grammar are the
    runtime's.  A [Throw] is the TypeError of a value that cannot be
    converted, which the template literal before the comparison raises
    as well. *)
Variable coerced_ge_100 : json -> completion bool.

Definition sendBackendRequest (c : backend_call) (pg : page) : json * page :=
  (backend (length (calls pg)) c, set_calls (calls pg ++ [c]) pg).

(** [ipcRenderer.invoke('save-settings', {'jarvis-ai-model': m})] inside
    its own [try]; a rejection is only logged. *)
Definition saveToStore (m : string) (pg : page) : page :=
  set_saved (saved pg ++ [m]) pg.

(** [status === 'completed' || progress >= 100], after the two template
    literals that display [progress]. *)
Definition downloadComplete (progressResponse : json) : completion bool :=
  let progress := or_else (prop "progress" progressResponse) (JNum 0) in
  let status := or_else (prop "status" progressResponse) (JStr "downloading") in
  let completed := is_str "completed" (Some status) in
  match progress with
  | JNum q => Normal (completed || Qle_bool 100 q)
  | JInf negative => Normal (completed || negb negative)
  | JBool _ | JNull => Normal completed
  | JStr _ | JArr _ | JObj _ =>
      match coerced_ge_100 progress with
      | Normal b => Normal (completed || b)
      | Throw e => Throw e
      end
  end.

(** One run of the [setInterval] callback of [downloadAndSwitchModel],
    from the progress request to the end of the callback.  [Normal b]:
    the callback's promise resolved, [b] telling whether it returned
    [true]; [Throw]: it rejected. *)
Definition pollBody (modelName : string) (pg : page) : completion bool * page :=
  let '(progressResponse, pg1) := sendBackendRequest (getCall "/model/progress") pg in
  if succeeded progressResponse then
    let progress := or_else (prop "progress" progressResponse) (JNum 0) in
    let dlStatus := or_else (prop "status" progressResponse) (JStr "downloading") in
    if negb (progressFill (elements pg1)) then
      (Throw [Lit "Cannot read properties of null (reading 'style')"], pg1)
    else
      match downloadComplete progressResponse with
      | Throw e => (Throw e, pg1)
      | Normal complete =>
          if negb (progressText (elements pg1)) then
            (Throw [Lit "Cannot set properties of null (setting 'textContent')"], pg1)
          else
            let pg2 := set_shown (Some progress) pg1 in
            if complete then
              let pg3 := set_polling false pg2 in
              let pg4 := set_status (Some ([Lit "Loading new model..."],
                                           default "" (snd <$> status pg3))) pg3 in
              let '(switchResponse, pg5) :=
                sendBackendRequest (modelCall "/model/switch" modelName) pg4 in
              if succeeded switchResponse then
                let pg6 := set_status (Some ([Lit "Model loaded successfully!"],
                                             "status-text success")) pg5 in
                (Normal true,
                 saveToStore modelName (setItem "jarvis-ai-model" modelName pg6))
              else
                (Throw [Lit "Failed to switch model: ";
                        error_or switchResponse "Unknown error"], pg5)
            else if is_str "failed" (Some dlStatus) then
              (Throw [error_or progressResponse "Download failed"], set_polling false pg2)
            else (Normal false, pg2)
      end
  else (Normal false, pg1).

(** A progress reply that reports the download complete: [progress] is
    a number of 100 or more, or [status] is ['completed'] (with
    [progress] absent or a plain number, boolean or [null]). *)
Definition reportsComplete (progressResponse : json) : Prop :=
  (exists q, prop "progress" progressResponse = Some (JNum q) /\ (100 <= q)%Q) \/
  (prop "status" progressResponse = Some (JStr "completed") /\
   match prop "progress" progressResponse with
   | None | Some (JNum _) | Some (JInf _) | Some (JBool _) | Some JNull => True
   | _ => False
   end).

(** A progress reply that leaves the poll running: no [success], or a
    download neither complete nor ['failed']. *)
Definition waiting (progressResponse : json) : bool :=
  negb (succeeded progressResponse) ||
  match downloadComplete progressResponse with
  | Normal false =>
      negb (is_str "failed"
              (Some (or_else (prop "status" progressResponse) (JStr "downloading"))))
  | _ => false
  end.

(** The interval callback: [pollBody] inside
    [try { ... } catch (error) { clearInterval(pollInterval); throw error }]. *)
Definition pollTick (modelName : string) (pg : page) : page :=
  match try_catch (pollBody modelName pg)
                  (fun error pg' => (Throw error, set_polling false pg')) with
  | (Normal _, pg') => pg'
  | (Throw e, pg') => set_unhandled (unhandled pg' ++ [e]) pg'
  end.

(** The interval fires [n] times, each callback finishing before the
    next one starts; a cleared interval fires no more. *)
Fixpoint poll (n : nat) (modelName : string) (pg : page) : page :=
  match n with
  | O => pg
  | S n' => if polling pg then poll n' modelName (pollTick modelName pg) else pg
  end.

(** [downloadAndSwitchModel(modelName)], up to its return. *)
Definition downloadAndSwitchModel (modelName : string) (pg : page) : bool * page :=
  let el := elements pg in
  if negb (modelStatus el && modelStatusText el && downloadProgress el) then (false, pg)
  else
    let pg1 := set_status (Some ([Lit "Starting model download..."], "status-text info")) pg in
    match
      try_catch
        (let '(downloadResponse, pg2) :=
           sendBackendRequest (modelCall "/model/download" modelName) pg1 in
         if negb (succeeded downloadResponse) then
           (Throw [error_or downloadResponse "Failed to start download"], pg2)
         else
           let pg3 := set_status
             (Some ([Lit "Downloading model... This may take several minutes."],
                    "status-text info")) pg2 in
           (Normal true, set_polling true pg3))
        (fun error pg' =>
           (Normal false,
            set_status (Some (Lit "Error downloading model: " :: error,
                              "status-text error")) pg'))
    with
    | (Normal b, pg') => (b, pg')
    | (Throw _, pg') => (false, pg')
    end.

(** The [if (modelChanged) { try { ... } catch ... }] block of
    [saveSettingsInternal]. *)
Definition handleModelChange (selectedModel : string) (pg : page) : page :=
  snd (try_catch
    (let '(checkResponse, pg1) :=
       sendBackendRequest (modelCall "/model/check" selectedModel) pg in
     if succeeded checkResponse then
       if truthy_opt (prop "available" checkResponse) then
         let '(switchResponse, pg2) :=
           sendBackendRequest (modelCall "/model/switch" selectedModel) pg1 in
         if succeeded switchResponse then
           let pg3 := saveToStore selectedModel (setItem "jarvis-ai-model" selectedModel pg2) in
           (Normal (),
            showSuccessMessage
              [Lit "Successfully switched to "; Lit selectedModel; Lit "!"] pg3)
         else
           (Throw [Lit "Failed to switch model: "; error_or switchResponse "Unknown error"], pg2)
       else
         let pg2 := showInfoMessage [Lit "Downloading "; Lit selectedModel; Lit "..."] pg1 in
         let '(downloadSuccess, pg3) := downloadAndSwitchModel selectedModel pg2 in
         if downloadSuccess then
           (Normal (),
            showSuccessMessage
              [Lit "Successfully downloaded and switched to "; Lit selectedModel; Lit "!"]
              pg3)
         else (Normal (), pg3)
     else (@Throw text unit [Lit "Unable to check model availability"], pg1))
    (fun error pg' =>
       (Normal (),
        showErrorMessage
          (Lit "Model switching failed: " :: error ++ [Lit ". Other settings have been applied."])
          pg'))).

(** [modelChanged], from the model selected, the one in [localStorage]
    and the reply of [/model/current]. *)
Definition modelChanged (selectedModel previousModel : string)
    (currentModelResponse : json) : bool :=
  negb (String.eqb previousModel selectedModel) ||
  match prop "current_model" currentModelResponse with
  | Some backendCurrentModel =>
      truthy backendCurrentModel && differs backendCurrentModel selectedModel
  | None => false
  end.

(** [saveSettingsInternal], up to its return.  Nothing in its body
    throws here (storage and DOM writes succeed), so the outer [catch],
    which would return [false], is not reached. *)
Definition saveSettingsInternal (pg : page) : bool * page :=
  let pg0 := showLoadingOverlay true pg in
  let f := fields pg0 in
  let selectedModel := str_or (modelSelect f) defaultModel in
  let '(currentModelResponse, pg1) := sendBackendRequest (getCall "/model/current") pg0 in
  let previousModel := str_or (localStorage pg1 !! "jarvis-ai-model") defaultModel in
  let changed := modelChanged selectedModel previousModel currentModelResponse in
  let pg2 :=
    setItem "jarvis-ai-model" selectedModel
      (setItem "jarvis-backend-port" (str_or (pythonPortInput f) "8000")
        (setItem "jarvis-auto-start"
           (string_of_bool (bool_decide (autoStartCheck f = Some true)))
          (setItem "jarvis-voice-enabled"
             (string_of_bool (bool_decide (voiceEnabledCheck f <> Some false)))
            (setItem "jarvis-theme" (str_or (themeSelect f) "light") pg1)))) in
  let pg3 :=
    match themeSelect f with
    | Some theme => setTheme theme pg2
    | None => pg2
    end in
  let pg4 :=
    if changed then handleModelChange selectedModel pg3
    else showSuccessMessage [Lit "Settings applied successfully!"] pg3 in
  (true, showLoadingOverlay false pg4).

End Workflow.

End Settings.

(** ** Sample inputs *)

Module Sample.
Import JS Json Main.

(** A store that refuses every key that is not a plain name. *)
Definition plainOnly (key : string) (value : json) (m : gmap string json)
    : completion (gmap string json) :=
  Throw (Error "Expected a plain key").

Definition world0 : world :=
  {| scriptExists := false; spawned := Spawned; portFile := Absent;
     globalFetch := true; requireNodeFetch := false; importNodeFetch := false;
     clock := 1700000000000; storeSetPath := plainOnly |}.

Definition world_started : world :=
  {| scriptExists := true; spawned := Spawned; portFile := Absent;
     globalFetch := true; requireNodeFetch := false; importNodeFetch := false;
     clock := 1700000000000; storeSetPath := plainOnly |}.

Definition world_with_file (text : jsstring) : world :=
  {| scriptExists := true; spawned := Spawned; portFile := Content text;
     globalFetch := true; requireNodeFetch := false; importNodeFetch := false;
     clock := 1700000005000; storeSetPath := plainOnly |}.

(** The backend has been started. *)
Definition started : state := run (init ∅) [(world_started, AppReady)].

(** The backend has been started and the session is open on socket 0. *)
Definition connected : state :=
  run started [(world_started, TimerFires 0); (world_started, TimerFires 1);
               (world_started, WsOpen 0)].

(** A status frame and a chat response carrying someone else's id. *)
Definition statusFrame : wsdata :=
  Parsed (JObj [("type", JStr "status"); ("state", JStr "thinking")]).

Definition chatReply : json :=
  JObj [("type", JStr "chat_response"); ("id", JStr "not-the-request-id");
        ("response", JStr "Hello.")].

(** A backend that answers 404. *)
Definition notFound : fetch_result :=
  FetchResponds {| latency := 12; ok := false; status := 404;
                   statusText := "Not Found"; body := None |}.

Definition checkRequest : ipc_request :=
  {| url := Some "/model/check"; method := Some "POST";
     data := Some (JObj [("model_name", JStr "mistral.gguf")]) |}.

End Sample.

Module SettingsSample.
Import JS Json Settings.

(** The settings page with another model selected than the stored one. *)
Definition page0 : page :=
  {| elements := settings_html;
     fields := {| themeSelect := Some "dark"; voiceEnabledCheck := Some true;
                  autoStartCheck := Some false; pythonPortInput := Some "8000";
                  modelSelect := Some "mistral.gguf" |};
     localStorage := {[ "jarvis-ai-model" := defaultModel ]};
     calls := []; saved := []; status := None; shown := None;
     polling := false; overlay := false; unhandled := [] |}.

Definition okReply (extra : list (string * json)) : json :=
  JObj (("success", JBool true) :: extra).

(** A backend that does not have the model: it accepts the download,
    reports 40 percent, then 100, and performs the switch. *)
Definition backendMissing (n : nat) (c : backend_call) : json :=
  match n with
  | 0%nat => okReply [("current_model", JStr defaultModel)]
  | 1%nat => okReply [("available", JBool false)]
  | 2%nat => okReply []
  | 3%nat => okReply [("progress", JNum 40); ("status", JStr "downloading")]
  | 4%nat => okReply [("progress", JNum 100); ("status", JStr "downloading")]
  | _ => okReply []
  end.

(** Strings, arrays and objects taken as not reaching 100. *)
Definition neverReached (v : json) : completion bool := Normal false.

End SettingsSample.

Module SyncSample.
Import JS Json Main Sample.

(** A store file that holds a model and a theme. *)
Definition stored0 : gmap string json :=
  {[ "jarvis-ai-model" := JStr "phi-2.Q4_0.gguf"; "jarvis-theme" := JStr "light" ]}.

(** The backend is started and the first session opens. *)
Definition startTrace : list (world * event) :=
  [(world_started, AppReady); (world_started, TimerFires 0);
   (world_started, TimerFires 1); (world_started, WsOpen 0)].

End SyncSample.

(** ** More of the main process *)

Module MainMore.
Import JS Json Main.

(** The [get-settings] handler. *)
Definition ipc_get_settings (st : state) : gmap string json := settings st.


(** The [close] and [error] events of a socket. *)
Definition socketFailure (e : event) : bool :=
  match e with
  | WsClose _ | WsError _ => true
  | _ => false
  end.

(** No armed timer would open a connection: none is the start-up wait or
    the first connection, and a reconnection is armed only in a state
    that is quitting. *)
Definition noConnectPending (st : state) : Prop :=
  forall id ms cb,
    timers st !! id = Some (Some (ms, cb)) ->
    cb <> ResumeStartup /\ cb <> FirstConnect /\
    (cb = Reconnect -> isQuitting st = true).

(** The quitting flag and the timers of a state. *)
Definition qt (st : state) : bool * list (option (Z * callback)) :=
  (isQuitting st, timers st).

(** How the handlers other than the start of the backend change the
    quitting flag and the timers: a timer ends, a timer is armed that is
    neither the start-up wait nor the first connection (and is a
    reconnection only in a state that is quitting), the flag is set. *)
Inductive calm : bool * list (option (Z * callback)) ->
                 bool * list (option (Z * callback)) -> Prop :=
| calm_refl x : calm x x
| calm_trans x y z : calm x y -> calm y z -> calm x z
| calm_clear id q ts : calm (q, ts) (q, <[id := None]> ts)
| calm_timer ms cb q ts :
    cb <> ResumeStartup -> cb <> FirstConnect -> (cb = Reconnect -> q = true) ->
    calm (q, ts) (q, ts ++ [Some (ms, cb)])
| calm_quit q ts : calm (q, ts) (true, ts).

(** The digits a run of decimal digit code units stands for. *)
Definition digitValues (ds : jsstring) : list Z :=
  map (fun c => Z.of_N c - 48) ds.

End MainMore.

Module MoreSample.
Import JS Json Main Sample.

(** The connected application after [before-quit]. *)
Definition quitting : state := step connected (world_started, BeforeQuit).

(** A request is in flight on the open session. *)
Definition asking : state := (sendToPython "hello" world_started connected).2.

End MoreSample.

Module IpcSample.
Import JS Json Main Sample.

(** A reply that takes 45 seconds. *)
Definition slowReply : fetch_result :=
  FetchResponds {| latency := 45000; ok := true; status := 200; statusText := "OK";
                   body := Some (JObj [("success", JBool true)]) |}.

Definition downloadRequest : ipc_request :=
  {| url := Some "/model/download"; method := Some "POST";
     data := Some (JObj [("model_name", JStr "mistral.gguf")]) |}.

End IpcSample.

(** ** More of the settings window *)

Module SettingsMore.
Import JS Json Settings.

(** The option values of the two [select] elements of [settings.html]. *)
Definition themeOptions : list string := ["dark"; "light"; "blue"].

Definition modelOptions : list string :=
  ["orca-mini-3b-gguf2-q4_0.gguf"; "mistral-7b-openorca.gguf2.Q4_0.gguf";
   "nous-hermes-llama2-13b.q4_0.bin"; "phi-2.Q4_0.gguf"].

(** [select.value = v]: the option with that value is selected; when
    there is none, no option is and the value reads as the empty
    string. *)
Definition assignSelect (options : list string) (v : string) : string :=
  if bool_decide (v ∈ options) then v else "".

(** [`${v}`] for a property that may be [undefined]. *)
Definition printed (v : option json) : piece :=
  match v with
  | Some j => Val j
  | None => Lit "undefined"
  end.

Section Loading.

Variable backend : nat -> backend_call -> json.

(** [input.value = v] on the number input: the value sanitization of the
    element, the browser's. *)
Variable sanitizeNumber : string -> string.

(** [checkModelAvailability(modelName)], run to its end. *)
Definition checkModelAvailability (modelName : string) (pg : page) : page :=
  if negb (modelStatus (elements pg) && modelStatusText (elements pg)) then pg
  else
    let pg1 := set_status (Some ([Lit "Checking model availability..."],
                                 "status-text info")) pg in
    let '(response, pg2) :=
      sendBackendRequest backend (modelCall "/model/check" modelName) pg1 in
    if succeeded response then
      if truthy_opt (prop "available" response) then
        set_status (Some ([Lit "Model is available and ready to use"],
                          "status-text success")) pg2
      else
        set_status (Some ([Lit "Model not found - will be downloaded when applied"],
                          "status-text warning")) pg2
    else
      let errorMsg :=
        if truthy response then [Lit "Backend error: "; printed (prop "error" response)]
        else [Lit "Unable to check model status - backend not connected"] in
      set_status (Some (errorMsg, "status-text error")) pg2.

(** [loadSettings], with the model check it starts run to its end. *)
Definition loadSettings (pg : page) : page :=
  let f := fields pg in
  let ls := localStorage pg in
  let currentTheme := str_or (ls !! "jarvis-theme") "light" in
  let voiceEnabled := bool_decide (ls !! "jarvis-voice-enabled" <> Some "false") in
  let autoStart := bool_decide (ls !! "jarvis-auto-start" = Some "true") in
  let backendPort := str_or (ls !! "jarvis-backend-port") "8000" in
  let selectedModel := str_or (ls !! "jarvis-ai-model") defaultModel in
  let f' :=
    {| themeSelect := (fun _ => assignSelect themeOptions currentTheme) <$> themeSelect f;
       voiceEnabledCheck := (fun _ => voiceEnabled) <$> voiceEnabledCheck f;
       autoStartCheck := (fun _ => autoStart) <$> autoStartCheck f;
       pythonPortInput := (fun _ => sanitizeNumber backendPort) <$> pythonPortInput f;
       modelSelect := (fun _ => assignSelect modelOptions selectedModel) <$> modelSelect f |} in
  let pg1 := set_fields f' pg in
  let pg2 :=
    match themeSelect f with
    | Some _ => setTheme currentTheme pg1
    | None => pg1
    end in
  match modelSelect f with
  | Some _ => checkModelAvailability selectedModel pg2
  | None => pg2
  end.

(** [cancelSettings]. *)
Definition cancelSettings (pg : page) : page := loadSettings pg.

End Loading.

End SettingsMore.

(** ** The chat window ([WorkingJarvisRenderer]) *)

Module Renderer.
Import JS Json.

(** The text of a chat message: what the user typed, one of the
    script's own strings, a value taken from a reply, or the text
    [handleActionResult] builds for an action result. *)
Inductive text :=
| Typed (s : jsstring)
| Fixed (s : string)
| Value (v : json)
| ActionText (result : json).

Abbreviation completion := (JS.completion string).

Record entry := {
  e_text : text;
  e_sender : string;
  e_type : string;
  e_timestamp : Z
}.

(** What [JSON.stringify] followed by [JSON.parse] makes of a value: an
    infinity becomes [null]. *)
Fixpoint reparsed (j : json) : json :=
  match j with
  | JInf _ => JNull
  | JArr items => JArr (map reparsed items)
  | JObj fields => JObj (map (fun kv => (kv.1, reparsed kv.2)) fields)
  | _ => j
  end.

(** A conversation as [saveToHistory] stores it. *)
Record conversation := {
  c_timestamp : Z;
  c_userMessage : text;
  c_aiResponse : option json;
  c_action : option json;
  c_actionResult : option json
}.

(** The item [chatHistory] of [localStorage]: absent (or empty), text
    that does not parse to an array, or an array of conversations. *)
Inductive stored :=
| NoItem
| NotArray
| Items (l : list conversation).

(** The status object of a [backend-status] message or of
    [get-backend-status]; [None] is [null] or an absent field. *)
Record status := {
  connected : option bool;
  pythonRunning : option bool
}.

Record view := {
  chatMessages : bool;   (* does [#chatMessages] exist? *)
  typingIndicator : bool;   (* does [#typingIndicator] exist? *)
  statusElements : bool;   (* were the status dot and the status text found? *)
  messageInput : option jsstring;   (* the value of [#messageInput]; [None]: no such element *)
  isProcessing : bool;
  backendConnected : option bool;   (* [status.connected] as last received; [None] is [null] *)
  messageHistory : list entry;
  bubbles : list entry;   (* the messages appended to [#chatMessages] *)
  typing : bool;   (* is the typing indicator shown? *)
  statusLabel : option string;   (* the text of the status indicator *)
  chatHistory : stored;   (* [localStorage] item [chatHistory] *)
  invoked : list text;   (* messages passed to [ipcRenderer.invoke('send-message', ...)] *)
  dataTheme : option string;   (* the [data-theme] attribute of the document *)
  themeItem : option string   (* [localStorage] item [jarvis-theme] *)
}.

Definition set_chatMessages (v : bool) (vw : view) : view :=
  {| chatMessages := v; typingIndicator := typingIndicator vw;
     statusElements := statusElements vw; messageInput := messageInput vw;
     isProcessing := isProcessing vw;
     backendConnected := backendConnected vw;
     messageHistory := messageHistory vw; bubbles := bubbles vw;
     typing := typing vw; statusLabel := statusLabel vw;
     chatHistory := chatHistory vw; invoked := invoked vw;
     dataTheme := dataTheme vw; themeItem := themeItem vw |}.

Definition set_typingIndicator (v : bool) (vw : view) : view :=
  {| chatMessages := chatMessages vw; typingIndicator := v;
     statusElements := statusElements vw; messageInput := messageInput vw;
     isProcessing := isProcessing vw;
     backendConnected := backendConnected vw;
     messageHistory := messageHistory vw; bubbles := bubbles vw;
     typing := typing vw; statusLabel := statusLabel vw;
     chatHistory := chatHistory vw; invoked := invoked vw;
     dataTheme := dataTheme vw; themeItem := themeItem vw |}.

Definition set_statusElements (v : bool) (vw : view) : view :=
  {| chatMessages := chatMessages vw; typingIndicator := typingIndicator vw;
     statusElements := v; messageInput := messageInput vw;
     isProcessing := isProcessing vw;
     backendConnected := backendConnected vw;
     messageHistory := messageHistory vw; bubbles := bubbles vw;
     typing := typing vw; statusLabel := statusLabel vw;
     chatHistory := chatHistory vw; invoked := invoked vw;
     dataTheme := dataTheme vw; themeItem := themeItem vw |}.

Definition set_messageInput (v : option jsstring) (vw : view) : view :=
  {| chatMessages := chatMessages vw; typingIndicator := typingIndicator vw;
     statusElements := statusElements vw; messageInput := v;
     isProcessing := isProcessing vw;
     backendConnected := backendConnected vw;
     messageHistory := messageHistory vw; bubbles := bubbles vw;
     typing := typing vw; statusLabel := statusLabel vw;
     chatHistory := chatHistory vw; invoked := invoked vw;
     dataTheme := dataTheme vw; themeItem := themeItem vw |}.

Definition set_isProcessing (v : bool) (vw : view) : view :=
  {| chatMessages := chatMessages vw; typingIndicator := typingIndicator vw;
     statusElements := statusElements vw; messageInput := messageInput vw;
     isProcessing := v; backendConnected := backendConnected vw;
     messageHistory := messageHistory vw; bubbles := bubbles vw;
     typing := typing vw; statusLabel := statusLabel vw;
     chatHistory := chatHistory vw; invoked := invoked vw;
     dataTheme := dataTheme vw; themeItem := themeItem vw |}.

Definition set_backendConnected (v : option bool) (vw : view) : view :=
  {| chatMessages := chatMessages vw; typingIndicator := typingIndicator vw;
     statusElements := statusElements vw; messageInput := messageInput vw;
     isProcessing := isProcessing vw; backendConnected := v;
     messageHistory := messageHistory vw; bubbles := bubbles vw;
     typing := typing vw; statusLabel := statusLabel vw;
     chatHistory := chatHistory vw; invoked := invoked vw;
     dataTheme := dataTheme vw; themeItem := themeItem vw |}.

Definition set_messageHistory (v : list entry) (vw : view) : view :=
  {| chatMessages := chatMessages vw; typingIndicator := typingIndicator vw;
     statusElements := statusElements vw; messageInput := messageInput vw;
     isProcessing := isProcessing vw;
     backendConnected := backendConnected vw; messageHistory := v;
     bubbles := bubbles vw; typing := typing vw;
     statusLabel := statusLabel vw; chatHistory := chatHistory vw;
     invoked := invoked vw; dataTheme := dataTheme vw;
     themeItem := themeItem vw |}.

Definition set_bubbles (v : list entry) (vw : view) : view :=
  {| chatMessages := chatMessages vw; typingIndicator := typingIndicator vw;
     statusElements := statusElements vw; messageInput := messageInput vw;
     isProcessing := isProcessing vw;
     backendConnected := backendConnected vw;
     messageHistory := messageHistory vw; bubbles := v; typing := typing vw;
     statusLabel := statusLabel vw; chatHistory := chatHistory vw;
     invoked := invoked vw; dataTheme := dataTheme vw;
     themeItem := themeItem vw |}.

Definition set_typing (v : bool) (vw : view) : view :=
  {| chatMessages := chatMessages vw; typingIndicator := typingIndicator vw;
     statusElements := statusElements vw; messageInput := messageInput vw;
     isProcessing := isProcessing vw;
     backendConnected := backendConnected vw;
     messageHistory := messageHistory vw; bubbles := bubbles vw; typing := v;
     statusLabel := statusLabel vw; chatHistory := chatHistory vw;
     invoked := invoked vw; dataTheme := dataTheme vw;
     themeItem := themeItem vw |}.

Definition set_statusLabel (v : option string) (vw : view) : view :=
  {| chatMessages := chatMessages vw; typingIndicator := typingIndicator vw;
     statusElements := statusElements vw; messageInput := messageInput vw;
     isProcessing := isProcessing vw;
     backendConnected := backendConnected vw;
     messageHistory := messageHistory vw; bubbles := bubbles vw;
     typing := typing vw; statusLabel := v; chatHistory := chatHistory vw;
     invoked := invoked vw; dataTheme := dataTheme vw;
     themeItem := themeItem vw |}.

Definition set_chatHistory (v : stored) (vw : view) : view :=
  {| chatMessages := chatMessages vw; typingIndicator := typingIndicator vw;
     statusElements := statusElements vw; messageInput := messageInput vw;
     isProcessing := isProcessing vw;
     backendConnected := backendConnected vw;
     messageHistory := messageHistory vw; bubbles := bubbles vw;
     typing := typing vw; statusLabel := statusLabel vw; chatHistory := v;
     invoked := invoked vw; dataTheme := dataTheme vw;
     themeItem := themeItem vw |}.

Definition set_invoked (v : list text) (vw : view) : view :=
  {| chatMessages := chatMessages vw; typingIndicator := typingIndicator vw;
     statusElements := statusElements vw; messageInput := messageInput vw;
     isProcessing := isProcessing vw;
     backendConnected := backendConnected vw;
     messageHistory := messageHistory vw; bubbles := bubbles vw;
     typing := typing vw; statusLabel := statusLabel vw;
     chatHistory := chatHistory vw; invoked := v; dataTheme := dataTheme vw;
     themeItem := themeItem vw |}.

Definition set_dataTheme (v : option string) (vw : view) : view :=
  {| chatMessages := chatMessages vw; typingIndicator := typingIndicator vw;
     statusElements := statusElements vw; messageInput := messageInput vw;
     isProcessing := isProcessing vw;
     backendConnected := backendConnected vw;
     messageHistory := messageHistory vw; bubbles := bubbles vw;
     typing := typing vw; statusLabel := statusLabel vw;
     chatHistory := chatHistory vw; invoked := invoked vw; dataTheme := v;
     themeItem := themeItem vw |}.

Definition set_themeItem (v : option string) (vw : view) : view :=
  {| chatMessages := chatMessages vw; typingIndicator := typingIndicator vw;
     statusElements := statusElements vw; messageInput := messageInput vw;
     isProcessing := isProcessing vw;
     backendConnected := backendConnected vw;
     messageHistory := messageHistory vw; bubbles := bubbles vw;
     typing := typing vw; statusLabel := statusLabel vw;
     chatHistory := chatHistory vw; invoked := invoked vw;
     dataTheme := dataTheme vw; themeItem := v |}.

(** The window when [WorkingJarvisRenderer] has been constructed, in a
    document and a storage that are given. *)
Definition start (chat typingEl statusEls : bool) (input : option jsstring)
    (history : stored) (attribute item : option string) : view :=
  {| chatMessages := chat; typingIndicator := typingEl; statusElements := statusEls;
     messageInput := input; isProcessing := false; backendConnected := Some false;
     messageHistory := []; bubbles := []; typing := false; statusLabel := None;
     chatHistory := history; invoked := []; dataTheme := attribute; themeItem := item |}.

(** [addMessage(text, sender, type)] at time [now]. *)
Definition addMessage (t : text) (sender type : string) (now : Z) (vw : view) : view :=
  if negb (chatMessages vw) then vw
  else
    let e := {| e_text := t; e_sender := sender; e_type := type; e_timestamp := now |} in
    let history := messageHistory vw ++ [e] in
    let vw1 := set_bubbles (bubbles vw ++ [e]) vw in
    set_messageHistory
      (if (100 <? length history)%nat then drop (length history - 100) history
       else history) vw1.

Definition stringified (t : text) : text :=
  match t with
  | Value v => Value (reparsed v)
  | ActionText r => ActionText (reparsed r)
  | _ => t
  end.

(** [saveToHistory(conversation)]: anything thrown is caught and
    logged. *)
Definition saveToHistory (c : conversation) (vw : view) : view :=
  let c' := {| c_timestamp := c_timestamp c;
               c_userMessage := stringified (c_userMessage c);
               c_aiResponse := reparsed <$> c_aiResponse c;
               c_action := reparsed <$> c_action c;
               c_actionResult := reparsed <$> c_actionResult c |} in
  match chatHistory vw with
  | NoItem => set_chatHistory (Items (take 50 [c'])) vw
  | Items l => set_chatHistory (Items (take 50 (c' :: l))) vw
  | NotArray => vw
  end.

Definition showTypingIndicator (show : bool) (vw : view) : view :=
  if typingIndicator vw then set_typing show vw else vw.

(** [v || undefined] as a condition: the property is there and truthy. *)
Definition present (v : option json) : option json :=
  match v with
  | Some j => if truthy j then Some j else None
  | None => None
  end.

Section Chat.

(** Does [handleActionResult] complete on this result?  It applies
    string and array methods ([slice], [join], [substring]) to the
    fields of the result, which throw on values of other types; when it
    completes it has added one message, of type ['success'] or
    ['error']. *)
Variable actionFormats : json -> bool.

(** [handleActionResult(result)], for a truthy [result]. *)
Definition handleActionResult (result : json) (now : Z) (vw : view)
    : completion unit * view :=
  if actionFormats result then
    (Normal (),
     addMessage (ActionText result) "ai"
       (if truthy_opt (prop "success" result) then "success" else "error") now vw)
  else (Throw "TypeError", vw).

(** [t || ''] for the text of an entry. *)
Definition textOrEmpty (t : text) : text :=
  match t with
  | Typed [] => Fixed ""
  | Value v => if truthy v then t else Fixed ""
  | _ => t
  end.

(** [this.messageHistory[this.messageHistory.length - 2]?.text || '']. *)
Definition previousText (vw : view) : text :=
  match messageHistory vw !! (length (messageHistory vw) - 2)%nat with
  | Some e =>
      if (2 <=? length (messageHistory vw))%nat then textOrEmpty (e_text e) else Fixed ""
  | None => Fixed ""
  end.

(** [handleChatResponse(response)], for a [response] other than
    [null]. *)
Definition handleChatResponse (response : json) (now : Z) (vw : view)
    : completion unit * view :=
  let vw1 :=
    match present (prop "response" response) with
    | Some r => addMessage (Value r) "ai" "normal" now vw
    | None => vw
    end in
  let after :=
    match present (prop "action_result" response) with
    | Some result => handleActionResult result now vw1
    | None => (Normal (), vw1)
    end in
  match after with
  | (Normal _, vw2) =>
      (Normal (),
       saveToHistory
         {| c_timestamp := now; c_userMessage := previousText vw2;
            c_aiResponse := prop "response" response;
            c_action := prop "action_executed" response;
            c_actionResult := prop "action_result" response |} vw2)
  | (Throw e, vw2) => (Throw e, vw2)
  end.

(** Where [sendMessage] stands when it yields: finished, or waiting for
    the reply to the message it has passed to the main process. *)
Inductive progress :=
| Finished
| Awaiting.

Definition warning : string :=
  "I'm not connected to the AI backend yet. The backend is starting up, please wait a moment and try again.".

Definition apology : string :=
  "I apologize, but I encountered an error processing your request. Please try again.".

(** The [finally] block of [sendMessage]. *)
Definition finish (vw : view) : view :=
  showTypingIndicator false (set_isProcessing false vw).

(** [sendMessage(text)] up to its [await], or to its end. *)
Definition sendMessage_begin (quick : option string) (now : Z) (vw : view)
    : progress * view :=
  if isProcessing vw then (Finished, vw)
  else
    let message :=
      match quick with
      | Some s => if String.eqb s "" then None else Some (Fixed s)
      | None => None
      end in
    let message :=
      match message with
      | Some m => Some m
      | None =>
          match messageInput vw with
          | Some v => if bool_decide (trim v = []) then None else Some (Typed (trim v))
          | None => None
          end
      end in
    match message with
    | None => (Finished, vw)
    | Some m =>
        let vw1 := showTypingIndicator true (set_isProcessing true vw) in
        let vw2 :=
          match messageInput vw1, quick with
          | Some _, None => set_messageInput (Some []) vw1
          | Some _, Some s => if String.eqb s "" then set_messageInput (Some []) vw1 else vw1
          | None, _ => vw1
          end in
        let vw3 := addMessage m "user" "normal" now vw2 in
        if bool_decide (backendConnected vw3 = Some true) then
          (Awaiting, set_invoked (invoked vw3 ++ [m]) vw3)
        else (Finished, finish (addMessage (Fixed warning) "ai" "warning" now vw3))
    end.

(** [sendMessage] from the reply on: [reply] is what the invoke
    resolved with, or the error it rejected with. *)
Definition sendMessage_resume (reply : completion json) (now : Z) (vw : view) : view :=
  let body :=
    match reply with
    | Throw e => (Throw e, vw)
    | Normal JNull => (Throw "TypeError", vw)
    | Normal response =>
        handleChatResponse (or_else (prop "data" response) response) now vw
    end in
  match body with
  | (Normal _, vw1) => finish vw1
  | (Throw _, vw1) => finish (addMessage (Fixed apology) "ai" "error" now vw1)
  end.

End Chat.

(** [updateBackendStatus(status)]. *)
Definition updateBackendStatus (s : status) (vw : view) : view :=
  let vw1 := set_backendConnected (connected s) vw in
  if statusElements vw1 then
    set_statusLabel
      (Some (if bool_decide (connected s = Some true) then "Connected"
             else if bool_decide (pythonRunning s = Some true) then "Starting..."
             else "Disconnected")) vw1
  else vw1.

(** The status object of a [backend-status] message from the main
    process. *)
Definition statusOf (m : Main.ui_message) : option status :=
  match m with
  | Main.BackendStatus c running _ => Some {| connected := Some c; pythonRunning := running |}
  | Main.BackendMessage _ => None
  end.

(** The [backend-status] listener; the window has no listener for
    [backend-message]. *)
Definition on_ui_message (m : Main.ui_message) (vw : view) : view :=
  match statusOf m with
  | Some s => updateBackendStatus s vw
  | None => vw
  end.

Definition setTheme (theme : string) (vw : view) : view :=
  set_themeItem (Some theme) (set_dataTheme (Some theme) vw).

Definition toggleTheme (vw : view) : view :=
  setTheme (if bool_decide (dataTheme vw = Some "dark") then "light" else "dark") vw.

End Renderer.

Module SettingsSample2.
Import JS Json Settings SettingsSample.

(** The settings page with the stored model selected. *)
Definition page1 : page :=
  {| elements := settings_html;
     fields := {| themeSelect := Some "blue"; voiceEnabledCheck := Some false;
                  autoStartCheck := Some true; pythonPortInput := Some "8123";
                  modelSelect := Some "phi-2.Q4_0.gguf" |};
     localStorage := {[ "jarvis-ai-model" := "phi-2.Q4_0.gguf" ]};
     calls := []; saved := []; status := None; shown := None;
     polling := false; overlay := false; unhandled := [] |}.

Definition failed (reason : string) : json :=
  JObj [("success", JBool false); ("error", JStr reason)].

(** No request reaches the backend. *)
Definition backendDown (n : nat) (c : backend_call) : json :=
  failed "Backend not reachable".

(** A backend that does not have the model and refuses the download. *)
Definition backendRefuses (n : nat) (c : backend_call) : json :=
  match n with
  | 0%nat => okReply [("current_model", JStr defaultModel)]
  | 1%nat => okReply [("available", JBool false)]
  | _ => failed "No space left"
  end.

(** A download that stays at 40 percent. *)
Definition backendStuck (n : nat) (c : backend_call) : json :=
  match n with
  | 0%nat => okReply [("current_model", JStr defaultModel)]
  | 1%nat => okReply [("available", JBool false)]
  | 2%nat => okReply []
  | _ => okReply [("progress", JNum 40); ("status", JStr "downloading")]
  end.

(** The download completes, the switch then fails. *)
Definition backendSwitchFails (n : nat) (c : backend_call) : json :=
  match n with
  | 0%nat => okReply [("current_model", JStr defaultModel)]
  | 1%nat => okReply [("available", JBool false)]
  | 2%nat => okReply []
  | 3%nat => okReply [("progress", JNum 100); ("status", JStr "completed")]
  | _ => failed "Model file corrupt"
  end.

(** A number input that keeps the text assigned to it. *)
Definition keepsText (s : string) : string := s.

End SettingsSample2.

(** ** The two processes together *)

Module Wiring.
Import JS Json.

(** [ipcRenderer.invoke] as the chat window sees it: the value the
    handler returned, or a rejection with the handler's error. *)
Definition invoke (r : JS.completion Main.error json) : Renderer.completion json :=
  match r with
  | Normal v => Normal v
  | Throw e => Throw (Main.message e)
  end.

(** The chat window receives the messages the main process sent to it,
    in order. *)
Definition deliver (msgs : list Main.ui_message) (vw : Renderer.view) : Renderer.view :=
  foldl (fun v m => Renderer.on_ui_message m v) vw msgs.

(** The messages sent to the window between two states of the main
    process. *)
Definition sentSince (st st' : Main.state) : list Main.ui_message :=
  drop (length (Main.ui st)) (Main.ui st').

End Wiring.

Module RendererMore.
Import JS Json Renderer.

(** The conversation [saveToHistory] puts first. *)
Definition newest (vw : view) : option conversation :=
  match chatHistory vw with
  | Items (c :: _) => Some c
  | _ => None
  end.

End RendererMore.

Module ChatSample.
Import JS Json Renderer.

(** The chat window of [index.html], a message typed, nothing stored. *)
Definition opened : view :=
  start true true true (Some (lit "  hello ")) NoItem None None.

(** The same once the main process has reported the connection. *)
Definition online : view :=
  updateBackendStatus {| connected := Some true; pythonRunning := Some true |} opened.

(** Every action result can be formatted. *)
Definition formatsAll (result : json) : bool := true.

Definition plainReply : json :=
  JObj [("type", JStr "chat_response"); ("response", JStr "Hello!")].

Definition actionReply : json :=
  JObj [("type", JStr "chat_response"); ("response", JStr "Done.");
        ("action_result", JObj [("success", JBool true); ("message", JStr "File created")])].

End ChatSample.

(** * Properties *)

(** ** Port text *)

Section PortText.
Import JS.

Example parseInt_plain : parseInt (lit "8123") = Int 8123.
Proof. reflexivity. Qed.

Example parseInt_trailing : parseInt (lit "  8123abc") = Int 8123.
Proof. reflexivity. Qed.

Example parseInt_hex : parseInt (lit "0x1F") = Int 31.
Proof. reflexivity. Qed.

Example parseInt_negative : parseInt (lit "-42") = Int (-42).
Proof. reflexivity. Qed.

Example parseInt_word : parseInt (lit "port") = NaN.
Proof. reflexivity. Qed.

Example parseInt_rounds : parseInt (lit "9007199254740993") = Int 9007199254740992.
Proof. vm_compute. reflexivity. Qed.

Example matchPort_line :
  matchPort (lit "INFO Auto-selected port: 8001 ok") = Some (lit "8001").
Proof. reflexivity. Qed.

Example matchPort_none : matchPort (lit "Auto-selected port: none") = None.
Proof. reflexivity. Qed.

Example trim_line : trim (N.of_nat 32 :: lit "8001" ++ [10%N]) = lit "8001".
Proof. reflexivity. Qed.

Lemma toNumber64_not_NaN z : toNumber64 z <> NaN.
Proof.
  unfold toNumber64.
  repeat match goal with |- context [if ?b then _ else _] => destruct b end;
    discriminate.
Qed.

(** [parseInt] gives NaN exactly when no digit follows the white space,
    the sign and the radix prefix. *)
Lemma parseInt_NaN_iff s :
  parseInt s = NaN <->
  let '(radix, s3) := readRadix (snd (readSign (trimStart s))) in
  digitPrefix radix s3 = [].
Proof.
  unfold parseInt.
  destruct (readSign (trimStart s)) as [neg s2]; simpl.
  destruct (readRadix s2) as [radix s3].
  destruct (digitPrefix radix s3) as [|d ds]; [tauto|].
  split; [intros E; now apply toNumber64_not_NaN in E | discriminate].
Qed.

Example parseInt_empty : parseInt [] = NaN.
Proof. reflexivity. Qed.

Example parseInt_bare_prefix : parseInt (lit "0x") = NaN.
Proof. reflexivity. Qed.

End PortText.

(** ** Backend process supervisor *)

Section Supervisor.
Import JS Json Main Sample.

Lemma on_stdout_timers output st : timers (on_stdout output st) = timers st.
Proof. unfold on_stdout. now destruct (matchPort output). Qed.

Lemma stdout_run_timers w outputs st :
  timers (run st (map (fun o => (w, Stdout o)) outputs)) = timers st.
Proof.
  revert st. induction outputs as [|o outputs IH]; intros st; [reflexivity|].
  simpl. unfold run in IH. rewrite IH. apply on_stdout_timers.
Qed.

Lemma lookup_snoc_length {A} (l : list A) (x : A) : (l ++ [x]) !! length l = Some x.
Proof. rewrite lookup_app_r by lia. now rewrite Nat.sub_diag. Qed.

(** C3.  When the backend script is not on disk, [startPythonBackend]
    returns [false] normally and leaves the whole state as it was: no
    child process is created, [pythonProcess] keeps its value and no
    timer is armed. *)
Theorem start_script_missing (w : world) (st : state) :
  scriptExists w = false ->
  startPythonBackend_begin w st = (Normal (Some false), st) /\
  step st (w, AppReady) = st.
Proof.
  intros H. unfold step, startPythonBackend_begin. rewrite H. simpl. split; reflexivity.
Qed.

Lemma start_script_missing_witness :
  scriptExists world0 = false /\
  startPythonBackend_begin world0 (init ∅) = (Normal (Some false), init ∅) /\
  step (init ∅) (world0, AppReady) = init ∅.
Proof. split; [reflexivity | apply (start_script_missing world0 (init ∅)); reflexivity]. Defined.

Lemma resume_after_start (w0 w1 : world) (st : state)
    (outputs : list jsstring) (text : jsstring) :
  scriptExists w0 = true ->
  spawned w0 = Spawned ->
  portFile w1 = Content text ->
  let id := length (timers st) in
  let st1 := run st ((w0, AppReady) :: map (fun o => (w0, Stdout o)) outputs) in
  timers st1 !! id = Some (Some (5000, ResumeStartup)) /\
  currentPort (step st1 (w1, TimerFires id)) = parseInt (trim text).
Proof.
  intros Hs Hp Hf id st1.
  assert (Ht : timers st1 !! id = Some (Some (5000, ResumeStartup))).
  { subst st1. unfold run. simpl foldl. fold (run (step st (w0, AppReady))
      (map (fun o => (w0, Stdout o)) outputs)).
    rewrite stdout_run_timers.
    unfold step, startPythonBackend_begin. rewrite Hs, Hp. simpl.
    apply lookup_snoc_length. }
  split; [exact Ht|].
  unfold step, fire. rewrite Ht. simpl.
  unfold startPythonBackend_resume, readPortFile. rewrite Hf. reflexivity.
Qed.

(** C1.  The backend is started, any number of stdout chunks arrive
    (each may announce a port), and the 5000 ms timer armed by
    [startPythonBackend] expires while the sidecar file is readable:
    [currentPort] is then the parsed, trimmed file content, whatever the
    chunks had set. *)
Theorem port_file_overrides (w0 w1 : world) (st : state)
    (outputs : list jsstring) (text : jsstring) :
  scriptExists w0 = true ->
  spawned w0 = Spawned ->
  portFile w1 = Content text ->
  let id := length (timers st) in
  let st1 := run st ((w0, AppReady) :: map (fun o => (w0, Stdout o)) outputs) in
  timers st1 !! id = Some (Some (5000, ResumeStartup)) /\
  currentPort (step st1 (w1, TimerFires id)) = parseInt (trim text).
Proof. intros Hs Hp Hf. now apply resume_after_start. Qed.

Lemma port_file_overrides_witness :
  let st1 := run (init ∅) [(world_started, AppReady);
                           (world_started, Stdout (lit "Auto-selected port: 8001"))] in
  currentPort st1 = Int 8001 /\
  timers st1 !! 0%nat = Some (Some (5000, ResumeStartup)) /\
  currentPort (step st1 (world_with_file (lit "8002" ++ [10%N]), TimerFires 0)) = Int 8002.
Proof.
  split; [reflexivity|].
  apply (port_file_overrides world_started (world_with_file (lit "8002" ++ [10%N]))
           (init ∅) [lit "Auto-selected port: 8001"] (lit "8002" ++ [10%N]));
    reflexivity.
Defined.

(** A port announced on stdout after the file has been read replaces
    the file's value in turn: the last writer wins. *)
Example stdout_after_file :
  currentPort
    (run (init ∅) [(world_started, AppReady);
                   (world_with_file (lit "8002"), TimerFires 0);
                   (world_started, Stdout (lit "Auto-selected port: 8003"))])
  = Int 8003.
Proof. reflexivity. Qed.

(** C10.  As in C1, but the trimmed file content has no integer prefix:
    [currentPort] becomes NaN, whatever port had been discovered. *)
Theorem port_file_unparsable (w0 w1 : world) (st : state)
    (outputs : list jsstring) (text : jsstring) :
  scriptExists w0 = true ->
  spawned w0 = Spawned ->
  portFile w1 = Content text ->
  parseInt (trim text) = NaN ->
  let st1 := run st ((w0, AppReady) :: map (fun o => (w0, Stdout o)) outputs) in
  currentPort (step st1 (w1, TimerFires (length (timers st)))) = NaN.
Proof.
  intros Hs Hp Hf Hn st1. rewrite <- Hn.
  now apply (resume_after_start w0 w1 st outputs text).
Qed.

Lemma port_file_unparsable_witness :
  let st1 := run (init ∅) [(world_started, AppReady);
                           (world_started, Stdout (lit "Auto-selected port: 8001"))] in
  currentPort st1 = Int 8001 /\
  parseInt (trim (lit "starting")) = NaN /\
  currentPort (step st1 (world_with_file (lit "starting"), TimerFires 0)) = NaN.
Proof.
  split; [reflexivity|]. split; [reflexivity|].
  apply (port_file_unparsable world_started (world_with_file (lit "starting"))
           (init ∅) [lit "Auto-selected port: 8001"] (lit "starting"));
    reflexivity.
Defined.

End Supervisor.

(** ** Shutdown *)

Section Shutdown.
Import JS Json Main Sample.

Ltac unfold_ops :=
  unfold notify, setTimeout, clearTimeout, upd_socket, upd_child, settle, record, try_catch.

Ltac frame := unfold_ops; repeat case_match; simplify_eq/=; try reflexivity; try congruence.

Lemma responseHandler_processes k t d st :
  processes (snd (responseHandler k t d st)) = processes st.
Proof.
  unfold responseHandler, detach_and_settle, ws_off, isChatResponse. frame.
Qed.

Lemma callHandlers_processes hs d st :
  processes (snd (callHandlers hs d st)) = processes st.
Proof.
  revert st. induction hs as [|[k t] hs IH]; intros st; [reflexivity|].
  simpl. pose proof (responseHandler_processes k t d st) as H.
  destruct (responseHandler k t d st) as [[[]|e] st1]; simpl in *.
  - now rewrite IH.
  - exact H.
Qed.

Lemma on_message_processes h d st : processes (on_message h d st) = processes st.
Proof.
  unfold on_message. destruct (sockets st !! h) as [sk|]; [|reflexivity].
  pose proof (callHandlers_processes (handlers sk) d (forwardMessage d st)) as H.
  assert (Hf : processes (forwardMessage d st) = processes st)
    by (unfold forwardMessage; frame).
  destruct (callHandlers (handlers sk) d (forwardMessage d st)) as [[[]|e] st1];
    simpl in *; rewrite <- Hf, <- H; reflexivity.
Qed.

Lemma map_signals_insert_exited (l : list child_process) p c :
  l !! p = Some c ->
  map signals (<[p := {| exited := true; killed := killed c; signals := signals c |}]> l)
  = map signals l.
Proof.
  intros H. rewrite list_fmap_insert. simpl. apply list_insert_id.
  now rewrite list_lookup_fmap, H.
Qed.

Lemma cleanup_without_process st :
  pythonProcess st = None -> processes (cleanup st) = processes st.
Proof.
  intros Hp. unfold cleanup, upd_socket.
  destruct (ws st) as [h|]; [destruct (sockets st !! h)|]; simpl; now rewrite Hp.
Qed.

(** Once [pythonProcess] is [null], no event other than the start of the
    backend delivers a signal or sets it again. *)
Lemma step_without_process w e st :
  pythonProcess st = None ->
  e <> AppReady ->
  processes (step st (w, e)) = processes st.
Proof.
  intros Hp He. destruct e; try congruence; unfold step.
  - unfold on_stdout. frame.
  - unfold on_child_close, processes; unfold_ops.
    destruct (children st !! p) as [c|] eqn:E; simpl.
    + destruct (mainWindow _); simpl; now rewrite (map_signals_insert_exited _ _ _ E).
    + now destruct (mainWindow _).
  - unfold fire. destruct (timers st !! id) as [[[ms cb]|]|]; try reflexivity.
    destruct cb; simpl.
    + unfold startPythonBackend_resume, readPortFile. frame.
    + unfold connectWebSocket. frame.
    + unfold connectWebSocket. frame.
    + frame.
    + unfold forceKill, clearTimeout; simpl. now rewrite Hp.
  - unfold on_open, syncSettingsWithBackend. frame.
  - apply on_message_processes.
  - unfold on_close. frame.
  - unfold on_error. frame.
  - unfold sendToPython. frame.
  - unfold ipc_send_backend_request, backendRequestBody. frame.
  - reflexivity.
  - now rewrite cleanup_without_process.
  - reflexivity.
  - destruct (mainWindow st); [reflexivity|]. now rewrite cleanup_without_process.
  - now rewrite cleanup_without_process.
Qed.

Lemma run_without_process st trace :
  pythonProcess st = None ->
  Forall (fun we : world * event => we.2 <> AppReady) trace ->
  processes (run st trace) = processes st.
Proof.
  intros Hp Ht. revert st Hp.
  induction Ht as [|[w e] trace He _ IH]; intros st Hp; [reflexivity|].
  pose proof (step_without_process w e st Hp He) as Hs.
  change (processes (run (step st (w, e)) trace) = processes st).
  rewrite IH; [exact Hs|].
  unfold processes in Hs. congruence.
Qed.

Lemma cleanup_processes st p c :
  pythonProcess st = Some p ->
  children st !! p = Some c ->
  pythonProcess (cleanup st) = None /\
  children (cleanup st) = <[p := kill SIGTERM c]> (children st) /\
  timers (cleanup st) = timers st ++ [Some (5000, ForceKill)].
Proof.
  intros Hp Hc. unfold cleanup.
  destruct (ws st) as [h|]; simpl; unfold_ops.
  - destruct (sockets st !! h); simpl; rewrite Hp; simpl; rewrite Hc; simpl; auto.
  - rewrite Hp; simpl; rewrite Hc; simpl; auto.
Qed.

(** C2 (what the code does).  [cleanup] delivers SIGTERM to a running
    backend and arms a 5000 ms timer, but it also sets [pythonProcess] to
    [null] before the timer can expire: whatever happens afterwards
    (the timer's expiry included, the process still running or not), no
    further signal is delivered, so SIGKILL is never sent. *)
Theorem cleanup_sends_only_sigterm (st : state) (p : nat) (c : child_process)
    (trace : list (world * event)) :
  pythonProcess st = Some p ->
  children st !! p = Some c ->
  exited c = false ->
  Forall (fun we : world * event => we.2 <> AppReady) trace ->
  timers (cleanup st) !! length (timers st) = Some (Some (5000, ForceKill)) /\
  signals <$> children (run (cleanup st) trace) !! p = Some (signals c ++ [SIGTERM]).
Proof.
  intros Hp Hc He Ht.
  destruct (cleanup_processes st p c Hp Hc) as (Hn & Hch & Htm).
  split.
  - rewrite Htm. apply lookup_snoc_length.
  - pose proof (run_without_process (cleanup st) trace Hn Ht) as Hr.
    unfold processes in Hr. injection Hr as _ Hr.
    rewrite <- list_lookup_fmap. change (fmap signals) with (map signals).
    rewrite Hr, Hch. rewrite list_lookup_fmap, list_lookup_insert_eq.
    + unfold kill. now rewrite He.
    + now apply lookup_lt_Some in Hc.
Qed.

Lemma cleanup_sends_only_sigterm_witness :
  pythonProcess started = Some 0%nat /\
  signals <$> children
    (run (cleanup started)
       [(world_started, TimerFires 1); (world_started, TimerFires 0)]) !! 0%nat
  = Some [SIGTERM].
Proof.
  split; [reflexivity|].
  apply (cleanup_sends_only_sigterm started 0
           {| exited := false; killed := false; signals := [] |}
           [(world_started, TimerFires 1); (world_started, TimerFires 0)]);
    [reflexivity | reflexivity | reflexivity |].
  repeat constructor; discriminate.
Defined.

End Shutdown.

(** ** Live connection *)

Section Connection.
Import JS Json Main Sample.

Example connected_is_open : openSocket connected = Some 0%nat.
Proof. reflexivity. Qed.

Lemma openSocket_None st :
  (forall h sk, ws st = Some h -> sockets st !! h = Some sk -> readyState sk <> OPEN) ->
  openSocket st = None.
Proof.
  intros H. unfold openSocket.
  destruct (ws st) as [h|]; [|reflexivity].
  destruct (sockets st !! h) as [sk|] eqn:E; [|reflexivity].
  specialize (H h sk eq_refl E). now destruct (readyState sk).
Qed.

(** C4.  With no open session ([ws] is [null], or its socket is not in
    the OPEN state) [sendToPython] returns a promise that is already
    rejected with "WebSocket not connected"; nothing is sent on any
    socket, no listener is attached and no timer is armed; the
    [send-message] handler turns the rejection into a failure result. *)
Theorem send_without_session (msg : string) (w : world) (st : state) :
  (forall h sk, ws st = Some h -> sockets st !! h = Some sk -> readyState sk <> OPEN) ->
  let k := fst (sendToPython msg w st) in
  let st' := snd (sendToPython msg w st) in
  promises st' !! k = Some [Rejected (Error "WebSocket not connected")] /\
  sockets st' = sockets st /\
  timers st' = timers st /\
  (outcome k st' ≫= fun s => Some (ipc_send_message s)) =
    Some (Normal (failure (Error "WebSocket not connected"))).
Proof.
  intros H k st'. subst k st'.
  unfold sendToPython.
  assert (E : openSocket (set_promises (promises st ++ [[]]) st) = None)
    by (apply openSocket_None; exact H).
  rewrite E. simpl. unfold settle, record, outcome. simpl.
  rewrite lookup_snoc_length. simpl.
  assert (L : (<[length (promises st) := [Rejected (Error "WebSocket not connected")]]>
                 (promises st ++ [[]])) !! length (promises st)
              = Some [Rejected (Error "WebSocket not connected")]).
  { apply list_lookup_insert_eq. rewrite length_app. simpl. lia. }
  rewrite L. auto.
Qed.

Lemma send_without_session_witness :
  let st := started in
  (forall h sk, ws st = Some h -> sockets st !! h = Some sk -> readyState sk <> OPEN) /\
  promises (snd (sendToPython "hello" world_started st)) !! 0%nat
    = Some [Rejected (Error "WebSocket not connected")].
Proof.
  split.
  - intros h sk Hw. discriminate Hw.
  - apply (send_without_session "hello" world_started started).
    intros h sk Hw. discriminate Hw.
Defined.

(** *** Frames that the response handler ignores *)

Lemma responseHandler_ignored k t d st :
  ignored d = true -> responseHandler k t d st = (Normal (), st).
Proof.
  intros H. unfold responseHandler, ignored in *.
  destruct d as [m|j]; [discriminate|].
  destruct j; try discriminate; simpl in *;
    try (apply negb_true_iff in H; rewrite H); reflexivity.
Qed.

Lemma callHandlers_ignored hs d st :
  ignored d = true -> callHandlers hs d st = (Normal (), st).
Proof.
  intros H. induction hs as [|[k t] hs IH]; [reflexivity|].
  simpl. now rewrite responseHandler_ignored.
Qed.

Lemma set_ui_id st : set_ui (ui st) st = st.
Proof. now destruct st. Qed.

Lemma on_message_ignored h d st :
  ignored d = true -> exists u, on_message h d st = set_ui u st.
Proof.
  intros H. unfold on_message.
  destruct (sockets st !! h) as [sk|]; [|exists (ui st); now rewrite set_ui_id].
  rewrite callHandlers_ignored by exact H.
  unfold forwardMessage, notify.
  destruct d as [m|j]; [discriminate|].
  destruct (mainWindow st); [eexists; reflexivity|].
  exists (ui st); now rewrite set_ui_id.
Qed.

Lemma run_ignored w h frames st :
  Forall (fun d => ignored d = true) frames ->
  exists u, run st (map (fun d => (w, WsMessage h d)) frames) = set_ui u st.
Proof.
  intros H. revert st. induction H as [|d frames Hd _ IH]; intros st.
  - exists (ui st). now rewrite set_ui_id.
  - change (exists u, run (on_message h d st) (map (fun d => (w, WsMessage h d)) frames)
                      = set_ui u st).
    destruct (on_message_ignored h d st Hd) as [u ->].
    destruct (IH (set_ui u st)) as [u' ->]. now exists u'.
Qed.

(** *** Chat responses *)

Lemma openSocket_Some st h :
  openSocket st = Some h ->
  ws st = Some h /\ exists sk, sockets st !! h = Some sk /\ readyState sk = OPEN.
Proof.
  unfold openSocket. destruct (ws st) as [h'|]; [|discriminate].
  destruct (sockets st !! h') as [sk|] eqn:E; [|discriminate].
  destruct (readyState sk) eqn:R; try discriminate.
  intros [= ->]. eauto.
Qed.

(** What [sendToPython] does on an open session. *)
Lemma sendToPython_open msg w st h :
  openSocket st = Some h ->
  exists sk, sockets st !! h = Some sk /\
  sendToPython msg w st =
    (length (promises st),
     set_sockets
       (<[h := {| readyState := OPEN;
                  handlers := handlers sk ++ [(length (promises st), length (timers st))];
                  sent := sent sk ++ [{| frame_id := clock w; frame_message := msg;
                                         frame_timestamp := clock w |}] |}]>
          (sockets st))
       (set_timers (timers st ++ [Some (30000, RequestTimeout (length (promises st)))])
          (set_promises (promises st ++ [[]]) st))).
Proof.
  intros H. destruct (openSocket_Some st h H) as (Hw & sk & Hs & Hr).
  exists sk. split; [exact Hs|].
  unfold sendToPython.
  change (openSocket (set_promises (promises st ++ [[]]) st)) with (openSocket st).
  rewrite H. unfold setTimeout, upd_socket. simpl. rewrite Hs. simpl.
  rewrite list_lookup_insert_eq by (now apply lookup_lt_Some in Hs). simpl.
  rewrite list_insert_insert_eq. unfold push_sent, set_handlers. simpl.
  now rewrite Hr.
Qed.

Lemma chat_not_null j :
  is_str "chat_response" (prop "type" j) = true -> isChatResponse j = Normal true.
Proof. intros H. destruct j; simpl in *; try discriminate. now rewrite H. Qed.

Lemma responseHandler_chat k t j st h :
  ws st = Some h ->
  is_str "chat_response" (prop "type" j) = true ->
  exists st', responseHandler k t (Parsed j) st = (Normal (), st') /\
              ws st' = Some h /\
              promises st' = record k (Resolved j) (promises st).
Proof.
  intros Hw Hj. unfold responseHandler. rewrite (chat_not_null j Hj).
  unfold detach_and_settle, ws_off.
  change (ws (clearTimeout t st)) with (ws st). rewrite Hw.
  unfold try_catch. eexists. split; [reflexivity|].
  unfold upd_socket. destruct (sockets (clearTimeout t st) !! h); simpl; auto.
Qed.

Lemma callHandlers_chat hs j st h :
  ws st = Some h ->
  is_str "chat_response" (prop "type" j) = true ->
  exists st', callHandlers hs (Parsed j) st = (Normal (), st') /\
              ws st' = Some h /\
              promises st' =
                foldl (fun ps kt => record kt.1 (Resolved j) ps) (promises st) hs.
Proof.
  intros Hw Hj. revert st Hw.
  induction hs as [|[k t] hs IH]; intros st Hw; [exists st; auto|].
  destruct (responseHandler_chat k t j st h Hw Hj) as (st1 & E1 & Hw1 & Hp1).
  destruct (IH st1 Hw1) as (st2 & E2 & Hw2 & Hp2).
  exists st2. simpl. rewrite E1, E2, Hp2, Hp1. auto.
Qed.

Lemma replicate_snoc {A} n (x : A) : replicate n x ++ [x] = replicate (S n) x.
Proof. induction n as [|n IH]; simpl; [reflexivity|]. now rewrite IH. Qed.

Lemma foldl_record (s : settlement) (hs : list (nat * nat)) :
  forall ps k n, ps !! k = Some (replicate n s) ->
  exists m, foldl (fun ps kt => record kt.1 s ps) ps hs !! k = Some (replicate (n + m) s)
            /\ (k ∈ hs.*1 -> (0 < m)%nat).
Proof.
  induction hs as [|[k' t'] hs IH]; intros ps k n H.
  - exists 0%nat. rewrite Nat.add_0_r. split; [exact H|]. simpl. intros Hin.
    now apply elem_of_nil in Hin.
  - simpl. destruct (decide (k' = k)) as [->|Hne].
    + assert (E : record k s ps !! k = Some (replicate (S n) s)).
      { unfold record. rewrite H. rewrite list_lookup_insert_eq
          by (now apply lookup_lt_Some in H). now rewrite replicate_snoc. }
      destruct (IH _ _ _ E) as (m & Hm & _).
      exists (S m). replace (n + S m)%nat with (S n + m)%nat by lia.
      split; [exact Hm | lia].
    + assert (E : record k' s ps !! k = Some (replicate n s)).
      { unfold record. destruct (ps !! k'); [|exact H].
        now rewrite list_lookup_insert_ne. }
      destruct (IH _ _ _ E) as (m & Hm & Hpos).
      exists m. split; [exact Hm|]. intros Hin.
      apply elem_of_cons in Hin as [Hin|Hin]; [congruence | auto].
Qed.

(** C6.  A chat request is sent on the open session; frames that the
    handler ignores arrive; then a frame whose [type] is
    ['chat_response'] arrives.  The promise, pending until then, is
    resolved with that frame.  The frame is any JSON value with that
    [type]: its [id] is not looked at, and the request's own id
    ([clock w]) plays no part. *)
Theorem first_chat_response_resolves (msg : string) (w : world) (st : state)
    (h : nat) (frames : list wsdata) (j : json) :
  openSocket st = Some h ->
  Forall (fun d => ignored d = true) frames ->
  is_str "chat_response" (prop "type" j) = true ->
  let k := fst (sendToPython msg w st) in
  let st1 := snd (sendToPython msg w st) in
  let st2 := run st1 (map (fun d => (w, WsMessage h d)) frames) in
  outcome k st2 = None /\
  outcome k (step st2 (w, WsMessage h (Parsed j))) = Some (Resolved j).
Proof.
  intros Ho Hf Hj.
  destruct (sendToPython_open msg w st h Ho) as (sk & Hs & E).
  destruct (openSocket_Some st h Ho) as (Hw & _).
  cbv zeta. rewrite E. simpl fst. simpl snd.
  match goal with |- context [run ?s _] =>
    destruct (run_ignored w h frames s Hf) as [u ->] end.
  split.
  - unfold outcome. simpl. now rewrite lookup_snoc_length.
  - unfold step, on_message. simpl.
    rewrite list_lookup_insert_eq by (now apply lookup_lt_Some in Hs). simpl.
    unfold forwardMessage, notify. simpl.
    destruct (mainWindow st);
      (match goal with |- context [callHandlers ?hs ?d ?s] =>
         destruct (callHandlers_chat hs j s h Hw Hj) as (st' & -> & _ & Hp) end;
       unfold outcome; rewrite Hp; simpl;
       match goal with |- context [foldl ?f ?ps ?hs] =>
         destruct (foldl_record (Resolved j) hs ps (length (promises st)) 0)
           as (m & -> & Hm)
       end;
       [ now rewrite lookup_snoc_length
       | rewrite fmap_app in Hm; simpl in Hm; specialize (Hm ltac:(set_solver));
         destruct m; [lia|reflexivity] ]).
Qed.

(** *** How promises and timers evolve *)

Lemma length_record k s ps : length (record k s ps) = length ps.
Proof. unfold record. destruct (ps !! k); [apply length_insert | reflexivity]. Qed.

Lemma record_lookup_ne k k' s ps : k' <> k -> record k' s ps !! k = ps !! k.
Proof.
  intros H. unfold record. destruct (ps !! k'); [|reflexivity].
  now apply list_lookup_insert_ne.
Qed.

Lemma record_lookup_grows k k' s ps c :
  ps !! k = Some c -> exists c', record k' s ps !! k = Some (c ++ c').
Proof.
  intros H. destruct (decide (k' = k)) as [->|Hne].
  - unfold record. rewrite H. exists [s].
    apply list_lookup_insert_eq. now apply lookup_lt_Some in H.
  - exists []. rewrite app_nil_r. now rewrite record_lookup_ne.
Qed.

Section Evolution.
Variables Pk Pt : nat -> Prop.

Lemma evolve_grows x y :
  evolve Pk Pt x y ->
  forall k c, x.1 !! k = Some c -> exists c', y.1 !! k = Some (c ++ c').
Proof.
  induction 1 as [x|x y z _ IH1 _ IH2|k' s ps ts _|id ps ts _|ms cb ps ts _|ps ts|ms ps ts];
    intros k c Hk; simpl in *.
  - exists []. now rewrite app_nil_r.
  - destruct (IH1 k c Hk) as [c1 H1]. destruct (IH2 k _ H1) as [c2 H2].
    exists (c1 ++ c2). now rewrite app_assoc.
  - now apply record_lookup_grows.
  - exists []. now rewrite app_nil_r.
  - exists []. now rewrite app_nil_r.
  - exists []. rewrite app_nil_r. now apply lookup_app_l_Some.
  - exists []. rewrite app_nil_r. now apply lookup_app_l_Some.
Qed.

Lemma evolve_untouched x y k c :
  evolve Pk Pt x y -> ~ Pk k -> x.1 !! k = Some c -> y.1 !! k = Some c.
Proof.
  intros H Hn. revert c.
  induction H as [x|x y z _ IH1 _ IH2|k' s ps ts Hk|id ps ts _|ms cb ps ts _|ps ts|ms ps ts];
    intros c Hc; simpl in *; auto.
  - rewrite record_lookup_ne; [exact Hc|]. intros ->. contradiction.
  - now apply lookup_app_l_Some.
  - now apply lookup_app_l_Some.
Qed.

Lemma evolve_timer_kept x y t v :
  evolve Pk Pt x y -> ~ Pt t -> x.2 !! t = Some v -> y.2 !! t = Some v.
Proof.
  intros H Hn. revert v.
  induction H as [x|x y z _ IH1 _ IH2|k' s ps ts _|id ps ts Hid|ms cb ps ts _|ps ts|ms ps ts];
    intros v Hv; simpl in *; auto.
  - rewrite list_lookup_insert_ne; [exact Hv|]. intros ->. contradiction.
  - now apply lookup_app_l_Some.
  - now apply lookup_app_l_Some.
Qed.

Lemma evolve_unique x y k t :
  evolve Pk Pt x y ->
  (k < length x.1)%nat ->
  (forall id ms, x.2 !! id = Some (Some (ms, RequestTimeout k)) -> id = t) ->
  (k < length y.1)%nat /\
  (forall id ms, y.2 !! id = Some (Some (ms, RequestTimeout k)) -> id = t).
Proof.
  induction 1 as [x|x y z _ IH1 _ IH2|k' s ps ts _|id ps ts _|ms cb ps ts Hcb|ps ts|ms ps ts];
    intros Hlt Hu; simpl in *.
  - auto.
  - destruct (IH1 Hlt Hu) as [H1 H2]. now apply IH2.
  - now rewrite length_record.
  - split; [exact Hlt|]. intros id' ms' H.
    destruct (decide (id = id')) as [->|Hne].
    + destruct (decide (id' < length ts)%nat).
      * rewrite list_lookup_insert_eq in H by lia. discriminate.
      * rewrite list_insert_ge in H by lia. eauto.
    + rewrite list_lookup_insert_ne in H by exact Hne. eauto.
  - split; [exact Hlt|]. intros id' ms' H.
    apply lookup_app_Some in H as [H|[_ H]]; [eauto|].
    apply list_lookup_singleton_Some in H as [_ H].
    injection H as _ H. now apply Hcb in H.
  - rewrite length_app. simpl. split; [lia | exact Hu].
  - rewrite length_app. simpl. split; [lia|]. intros id' ms' H.
    apply lookup_app_Some in H as [H|[_ H]]; [eauto|].
    apply list_lookup_singleton_Some in H as [_ H].
    injection H as _ H. lia.
Qed.

Lemma evolve_wf x y :
  evolve Pk Pt x y ->
  (forall id ms k, x.2 !! id = Some (Some (ms, RequestTimeout k)) -> (k < length x.1)%nat) ->
  (forall id ms k, y.2 !! id = Some (Some (ms, RequestTimeout k)) -> (k < length y.1)%nat).
Proof.
  induction 1 as [x|x y z _ IH1 _ IH2|k' s ps ts _|id ps ts _|ms cb ps ts Hcb|ps ts|ms ps ts];
    intros Hwf; simpl in *.
  - exact Hwf.
  - exact (IH2 (IH1 Hwf)).
  - intros id ms k H. rewrite length_record. eauto.
  - intros id' ms k H.
    destruct (decide (id = id')) as [->|Hne].
    + destruct (decide (id' < length ts)%nat).
      * rewrite list_lookup_insert_eq in H by lia. discriminate.
      * rewrite list_insert_ge in H by lia. eauto.
    + rewrite list_lookup_insert_ne in H by exact Hne. eauto.
  - intros id ms' k H.
    apply lookup_app_Some in H as [H|[_ H]]; [eauto|].
    apply list_lookup_singleton_Some in H as [_ H].
    injection H as _ H. now apply Hcb in H.
  - intros id ms k H. rewrite length_app. simpl. apply Hwf in H. lia.
  - intros id ms' k H. rewrite length_app. simpl.
    apply lookup_app_Some in H as [H|[_ H]]; [apply Hwf in H; lia|].
    apply list_lookup_singleton_Some in H as [_ H].
    injection H as _ H. lia.
Qed.

Ltac unfold_ops :=
  unfold notify, setTimeout, clearTimeout, upd_socket, upd_child, settle, try_catch.

Ltac same := unfold pt; unfold_ops; repeat case_match; simplify_eq/=; apply ev_refl.

Ltac new_timer := unfold pt; unfold_ops; repeat case_match; simplify_eq/=;
  first [apply ev_refl | apply ev_timer; intros ?; discriminate].

Lemma responseHandler_evolve k t d st :
  (forall x, Pk x) -> (forall x, Pt x) ->
  evolve Pk Pt (pt st) (pt (responseHandler k t d st).2).
Proof.
  intros Hk Ht.
  assert (D : forall s st0, evolve Pk Pt (pt st0) (pt (detach_and_settle k t s st0).2)).
  { intros s st0. unfold detach_and_settle, ws_off.
    change (ws (clearTimeout t st0)) with (ws st0).
    destruct (ws st0) as [h|]; simpl.
    - eapply ev_trans; [apply (ev_clear Pk Pt t), Ht|].
      unfold pt, upd_socket, settle. destruct (sockets _ !! h); simpl;
        apply ev_record, Hk.
    - apply ev_clear, Ht. }
  unfold responseHandler, try_catch.
  destruct d as [m|j]; [apply D|].
  destruct (isChatResponse j) as [[|]|e]; [|apply ev_refl|apply D].
  match goal with |- context [detach_and_settle k t ?s st] =>
    pose proof (D s st) as H1; destruct (detach_and_settle k t s st) as [[[]|e] st1] end;
    simpl in *; [exact H1|].
  eapply ev_trans; [exact H1|]. apply D.
Qed.

Lemma callHandlers_evolve hs d st :
  (forall x, Pk x) -> (forall x, Pt x) ->
  evolve Pk Pt (pt st) (pt (callHandlers hs d st).2).
Proof.
  intros Hk Ht. revert st.
  induction hs as [|[k t] hs IH]; intros st; [apply ev_refl|].
  simpl. pose proof (responseHandler_evolve k t d st Hk Ht) as H1.
  destruct (responseHandler k t d st) as [[[]|e] st1]; simpl in *; [|exact H1].
  eapply ev_trans; [exact H1 | apply IH].
Qed.

Lemma cleanup_evolve st : evolve Pk Pt (pt st) (pt (cleanup st)).
Proof. unfold cleanup. new_timer. Qed.

(** Each event changes promises and timers along [evolve]: a timer ends
    only if [Pt] allows it, a promise is settled only if [Pk] allows
    it. *)
Lemma step_evolve w e st :
  (forall id ms cb, e = TimerFires id -> timers st !! id = Some (Some (ms, cb)) ->
     Pt id /\ forall k, cb = RequestTimeout k -> Pk k) ->
  (forall h d, e = WsMessage h d ->
     ignored d = true \/ ((forall x, Pk x) /\ (forall x, Pt x))) ->
  Pk (length (promises st)) ->
  evolve Pk Pt (pt st) (pt (step st (w, e))).
Proof.
  intros Htimer Hframe Hnew.
  destruct e as [|output|p|id|h|h d|h|h|msg|request net|news| | | |]; unfold step.
  - unfold startPythonBackend_begin. new_timer.
  - unfold on_stdout. same.
  - unfold on_child_close. same.
  - unfold fire. destruct (timers st !! id) as [[[ms cb]|]|] eqn:E; try apply ev_refl.
    destruct (Htimer id ms cb eq_refl E) as [Hid Hcb].
    eapply ev_trans; [apply (ev_clear Pk Pt id), Hid|].
    change (promises st, <[id:=None]> (timers st)) with (pt (clearTimeout id st)).
    destruct cb; simpl.
    + unfold startPythonBackend_resume, readPortFile. new_timer.
    + unfold connectWebSocket. same.
    + unfold connectWebSocket. same.
    + apply ev_record. now apply Hcb.
    + unfold forceKill. same.
  - unfold on_open, syncSettingsWithBackend. same.
  - destruct (Hframe h d eq_refl) as [Hi|[Hk Ht]].
    + destruct (on_message_ignored h d st Hi) as [u ->]. apply ev_refl.
    + unfold on_message. destruct (sockets st !! h) as [sk|]; [|apply ev_refl].
      pose proof (callHandlers_evolve (handlers sk) d (forwardMessage d st) Hk Ht) as H1.
      assert (H0 : pt (forwardMessage d st) = pt st)
        by (unfold forwardMessage, notify; now repeat case_match).
      rewrite H0 in H1.
      destruct (callHandlers (handlers sk) d (forwardMessage d st)) as [[[]|e] st1];
        exact H1.
  - unfold on_close. new_timer.
  - unfold on_error. new_timer.
  - destruct (openSocket st) as [h|] eqn:Ho.
    + destruct (sendToPython_open msg w st h Ho) as (sk & _ & ->). apply ev_send.
    + unfold sendToPython.
      change (openSocket (set_promises (promises st ++ [[]]) st)) with (openSocket st).
      rewrite Ho. simpl. eapply ev_trans; [apply ev_promise|].
      apply ev_record, Hnew.
  - unfold ipc_send_backend_request, backendRequestBody. same.
  - apply ev_refl.
  - apply (cleanup_evolve (set_isQuitting true st)).
  - apply ev_refl.
  - destruct (mainWindow st); [apply ev_refl|]. apply (cleanup_evolve (set_isQuitting true st)).
  - apply (cleanup_evolve (set_isQuitting true st)).
Qed.

End Evolution.

Lemma step_grows w e st k c :
  promises st !! k = Some c ->
  exists c', promises (step st (w, e)) !! k = Some (c ++ c').
Proof.
  apply (evolve_grows (fun _ => True) (fun _ => True) (pt st) (pt (step st (w, e)))).
  apply step_evolve; auto.
Qed.

(** A settled promise stays as it is, whatever happens next. *)
Lemma run_settled trace : forall st k s,
  outcome k st = Some s -> outcome k (run st trace) = Some s.
Proof.
  induction trace as [|[w e] trace IH]; intros st k s H; [exact H|].
  change (outcome k (run (step st (w, e)) trace) = Some s). apply IH.
  unfold outcome in *. destruct (promises st !! k) as [c|] eqn:E; [|discriminate].
  destruct (step_grows w e st k c E) as [c' ->].
  destruct c; [discriminate | exact H].
Qed.

Lemma step_timers_wf w e st : timers_wf st -> timers_wf (step st (w, e)).
Proof.
  intros H.
  assert (E : evolve (fun _ => True) (fun _ => True) (pt st) (pt (step st (w, e))))
    by (apply step_evolve; auto).
  exact (evolve_wf _ _ _ _ E H).
Qed.

(** The states the application reaches keep their request timeouts
    well formed. *)
Lemma run_timers_wf trace : forall st, timers_wf st -> timers_wf (run st trace).
Proof.
  induction trace as [|[w e] trace IH]; intros st H; [exact H|].
  change (timers_wf (run (step st (w, e)) trace)). now apply IH, step_timers_wf.
Qed.

Lemma init_timers_wf persisted : timers_wf (init persisted).
Proof. intros id ms k H. simpl in H. now rewrite lookup_nil in H. Qed.

Lemma quiet_step_pending k t st we :
  pending k t st -> quiet t we = true -> pending k t (step st we).
Proof.
  intros (Hp & Ht & Hu) Hq. destruct we as [w e].
  assert (Hlt : (k < length (promises st))%nat) by (now apply lookup_lt_Some in Hp).
  assert (E : evolve (fun k' => k' <> k) (fun id => id <> t) (pt st) (pt (step st (w, e)))).
  { apply step_evolve.
    - intros id ms cb -> Hid. unfold quiet in Hq. simpl in Hq.
      apply negb_true_iff, Nat.eqb_neq in Hq. split; [exact Hq|].
      intros k' -> ->. now apply Hu in Hid.
    - intros h d ->. now left.
    - lia. }
  split; [|split].
  - apply (evolve_untouched _ _ _ _ k [] E); [tauto | exact Hp].
  - apply (evolve_timer_kept _ _ _ _ t _ E); [tauto | exact Ht].
  - now apply (evolve_unique _ _ _ _ k t E).
Qed.

Lemma quiet_run_pending k t trace : forall st,
  pending k t st ->
  Forall (fun we => quiet t we = true) trace ->
  pending k t (run st trace).
Proof.
  induction trace as [|we trace IH]; intros st Hp Hq; [exact Hp|].
  apply Forall_cons in Hq as [Hq Hqs].
  change (pending k t (run (step st we) trace)).
  apply IH; [now apply quiet_step_pending | exact Hqs].
Qed.

Lemma sendToPython_pending msg w st h :
  openSocket st = Some h ->
  timers_wf st ->
  (sendToPython msg w st).1 = length (promises st) /\
  pending (length (promises st)) (length (timers st)) (sendToPython msg w st).2.
Proof.
  intros Ho Hwf. destruct (sendToPython_open msg w st h Ho) as (sk & _ & ->).
  split; [reflexivity|]. unfold pending. simpl.
  repeat split; try apply lookup_snoc_length.
  intros id ms H. apply lookup_app_Some in H as [H|[Hlen H]].
  - apply Hwf in H. lia.
  - apply list_lookup_singleton_Some in H as [H _]. lia.
Qed.

(** C5 (as the code has it).  A chat request is sent on the open
    session; until its 30000 ms timer expires, anything may happen
    (other requests, other timers, reconnections, shutdown) as long as
    every inbound frame parses to a value other than [null] whose [type]
    is not ['chat_response'].  The promise is then pending up to the
    deadline; at the deadline exactly one call settles it, a rejection
    with "Request timeout"; and it remains so settled whatever follows. *)
Theorem request_times_out (msg : string) (w w' : world) (st : state) (h : nat)
    (before : list (world * event)) :
  openSocket st = Some h ->
  timers_wf st ->
  Forall (fun we => quiet (length (timers st)) we = true) before ->
  let k := (sendToPython msg w st).1 in
  let t := length (timers st) in
  let st2 := run (sendToPython msg w st).2 before in
  let st3 := step st2 (w', TimerFires t) in
  timers st2 !! t = Some (Some (30000, RequestTimeout k)) /\
  outcome k st2 = None /\
  promises st3 !! k = Some [Rejected (Error "Request timeout")] /\
  forall after,
    outcome k (run st3 after) = Some (Rejected (Error "Request timeout")).
Proof.
  intros Ho Hwf Hq. cbv zeta.
  destruct (sendToPython_pending msg w st h Ho Hwf) as [-> Hp].
  destruct (quiet_run_pending _ _ before _ Hp Hq) as (Hk & Ht & _).
  assert (H3 : promises (step (run (sendToPython msg w st).2 before)
                              (w', TimerFires (length (timers st))))
               !! length (promises st) = Some [Rejected (Error "Request timeout")]).
  { unfold step, fire. rewrite Ht. simpl. unfold record. rewrite Hk.
    apply list_lookup_insert_eq. now apply lookup_lt_Some in Hk. }
  repeat split.
  - exact Ht.
  - unfold outcome. now rewrite Hk.
  - exact H3.
  - intros after. apply run_settled. unfold outcome. now rewrite H3.
Qed.

(** C5 as the spec has it fails: a frame that is not JSON arrives before
    the deadline (no frame of type ['chat_response'] does); the promise
    is rejected with the parse error, the timer is cleared, and the
    expiry of the deadline changes nothing. *)
Lemma timeout_claim_counterexample :
  let frames := [BadJson "Unexpected token < in JSON at position 0"] in
  let k := (sendToPython "hello" world_started connected).1 in
  let st1 := (sendToPython "hello" world_started connected).2 in
  let st3 := run st1 (map (fun d => (world_started, WsMessage 0 d)) frames
                      ++ [(world_started, TimerFires 2)]) in
  openSocket connected = Some 0%nat /\
  timers st1 !! 2%nat = Some (Some (30000, RequestTimeout k)) /\
  Forall (fun d => chatResponse d = false) frames /\
  promises st3 !! k =
    Some [Rejected (Error "Unexpected token < in JSON at position 0")] /\
  outcome k st3 <> Some (Rejected (Error "Request timeout")).
Proof.
  cbv zeta. split; [reflexivity|]. split; [reflexivity|].
  split; [repeat constructor|]. split; [reflexivity|].
  vm_compute. discriminate.
Qed.

(** Two requests in flight on one session are both resolved by the one
    reply that arrives. *)
Example one_reply_resolves_both :
  let st1 := (sendToPython "first" world_started connected).2 in
  let st2 := (sendToPython "second" world_started st1).2 in
  let st3 := step st2 (world_started, WsMessage 0 (Parsed chatReply)) in
  outcome 0 st3 = Some (Resolved chatReply) /\
  outcome 1 st3 = Some (Resolved chatReply).
Proof. split; reflexivity. Qed.

(** After [cleanup] has set [ws] to [null], a reply that still arrives on
    the closing socket clears the request's timer and then fails in
    [ws.off]: the exception leaves the listener and the promise is never
    settled. *)
Example reply_after_cleanup :
  let st1 := (sendToPython "hello" world_started connected).2 in
  let st2 := step st1 (world_started, BeforeQuit) in
  let st3 := step st2 (world_started, WsMessage 0 (Parsed chatReply)) in
  outcome 0 st3 = None /\
  timers st3 !! 2%nat = Some None /\
  uncaught st3 = [Error "Cannot read properties of null (reading 'off')"].
Proof. repeat split; reflexivity. Qed.

Lemma first_chat_response_resolves_witness :
  openSocket connected = Some 0%nat /\
  outcome 0
    (run (sendToPython "hello" world_started connected).2
       [(world_started, WsMessage 0 statusFrame);
        (world_started, WsMessage 0 (Parsed chatReply))])
  = Some (Resolved chatReply).
Proof.
  split; [reflexivity|].
  apply (first_chat_response_resolves "hello" world_started connected 0
           [statusFrame] chatReply); [reflexivity | | reflexivity].
  repeat constructor.
Defined.

Lemma connected_timers_wf : timers_wf connected.
Proof. apply run_timers_wf, run_timers_wf, init_timers_wf. Qed.

Lemma request_times_out_witness :
  openSocket connected = Some 0%nat /\
  promises
    (run (sendToPython "hello" world_started connected).2
       [(world_started, WsMessage 0 statusFrame);
        (world_started, SaveSettings [("jarvis-theme", JStr "light")]);
        (world_started, TimerFires 2)]) !! 0%nat
  = Some [Rejected (Error "Request timeout")].
Proof.
  split; [reflexivity|].
  apply (request_times_out "hello" world_started world_started connected 0
           [(world_started, WsMessage 0 statusFrame);
            (world_started, SaveSettings [("jarvis-theme", JStr "light")])]);
    [reflexivity | exact connected_timers_wf |].
  repeat constructor.
Defined.

End Connection.

(** *** Settings sync *)

Section SettingsSync.
Import JS Json Main Sample SyncSample.

Lemma foldl_set_other (f : json -> json) (news : list (string * json)) k :
  forall m : gmap string json,
  k ∉ news.*1 ->
  foldl (fun m kv => <[kv.1 := f kv.2]> m) m news !! k = m !! k.
Proof.
  induction news as [|[k' v'] news IH]; intros m Hk; [reflexivity|].
  simpl in *. apply not_elem_of_cons in Hk as [Hne Hk].
  rewrite IH by exact Hk. now apply lookup_insert_ne.
Qed.

Lemma foldl_set_member (f : json -> json) (news : list (string * json)) k v :
  forall m : gmap string json,
  NoDup news.*1 ->
  (k, v) ∈ news ->
  foldl (fun m kv => <[kv.1 := f kv.2]> m) m news !! k = Some (f v).
Proof.
  induction news as [|[k' v'] news IH]; intros m Hnd Hin.
  - now apply elem_of_nil in Hin.
  - simpl in *. apply NoDup_cons in Hnd as [Hk' Hnd].
    apply elem_of_cons in Hin as [[= -> ->]|Hin].
    + rewrite foldl_set_other by exact Hk'. apply lookup_insert_eq.
    + now apply IH.
Qed.

(** With plain keys only, no [store.set] throws and each one writes a
    top-level property. *)
Lemma store_set_all_plain (w : world) (news : list (string * json)) :
  forall m : gmap string json,
  Forall (fun k => plainKey k = true) news.*1 ->
  store_set_all w news m =
    (Normal (), foldl (fun m kv => <[kv.1 := viaJson kv.2]> m) m news).
Proof.
  induction news as [|[k v] news IH]; intros m Hp; [reflexivity|].
  apply Forall_cons in Hp as [Hk Hp]. simpl in Hk.
  cbn [store_set_all foldl]. unfold store_set. rewrite Hk. now apply IH.
Qed.

Lemma store_after_save (w : world) (news : list (string * json)) (st : state) :
  Forall (fun k => plainKey k = true) news.*1 ->
  store (ipc_save_settings w news st) =
    foldl (fun m kv => <[kv.1 := viaJson kv.2]> m) (store st) news.
Proof.
  intros Hp. unfold ipc_save_settings. simpl. now rewrite store_set_all_plain.
Qed.

(** C7.  In any state the application has reached, an [open] event on a
    socket issues the settings request as soon as a [fetch]
    implementation exists.  Its body is an object of five fields, each
    one the property of that name of the store as it is at that moment,
    or the default when the store has none.  So after a [save-settings]
    call the next connection sends what was saved: a key of the saved
    object reads from the store as its value, gone through the store's
    JSON file, and the other keys as before (for keys that are plain
    names).  The [settings] object read at load time is not used. *)
Theorem sync_on_every_open (w w1 : world) (persisted : gmap string json)
    (trace : list (world * event)) (news : list (string * json)) (h : nat) :
  let st := run (init persisted) trace in
  let st1 := step st (w1, SaveSettings news) in
  let read (s : state) (key : string) (dflt : json) := default dflt (store s !! key) in
  let request (s : state) :=
    {| http_port := currentPort s; http_path := "/settings/sync-frontend";
       http_method := "POST";
       http_body := Some (JObj
         [("jarvis-ai-model", read s "jarvis-ai-model" (JStr "orca-mini-3b-gguf2-q4_0.gguf"));
          ("jarvis-voice-enabled", read s "jarvis-voice-enabled" (JBool true));
          ("jarvis-auto-start", read s "jarvis-auto-start" (JBool false));
          ("jarvis-backend-port", read s "jarvis-backend-port" (JStr "8000"));
          ("jarvis-theme", read s "jarvis-theme" (JStr "dark"))]);
       http_timeout := None |} in
  http (step st (w, WsOpen h)) =
    http st ++ (if globalFetch w || importNodeFetch w then [request st] else []) /\
  http (step st1 (w, WsOpen h)) =
    http st ++ (if globalFetch w || importNodeFetch w then [request st1] else []) /\
  (NoDup news.*1 ->
   Forall (fun k => plainKey k = true) news.*1 ->
   (forall k v, (k, v) ∈ news -> store st1 !! k = Some (viaJson v)) /\
   (forall k, k ∉ news.*1 -> store st1 !! k = store st !! k)).
Proof.
  cbv zeta.
  assert (H : forall s, http (step s (w, WsOpen h)) =
    http s ++ (if globalFetch w || importNodeFetch w then [syncRequest s] else [])).
  { intros s. unfold step, on_open, syncSettingsWithBackend, syncRequest, notify, upd_socket.
    destruct (globalFetch w || importNodeFetch w);
      repeat case_match; simpl; try reflexivity; now rewrite app_nil_r. }
  split; [apply H|]. split; [rewrite H; reflexivity|].
  intros Hnd Hp. unfold step. rewrite (store_after_save w1 news _ Hp). split.
  - intros k v Hin. now apply (foldl_set_member viaJson).
  - intros k Hk. now apply (foldl_set_other viaJson).
Qed.

Lemma sync_on_every_open_witness :
  let st := run (init stored0) startTrace in
  let st1 := step st (world_started, SaveSettings [("jarvis-ai-model", JStr "mistral.gguf")]) in
  http_body <$> last (http (step st (world_started, WsOpen 0))) =
    Some (Some (JObj [("jarvis-ai-model", JStr "phi-2.Q4_0.gguf");
                      ("jarvis-voice-enabled", JBool true);
                      ("jarvis-auto-start", JBool false);
                      ("jarvis-backend-port", JStr "8000");
                      ("jarvis-theme", JStr "light")])) /\
  http_body <$> last (http (step st1 (world_started, WsOpen 0))) =
    Some (Some (JObj [("jarvis-ai-model", JStr "mistral.gguf");
                      ("jarvis-voice-enabled", JBool true);
                      ("jarvis-auto-start", JBool false);
                      ("jarvis-backend-port", JStr "8000");
                      ("jarvis-theme", JStr "light")])) /\
  store st1 !! "jarvis-ai-model" = Some (JStr "mistral.gguf") /\
  store st1 !! "jarvis-theme" = Some (JStr "light").
Proof.
  cbv zeta.
  destruct (sync_on_every_open world_started world_started stored0 startTrace
              [("jarvis-ai-model", JStr "mistral.gguf")] 0) as (H1 & H2 & H3).
  destruct H3 as [Hin Hout].
  - apply NoDup_singleton.
  - repeat constructor.
  - split; [rewrite H1; reflexivity|]. split; [rewrite H2; reflexivity|]. split.
    + apply (Hin "jarvis-ai-model" (JStr "mistral.gguf")). apply list_elem_of_here.
    + rewrite (Hout "jarvis-theme"); [reflexivity|].
      intros Hx. apply list_elem_of_singleton in Hx. discriminate Hx.
Defined.

(** The model saved through [save-settings] is the one the next
    connection sends, not the one the store held at start. *)
Example sync_sends_saved_model :
  let st := step connected (world_started, SaveSettings [("jarvis-ai-model", JStr "mistral.gguf")]) in
  http_body <$> last (http (step st (world_started, WsOpen 0))) =
  Some (Some (JObj [("jarvis-ai-model", JStr "mistral.gguf");
                    ("jarvis-voice-enabled", JBool true);
                    ("jarvis-auto-start", JBool false);
                    ("jarvis-backend-port", JStr "8000");
                    ("jarvis-theme", JStr "dark")])).
Proof. vm_compute. reflexivity. Qed.

End SettingsSync.

(** *** IPC boundary *)

Section Boundary.
Import JS Json Main Sample.

(** C9.  The [send-message] and [send-backend-request] handlers always
    complete normally: whatever their body throws comes back as
    [{success: false, error}].  In particular a response whose status is
    not a success is returned as such a failure naming the status. *)
Theorem ipc_handlers_catch (w : world) (net : fetch_result) (request : ipc_request)
    (st : state) (s : settlement) :
  ipc_send_message s =
    Normal (match (awaitPromise s).1 with Normal v => v | Throw e => failure e end) /\
  ipc_send_backend_request w net request st =
    (Normal (match (backendRequestBody w net request st).1 with
             | Normal v => v
             | Throw e => failure e
             end),
     (backendRequestBody w net request st).2) /\
  forall r path,
    globalFetch w || requireNodeFetch w || importNodeFetch w = true ->
    url request = Some path ->
    net = FetchResponds r ->
    latency r < (if includes "/model/download" path then 120000 else 30000) ->
    ok r = false ->
    (backendRequestBody w net request st).1 =
      Throw (Error ("HTTP " +:+ pretty (status r) +:+ ": " +:+ statusText r)) /\
    (ipc_send_backend_request w net request st).1 =
      Normal (failure (Error ("HTTP " +:+ pretty (status r) +:+ ": " +:+ statusText r))).
Proof.
  split; [now destruct s|].
  assert (E : ipc_send_backend_request w net request st =
    (Normal (match (backendRequestBody w net request st).1 with
             | Normal v => v
             | Throw e => failure e
             end),
     (backendRequestBody w net request st).2)).
  { unfold ipc_send_backend_request, try_catch.
    now destruct (backendRequestBody w net request st) as [[v|e] st']. }
  split; [exact E|].
  intros r path Hf Hu -> Hl Ho.
  assert (B : (backendRequestBody w (FetchResponds r) request st).1 =
              Throw (Error ("HTTP " +:+ pretty (status r) +:+ ": " +:+ statusText r))).
  { unfold backendRequestBody. rewrite Hf, Hu. simpl.
    apply Z.leb_gt in Hl. rewrite Hl, Ho. reflexivity. }
  split; [exact B|]. rewrite E. simpl. now rewrite B.
Qed.

Lemma ipc_handlers_catch_witness :
  (ipc_send_backend_request world_started notFound checkRequest connected).1 =
    Normal (JObj [("success", JBool false); ("error", JStr "HTTP 404: Not Found")]).
Proof.
  destruct (ipc_handlers_catch world_started notFound checkRequest connected
              (Rejected (Error "Request timeout"))) as (_ & _ & H).
  destruct (H _ "/model/check" eq_refl eq_refl eq_refl eq_refl eq_refl) as [_ H2].
  exact H2.
Defined.

End Boundary.

(** ** Model switch workflow *)

Section ModelSwitch.
Import JS Json Settings.

Variable backend : nat -> backend_call -> json.
Variable coerced_ge_100 : json -> completion bool.

Ltac page_ops :=
  unfold showSuccessMessage, showInfoMessage, showErrorMessage, setStatus,
    showLoadingOverlay, saveToStore, setItem, setTheme.

Lemma handleModelChange_available (m : string) (pg : page) :
  let n := length (calls pg) in
  succeeded (backend n (modelCall "/model/check" m)) = true ->
  truthy_opt (prop "available" (backend n (modelCall "/model/check" m))) = true ->
  let pg' := handleModelChange backend m pg in
  calls pg' = calls pg ++ [modelCall "/model/check" m; modelCall "/model/switch" m] /\
  polling pg' = polling pg /\
  (succeeded (backend (S n) (modelCall "/model/switch" m)) = true ->
   localStorage pg' = <["jarvis-ai-model" := m]> (localStorage pg) /\
   saved pg' = saved pg ++ [m] /\
   (modelStatus (elements pg) && modelStatusText (elements pg) = true ->
    status pg' = Some ([Lit "Successfully switched to "; Lit m; Lit "!"],
                       "status-text success"))).
Proof.
  intros n Hs Ha pg'. subst pg' n.
  unfold handleModelChange, sendBackendRequest. simpl.
  rewrite Hs, Ha, length_app. simpl. rewrite Nat.add_1_r.
  destruct (succeeded (backend (S (length (calls pg))) (modelCall "/model/switch" m)));
    unfold try_catch; page_ops; simpl;
    destruct (modelStatus (elements pg) && modelStatusText (elements pg)); simpl;
    rewrite <- app_assoc; repeat split; intros; try discriminate; reflexivity.
Qed.

Lemma handleModelChange_missing (m : string) (pg : page) :
  let n := length (calls pg) in
  elements pg = settings_html ->
  succeeded (backend n (modelCall "/model/check" m)) = true ->
  truthy_opt (prop "available" (backend n (modelCall "/model/check" m))) = false ->
  let pg' := handleModelChange backend m pg in
  calls pg' = calls pg ++ [modelCall "/model/check" m; modelCall "/model/download" m] /\
  saved pg' = saved pg /\
  polling pg' =
    (if succeeded (backend (S n) (modelCall "/model/download" m)) then true
     else polling pg).
Proof.
  intros n He Hs Ha pg'. subst pg' n.
  unfold handleModelChange, sendBackendRequest. simpl.
  rewrite Hs, Ha. unfold downloadAndSwitchModel, sendBackendRequest. page_ops. simpl.
  rewrite He. simpl. rewrite length_app. simpl. rewrite Nat.add_1_r.
  destruct (succeeded (backend (S (length (calls pg))) (modelCall "/model/download" m)));
    simpl; repeat (rewrite He; simpl); rewrite <- ?app_assoc; repeat split; reflexivity.
Qed.

(** A poll whose reply shows the download complete. *)
Lemma pollTick_complete (m : string) (pg : page) :
  let n := length (calls pg) in
  let r := backend n (getCall "/model/progress") in
  elements pg = settings_html ->
  succeeded r = true ->
  downloadComplete coerced_ge_100 r = Normal true ->
  let pg' := pollTick backend coerced_ge_100 m pg in
  calls pg' = calls pg ++ [getCall "/model/progress"; modelCall "/model/switch" m] /\
  polling pg' = false /\
  (succeeded (backend (S n) (modelCall "/model/switch" m)) = true ->
   localStorage pg' = <["jarvis-ai-model" := m]> (localStorage pg) /\
   saved pg' = saved pg ++ [m] /\
   status pg' = Some ([Lit "Model loaded successfully!"], "status-text success") /\
   unhandled pg' = unhandled pg).
Proof.
  intros n r He Hs Hc pg'. subst pg' r n.
  unfold pollTick, pollBody, sendBackendRequest. simpl.
  rewrite Hs, He, Hc. simpl. rewrite length_app. simpl. rewrite Nat.add_1_r.
  destruct (succeeded (backend (S (length (calls pg))) (modelCall "/model/switch" m)));
    simpl; rewrite <- app_assoc; repeat split; intros; try discriminate; reflexivity.
Qed.

(** Progress of 100 or more completes the download. *)
Lemma downloadComplete_progress (r : json) (q : Q) :
  prop "progress" r = Some (JNum q) ->
  (100 <= q)%Q ->
  downloadComplete coerced_ge_100 r = Normal true.
Proof.
  intros Hp Hq. unfold downloadComplete. rewrite Hp.
  assert (Hnz : Qeq_bool q 0 = false).
  { destruct (Qeq_bool q 0) eqn:E; [|reflexivity].
    apply Qeq_bool_iff in E. rewrite E in Hq. now apply Qle_bool_iff in Hq. }
  simpl. rewrite Hnz. simpl.
  apply Qle_bool_iff in Hq. rewrite Hq. now rewrite orb_true_r.
Qed.

(** So does the status ['completed'], when [progress] is absent or a
    number. *)
Lemma downloadComplete_status (r : json) :
  prop "status" r = Some (JStr "completed") ->
  match prop "progress" r with
  | None | Some (JNum _) | Some (JInf _) | Some (JBool _) | Some JNull => True
  | _ => False
  end ->
  downloadComplete coerced_ge_100 r = Normal true.
Proof.
  intros Hs Hp. unfold downloadComplete. rewrite Hs. simpl.
  destruct (prop "progress" r) as [[| b | q | neg | | |]|]; try contradiction; simpl;
    try reflexivity.
  - now destruct b.
  - now destruct (Qeq_bool q 0).
Qed.

Lemma handleModelChange_elements (m : string) (pg : page) :
  elements (handleModelChange backend m pg) = elements pg.
Proof.
  unfold handleModelChange, downloadAndSwitchModel, sendBackendRequest, try_catch.
  page_ops. simpl. repeat case_match; simplify_eq/=; reflexivity.
Qed.

(** The page when [saveSettingsInternal] reaches the model change. *)
Lemma saveSettingsInternal_changed (pg : page) :
  let sel := str_or (modelSelect (fields pg)) defaultModel in
  let n := length (calls pg) in
  modelChanged sel (str_or (localStorage pg !! "jarvis-ai-model") defaultModel)
    (backend n (getCall "/model/current")) = true ->
  exists pg3,
    saveSettingsInternal backend pg =
      (true, showLoadingOverlay false (handleModelChange backend sel pg3)) /\
    calls pg3 = calls pg ++ [getCall "/model/current"] /\
    elements pg3 = elements pg /\
    saved pg3 = saved pg /\
    polling pg3 = polling pg.
Proof.
  intros sel n Hc. unfold saveSettingsInternal, sendBackendRequest.
  assert (E0 : forall b, calls (showLoadingOverlay b pg) = calls pg)
    by (intros b; unfold showLoadingOverlay; now destruct (settingsLoadingOverlay _)).
  assert (E1 : forall b, fields (showLoadingOverlay b pg) = fields pg)
    by (intros b; unfold showLoadingOverlay; now destruct (settingsLoadingOverlay _)).
  assert (E2 : forall b, localStorage (showLoadingOverlay b pg) = localStorage pg)
    by (intros b; unfold showLoadingOverlay; now destruct (settingsLoadingOverlay _)).
  simpl. rewrite E0, E1, E2. fold sel. fold n. rewrite Hc.
  eexists. split; [reflexivity|].
  page_ops. destruct (settingsLoadingOverlay (elements pg)), (themeSelect (fields pg));
    simpl; auto.
Qed.

Lemma reportsComplete_downloadComplete (r : json) :
  reportsComplete r -> downloadComplete coerced_ge_100 r = Normal true.
Proof.
  intros [(q & Hp & Hq)|[Hs Hp]].
  - now apply (downloadComplete_progress r q).
  - now apply downloadComplete_status.
Qed.

Lemma pollTick_waiting (m : string) (pg : page) :
  elements pg = settings_html ->
  waiting coerced_ge_100 (backend (length (calls pg)) (getCall "/model/progress")) = true ->
  let pg' := pollTick backend coerced_ge_100 m pg in
  calls pg' = calls pg ++ [getCall "/model/progress"] /\
  elements pg' = elements pg /\
  polling pg' = polling pg /\
  localStorage pg' = localStorage pg /\
  saved pg' = saved pg /\
  unhandled pg' = unhandled pg.
Proof.
  intros He Hw pg'. subst pg'. unfold waiting in Hw.
  unfold pollTick, pollBody, sendBackendRequest. simpl.
  destruct (succeeded (backend (length (calls pg)) (getCall "/model/progress")));
    simpl in *; [|auto 10].
  rewrite He. simpl.
  destruct (downloadComplete coerced_ge_100 _) as [[|]|e]; try discriminate.
  apply negb_true_iff in Hw. rewrite Hw. simpl. auto 10.
Qed.

(** The poll runs through [N] waiting replies and then meets a complete
    one. *)
Lemma poll_until_complete (m : string) (N : nat) : forall pg : page,
  let n := length (calls pg) in
  elements pg = settings_html ->
  polling pg = true ->
  (forall i, (i < N)%nat ->
     waiting coerced_ge_100 (backend (n + i) (getCall "/model/progress")) = true) ->
  succeeded (backend (n + N) (getCall "/model/progress")) = true ->
  downloadComplete coerced_ge_100 (backend (n + N) (getCall "/model/progress")) = Normal true ->
  let pg' := poll backend coerced_ge_100 (S N) m pg in
  calls pg' = calls pg ++ replicate (S N) (getCall "/model/progress")
                       ++ [modelCall "/model/switch" m] /\
  polling pg' = false /\
  (succeeded (backend (S (n + N)) (modelCall "/model/switch" m)) = true ->
   localStorage pg' = <["jarvis-ai-model" := m]> (localStorage pg) /\
   saved pg' = saved pg ++ [m] /\
   status pg' = Some ([Lit "Model loaded successfully!"], "status-text success") /\
   unhandled pg' = unhandled pg).
Proof.
  induction N as [|N IH]; intros pg n He Hp Hw Hs Hc pg'; subst pg' n.
  - rewrite Nat.add_0_r in *. simpl. rewrite Hp.
    apply (pollTick_complete m pg He Hs Hc).
  - change (poll backend coerced_ge_100 (S (S N)) m pg)
      with (if polling pg
            then poll backend coerced_ge_100 (S N) m (pollTick backend coerced_ge_100 m pg)
            else pg).
    rewrite Hp.
    assert (Hw0 : waiting coerced_ge_100 (backend (length (calls pg)) (getCall "/model/progress"))
                  = true) by (rewrite <- (Nat.add_0_r (length _)); apply Hw; lia).
    destruct (pollTick_waiting m pg He Hw0) as (Tc & Te & Tp & Tl & Ts & Tu).
    assert (L : forall i, (length (calls (pollTick backend coerced_ge_100 m pg)) + i
                           = length (calls pg) + S i)%nat).
    { intros i. rewrite Tc, length_app. simpl. lia. }
    destruct (IH (pollTick backend coerced_ge_100 m pg)) as (Rc & Rp & Rs).
    + now rewrite Te.
    + now rewrite Tp.
    + intros i Hi. rewrite L. apply Hw. lia.
    + now rewrite L.
    + now rewrite L.
    + rewrite Rc, Tc, <- app_assoc. split; [reflexivity|]. split; [exact Rp|].
      intros Hsw. rewrite L in Rs. rewrite <- Tl, <- Ts, <- Tu. now apply Rs.
Qed.

(** C8.  [saveSettingsInternal] on [settings.html] finds the model
    changed and the check call succeeds.
    - The check says the model is available: the requests made are the
      current-model query, the check and the switch, no download is
      requested and no poll is started; when the switch succeeds the
      model is written to [localStorage] and to the store, and the
      success message is shown.
    - The check says it is not: the download is requested instead of the
      switch; when it is accepted the poll starts.  After [N] replies
      that leave it waiting, a reply that shows the download complete
      (progress of 100 or more, or the status ['completed'])
      stops the poll and requests the switch; when the switch succeeds
      the model is written to [localStorage] and to the store, and the
      success text is shown. *)
Theorem model_switch_workflow (pg : page) (N : nat) :
  let sel := str_or (modelSelect (fields pg)) defaultModel in
  let n := length (calls pg) in
  let check := backend (S n) (modelCall "/model/check" sel) in
  let progress i := backend (3 + n + i) (getCall "/model/progress") in
  elements pg = settings_html ->
  modelChanged sel (str_or (localStorage pg !! "jarvis-ai-model") defaultModel)
    (backend n (getCall "/model/current")) = true ->
  succeeded check = true ->
  let pg1 := (saveSettingsInternal backend pg).2 in
  (truthy_opt (prop "available" check) = true ->
   calls pg1 = calls pg ++ [getCall "/model/current"; modelCall "/model/check" sel;
                            modelCall "/model/switch" sel] /\
   polling pg1 = polling pg /\
   (succeeded (backend (2 + n) (modelCall "/model/switch" sel)) = true ->
    localStorage pg1 !! "jarvis-ai-model" = Some sel /\
    saved pg1 = saved pg ++ [sel] /\
    status pg1 = Some ([Lit "Successfully switched to "; Lit sel; Lit "!"],
                       "status-text success"))) /\
  (truthy_opt (prop "available" check) = false ->
   calls pg1 = calls pg ++ [getCall "/model/current"; modelCall "/model/check" sel;
                            modelCall "/model/download" sel] /\
   (succeeded (backend (2 + n) (modelCall "/model/download" sel)) = true ->
    polling pg1 = true /\
    ((forall i, (i < N)%nat -> waiting coerced_ge_100 (progress i) = true) ->
     succeeded (progress N) = true ->
     reportsComplete (progress N) ->
     let pg2 := poll backend coerced_ge_100 (S N) sel pg1 in
     calls pg2 = calls pg1 ++ replicate (S N) (getCall "/model/progress")
                           ++ [modelCall "/model/switch" sel] /\
     polling pg2 = false /\
     (succeeded (backend (4 + n + N) (modelCall "/model/switch" sel)) = true ->
      localStorage pg2 !! "jarvis-ai-model" = Some sel /\
      saved pg2 = saved pg ++ [sel] /\
      status pg2 = Some ([Lit "Model loaded successfully!"], "status-text success"))))).
Proof.
  intros sel n check progress He Hch Hs pg1.
  destruct (saveSettingsInternal_changed pg Hch) as (pg3 & E & Hc3 & He3 & Hs3 & Hp3).
  fold sel in E. subst pg1. rewrite E. simpl snd.
  assert (Hn3 : length (calls pg3) = S n) by (rewrite Hc3, length_app; simpl; lia).
  assert (Ov : forall q : page,
    calls (showLoadingOverlay false q) = calls q /\
    polling (showLoadingOverlay false q) = polling q /\
    localStorage (showLoadingOverlay false q) = localStorage q /\
    saved (showLoadingOverlay false q) = saved q /\
    status (showLoadingOverlay false q) = status q /\
    elements (showLoadingOverlay false q) = elements q).
  { intros q. unfold showLoadingOverlay. now destruct (settingsLoadingOverlay _). }
  set (pg4 := handleModelChange backend sel pg3).
  destruct (Ov pg4) as (Oc & Op & Ol & Os & Ot & Oe).
  split.
  - intros Ha.
    destruct (handleModelChange_available sel pg3) as (Ac & Ap & As);
      [rewrite Hn3; exact Hs | rewrite Hn3; exact Ha |].
    fold pg4 in Ac, Ap, As.
    rewrite Oc, Op, Ol, Os, Ot, Ac, Ap, Hc3, Hp3, <- app_assoc.
    split; [reflexivity|]. split; [reflexivity|].
    intros Hsw. rewrite Hn3 in As. destruct (As Hsw) as (Al & Asv & Ast).
    rewrite Al, Asv, Hs3, lookup_insert_eq. repeat split.
    apply Ast. now rewrite He3, He.
  - intros Ha.
    destruct (handleModelChange_missing sel pg3) as (Mc & Ms & Mp);
      [now rewrite He3 | rewrite Hn3; exact Hs | rewrite Hn3; exact Ha |].
    fold pg4 in Mc, Ms, Mp. rewrite Hn3 in Mp.
    rewrite Oc, Op, Mc, Hc3, <- app_assoc.
    split; [reflexivity|].
    intros Hd. change (2 + n)%nat with (S (S n)) in Hd. rewrite Hd in Mp.
    split; [exact Mp|].
    intros Hw HsN HcN. apply reportsComplete_downloadComplete in HcN.
    assert (Hlen : length (calls (showLoadingOverlay false pg4)) = (3 + n)%nat).
    { rewrite Oc, Mc, Hc3, !length_app. simpl. fold n. lia. }
    destruct (poll_until_complete sel N (showLoadingOverlay false pg4)) as (Pc & Pp & Ps).
    + rewrite Oe. unfold pg4. now rewrite handleModelChange_elements, He3.
    + now rewrite Op.
    + intros i Hi. rewrite Hlen. now apply Hw.
    + now rewrite Hlen.
    + now rewrite Hlen.
    + cbv zeta. rewrite Pc, Oc, Mc, Hc3, <- !app_assoc. split; [reflexivity|].
      split; [exact Pp|]. intros Hsw.
      rewrite Hlen in Ps. destruct (Ps Hsw) as (Pl & Psv & Pst & _).
      rewrite Pl, Psv, Os, Ms, Hs3, lookup_insert_eq. auto.
Qed.

End ModelSwitch.

Section ModelSwitchWitness.
Import JS Json Settings SettingsSample.

Lemma model_switch_workflow_witness :
  let pg1 := (saveSettingsInternal backendMissing page0).2 in
  let pg2 := poll backendMissing neverReached 2 "mistral.gguf" pg1 in
  elements page0 = settings_html /\
  calls pg2 = [getCall "/model/current"; modelCall "/model/check" "mistral.gguf";
               modelCall "/model/download" "mistral.gguf";
               getCall "/model/progress"; getCall "/model/progress";
               modelCall "/model/switch" "mistral.gguf"] /\
  polling pg2 = false /\
  localStorage pg2 !! "jarvis-ai-model" = Some "mistral.gguf" /\
  saved pg2 = ["mistral.gguf"].
Proof.
  cbv zeta. split; [reflexivity|].
  destruct (model_switch_workflow backendMissing neverReached page0 1
              eq_refl eq_refl eq_refl) as [_ H].
  destruct (H eq_refl) as [Hc Hd].
  destruct (Hd eq_refl) as [_ Hq].
  destruct Hq as (Pc & Pp & Ps); [ | reflexivity | | ].
  - intros i Hi. destruct i as [|i]; [reflexivity | lia].
  - left. exists 100%Q. split; [reflexivity | apply Qle_refl].
  - destruct (Ps eq_refl) as (Pl & Psv & _).
    split; [|split; [exact Pp | split; [exact Pl | exact Psv]]].
    etransitivity; [exact Pc|]. rewrite Hc. reflexivity.
Defined.

End ModelSwitchWitness.

(** ** Shutdown, again *)

Section ShutdownTwice.
Import JS Json Main MainMore Sample.




End ShutdownTwice.

(** ** No connection once quitting *)

Section NoConnection.
Import JS Json Main MainMore Sample MoreSample.

Ltac unfold_ops :=
  unfold notify, setTimeout, clearTimeout, upd_socket, upd_child, settle, try_catch.

Ltac calm_same := unfold qt; unfold_ops; repeat case_match; simplify_eq/=; apply calm_refl.

Ltac len_same :=
  unfold_ops; repeat case_match; simplify_eq/=; rewrite ?length_insert; reflexivity.

Lemma calm_noConnect x y :
  calm x y ->
  (forall id ms cb, x.2 !! id = Some (Some (ms, cb)) ->
     cb <> ResumeStartup /\ cb <> FirstConnect /\ (cb = Reconnect -> x.1 = true)) ->
  (forall id ms cb, y.2 !! id = Some (Some (ms, cb)) ->
     cb <> ResumeStartup /\ cb <> FirstConnect /\ (cb = Reconnect -> y.1 = true)) /\
  (x.1 = true -> y.1 = true).
Proof.
  induction 1 as [x|x y z _ IH1 _ IH2|id q ts|ms cb q ts H1 H2 H3|q ts];
    intros J; simpl in *.
  - auto.
  - destruct (IH1 J) as [J1 Q1]. destruct (IH2 J1) as [J2 Q2]. auto.
  - split; [|auto]. intros id' ms cb H.
    destruct (decide (id = id')) as [->|Hne].
    + destruct (decide (id' < length ts)%nat).
      * rewrite list_lookup_insert_eq in H by lia. discriminate.
      * rewrite list_insert_ge in H by lia. eauto.
    + rewrite list_lookup_insert_ne in H by exact Hne. eauto.
  - split; [|auto]. intros id ms' cb' H.
    apply lookup_app_Some in H as [H|[_ H]]; [eauto|].
    apply list_lookup_singleton_Some in H as [_ H]. now simplify_eq.
  - split; [|auto]. intros id ms cb H. destruct (J id ms cb H) as (? & ? & ?). auto.
Qed.

Lemma callHandlers_calm hs d st : calm (qt st) (qt (callHandlers hs d st).2).
Proof.
  revert st. induction hs as [|[k t] hs IH]; intros st; [apply calm_refl|].
  simpl.
  assert (H1 : calm (qt st) (qt (responseHandler k t d st).2)).
  { assert (D : forall s st0, calm (qt st0) (qt (detach_and_settle k t s st0).2)).
    { intros s st0. unfold detach_and_settle, ws_off.
      change (ws (clearTimeout t st0)) with (ws st0).
      destruct (ws st0) as [h|]; simpl; [|apply calm_clear].
      unfold qt, upd_socket, settle. destruct (sockets _ !! h); simpl; apply calm_clear. }
    unfold responseHandler, try_catch.
    destruct d as [m|j]; [apply D|].
    destruct (isChatResponse j) as [[|]|e]; [|apply calm_refl|apply D].
    match goal with |- context [detach_and_settle k t ?s st] =>
      pose proof (D s st) as H1; destruct (detach_and_settle k t s st) as [[[]|e] st1] end;
      simpl in *; [exact H1|].
    eapply calm_trans; [exact H1|]. apply D. }
  destruct (responseHandler k t d st) as [[[]|e] st1]; simpl in *; [|exact H1].
  eapply calm_trans; [exact H1 | apply IH].
Qed.

Lemma callHandlers_sockets hs d st :
  length (sockets (callHandlers hs d st).2) = length (sockets st).
Proof.
  revert st. induction hs as [|[k t] hs IH]; intros st; [reflexivity|].
  simpl.
  assert (H1 : length (sockets (responseHandler k t d st).2) = length (sockets st)).
  { unfold responseHandler, detach_and_settle, ws_off, isChatResponse.
    unfold_ops. repeat case_match; simplify_eq/=; rewrite ?length_insert; reflexivity. }
  destruct (responseHandler k t d st) as [[[]|e] st1]; simpl in *; [|exact H1].
  now rewrite IH.
Qed.

Lemma cleanup_calm st : calm (qt st) (qt (cleanup st)).
Proof.
  unfold cleanup, closeSocket, qt. unfold_ops.
  repeat case_match; simplify_eq/=;
    first [apply calm_refl | apply calm_timer; [discriminate|discriminate|discriminate]].
Qed.

Lemma cleanup_sockets st : length (sockets (cleanup st)) = length (sockets st).
Proof.
  unfold cleanup, closeSocket. unfold_ops.
  repeat case_match; simplify_eq/=; rewrite ?length_insert; reflexivity.
Qed.

Lemma quit_cleanup_calm st : calm (qt st) (qt (cleanup (set_isQuitting true st))).
Proof.
  eapply calm_trans; [apply (calm_quit (isQuitting st) (timers st))|].
  apply (cleanup_calm (set_isQuitting true st)).
Qed.

(** An event other than the start of the backend, in a state where no
    timer would connect, creates no socket and keeps that state of
    affairs; a socket's close or error is allowed only when quitting. *)
Lemma step_no_connect w e st :
  noConnectPending st ->
  e <> AppReady ->
  isQuitting st = true \/ socketFailure e = false ->
  calm (qt st) (qt (step st (w, e))) /\
  length (sockets (step st (w, e))) = length (sockets st).
Proof.
  intros J He Hq.
  destruct e as [|output|p|id|h|h d|h|h|msg|request net|news| | | |];
    try congruence; unfold step.
  - unfold on_stdout. split; [calm_same | now destruct (matchPort output)].
  - unfold on_child_close. split; [calm_same|]. len_same.
  - unfold fire. destruct (timers st !! id) as [[[ms cb]|]|] eqn:E;
      try (split; [apply calm_refl | reflexivity]).
    destruct (J id ms cb E) as (J1 & J2 & J3).
    split.
    + eapply calm_trans; [apply (calm_clear id)|].
      change (isQuitting st, <[id:=None]> (timers st)) with (qt (clearTimeout id st)).
      destruct cb; try congruence; simpl.
      * unfold connectWebSocket. calm_same.
      * calm_same.
      * unfold forceKill. calm_same.
    + destruct cb; try congruence; simpl.
      * rewrite (J3 eq_refl). reflexivity.
      * reflexivity.
      * unfold forceKill. len_same.
  - unfold on_open, syncSettingsWithBackend. split; [calm_same|].
    len_same.
  - unfold on_message. destruct (sockets st !! h) as [sk|];
      [|split; [apply calm_refl | reflexivity]].
    pose proof (callHandlers_calm (handlers sk) d (forwardMessage d st)) as C.
    pose proof (callHandlers_sockets (handlers sk) d (forwardMessage d st)) as S.
    assert (F1 : qt (forwardMessage d st) = qt st)
      by (unfold forwardMessage, notify; now repeat case_match).
    assert (F2 : sockets (forwardMessage d st) = sockets st)
      by (unfold forwardMessage, notify; now repeat case_match).
    rewrite F1 in C. rewrite F2 in S.
    destruct (callHandlers (handlers sk) d (forwardMessage d st)) as [[[]|e] st1];
      simpl in *; auto.
  - destruct Hq as [Hq|Hq]; [|discriminate]. unfold on_close. split.
    + unfold qt. unfold_ops. repeat case_match; simplify_eq/=;
        (apply calm_timer; [discriminate | discriminate | intros _; exact Hq]).
    + len_same.
  - destruct Hq as [Hq|Hq]; [|discriminate]. unfold on_error. split; [|reflexivity].
    apply calm_timer; [discriminate | discriminate | intros _; exact Hq].
  - split.
    + unfold sendToPython, qt. unfold_ops. repeat case_match; simplify_eq/=;
        first [apply calm_refl | apply calm_timer; [discriminate|discriminate|discriminate]].
    + unfold sendToPython. len_same.
  - unfold ipc_send_backend_request, backendRequestBody.
    split; [calm_same | len_same].
  - split; [apply calm_refl | reflexivity].
  - split; [apply quit_cleanup_calm | apply (cleanup_sockets (set_isQuitting true st))].
  - split; [apply calm_refl | reflexivity].
  - destruct (mainWindow st); [split; [apply calm_refl | reflexivity]|].
    split; [apply quit_cleanup_calm | apply (cleanup_sockets (set_isQuitting true st))].
  - split; [apply quit_cleanup_calm | apply (cleanup_sockets (set_isQuitting true st))].
Qed.

Lemma run_no_connect (quitting : bool) trace : forall st,
  noConnectPending st ->
  (if quitting then isQuitting st = true else True) ->
  Forall (fun we : world * event =>
            we.2 <> AppReady /\ (quitting = true \/ socketFailure we.2 = false)) trace ->
  length (sockets (run st trace)) = length (sockets st).
Proof.
  induction trace as [|[w e] trace IH]; intros st J Q Ht; [reflexivity|].
  apply Forall_cons in Ht as [[He Hf] Ht]. simpl in He, Hf.
  change (length (sockets (run (step st (w, e)) trace)) = length (sockets st)).
  destruct (step_no_connect w e st J He) as [C S].
  { destruct quitting; [now left|]. destruct Hf as [Hf|Hf]; [discriminate | now right]. }
  destruct (calm_noConnect _ _ C J) as [J' Q'].
  rewrite IH; [exact S | exact J' | | exact Ht].
  destruct quitting; [now apply Q' | exact I].
Qed.

(** X2.  Once the application is quitting and the start-up wait and the
    first connection are behind it, nothing creates a WebSocket any
    more: reconnection timers that expire, and the ones that closing
    and failing sockets still arm, all find the flag set. *)
Theorem no_socket_once_quitting (st : state) (trace : list (world * event)) :
  isQuitting st = true ->
  (forall id ms cb, timers st !! id = Some (Some (ms, cb)) ->
     cb <> ResumeStartup /\ cb <> FirstConnect) ->
  Forall (fun we : world * event => we.2 <> AppReady) trace ->
  length (sockets (run st trace)) = length (sockets st).
Proof.
  intros Q J Ht. apply (run_no_connect true); [|exact Q|].
  - intros id ms cb H. destruct (J id ms cb H). auto.
  - eapply Forall_impl; [exact Ht|]. intros we H. auto.
Qed.

(** X3.  When the backend could not be started (the script is missing),
    no timer is armed, and whatever the user does afterwards no
    WebSocket is ever created (no socket exists, so none can close or
    fail). *)
Theorem no_socket_without_backend (w : world) (persisted : gmap string json)
    (trace : list (world * event)) :
  scriptExists w = false ->
  Forall (fun we : world * event =>
            we.2 <> AppReady /\ socketFailure we.2 = false) trace ->
  sockets (run (init persisted) ((w, AppReady) :: trace)) = [].
Proof.
  intros Hs Ht.
  change (sockets (run (step (init persisted) (w, AppReady)) trace) = []).
  assert (E : step (init persisted) (w, AppReady) = init persisted)
    by (unfold step, startPythonBackend_begin; now rewrite Hs).
  rewrite E. apply length_zero_iff_nil.
  rewrite (run_no_connect false); [reflexivity | | exact I |].
  - intros id ms cb H. simpl in H. now rewrite lookup_nil in H.
  - eapply Forall_impl; [exact Ht|]. intros we [H1 H2]. auto.
Qed.

Lemma no_socket_once_quitting_witness :
  isQuitting quitting = true /\
  length (sockets (run quitting [(world_started, ChildClose 0);
                                 (world_started, WsClose 0);
                                 (world_started, TimerFires 3)])) = 1%nat.
Proof.
  split; [reflexivity|].
  apply (no_socket_once_quitting quitting
           [(world_started, ChildClose 0); (world_started, WsClose 0);
            (world_started, TimerFires 3)]).
  - reflexivity.
  - intros id ms cb H.
    destruct id as [|[|[|id]]]; simpl in H; try discriminate;
      injection H as _ <-; split; discriminate.
  - repeat constructor; discriminate.
Defined.

Lemma no_socket_without_backend_witness :
  sockets (run (init ∅) [(world0, AppReady); (world0, SendMessage "hello");
                        (world0, TimerFires 0); (world0, BeforeQuit)]) = [].
Proof.
  apply (no_socket_without_backend world0 ∅
           [(world0, SendMessage "hello"); (world0, TimerFires 0); (world0, BeforeQuit)]).
  - reflexivity.
  - repeat constructor; discriminate.
Defined.

(** The timer of the first connection does not look at the flag: an
    application told to quit during start-up still opens its socket. *)
Example connects_while_quitting :
  let st := run (init ∅) [(world_started, AppReady); (world_started, BeforeQuit);
                          (world_started, TimerFires 0); (world_started, TimerFires 2)] in
  isQuitting st = true /\ length (sockets st) = 1%nat.
Proof. split; reflexivity. Qed.

End NoConnection.

(** ** Listeners and timers of a request *)

Section Listeners.
Import JS Json Main MainMore Sample MoreSample.

Lemma responseHandler_chat_eq k t j st h :
  ws st = Some h ->
  is_str "chat_response" (prop "type" j) = true ->
  responseHandler k t (Parsed j) st =
    (Normal (),
     settle k (Resolved j)
       (upd_socket h
          (fun sk => set_handlers (filter (fun x => x <> (k, t)) (handlers sk)) sk)
          (clearTimeout t st))).
Proof.
  intros Hw Hj. unfold responseHandler. rewrite (chat_not_null j Hj).
  unfold detach_and_settle, ws_off.
  change (ws (clearTimeout t st)) with (ws st). now rewrite Hw.
Qed.

Lemma filter_all {A} (P : A -> Prop) `{!forall x, Decision (P x)} (l : list A) :
  (forall x, x ∈ l -> P x) -> filter P l = l.
Proof.
  induction l as [|a l IH]; intros Hall; [reflexivity|].
  rewrite filter_cons_True by (apply Hall; left). f_equal. apply IH.
  intros x Hx. apply Hall. now right.
Qed.

Lemma filter_none {A} (P : A -> Prop) `{!forall x, Decision (P x)} (l : list A) :
  (forall x, x ∈ l -> ~ P x) -> filter P l = [].
Proof.
  induction l as [|a l IH]; intros Hall; [reflexivity|].
  rewrite filter_cons_False by (apply Hall; left). apply IH.
  intros x Hx. apply Hall. now right.
Qed.

Lemma callHandlers_chat_detaches hs j h : forall st sk,
  ws st = Some h ->
  sockets st !! h = Some sk ->
  is_str "chat_response" (prop "type" j) = true ->
  exists st' sk',
    callHandlers hs (Parsed j) st = (Normal (), st') /\
    sockets st' !! h = Some sk' /\
    handlers sk' = filter (fun x => x ∉ hs) (handlers sk) /\
    timers st' = foldl (fun ts kt => <[kt.2 := None]> ts) (timers st) hs /\
    uncaught st' = uncaught st.
Proof.
  induction hs as [|[k t] hs IH]; intros st sk Hw Hs Hj.
  - exists st, sk. repeat split; try assumption.
    symmetry. apply filter_all. intros x _. apply not_elem_of_nil.
  - simpl. rewrite (responseHandler_chat_eq k t j st h Hw Hj).
    set (st1 := settle k (Resolved j) _).
    assert (Hs1 : sockets st1 !! h =
                  Some (set_handlers (filter (fun x => x <> (k, t)) (handlers sk)) sk)).
    { unfold st1, settle, upd_socket, clearTimeout. simpl. rewrite Hs. simpl.
      apply list_lookup_insert_eq. now apply lookup_lt_Some in Hs. }
    assert (Ht1 : timers st1 = <[t := None]> (timers st)).
    { unfold st1, settle, upd_socket, clearTimeout. simpl. now rewrite Hs. }
    assert (Hu1 : uncaught st1 = uncaught st).
    { unfold st1, settle, upd_socket, clearTimeout. simpl. now rewrite Hs. }
    assert (Hw1 : ws st1 = Some h).
    { unfold st1, settle, upd_socket, clearTimeout. simpl. now rewrite Hs. }
    destruct (IH st1 _ Hw1 Hs1 Hj) as (st' & sk' & E & Hs' & Hh & Ht & Hu).
    exists st', sk'. rewrite E. repeat split; try assumption.
    + rewrite Hh. simpl. rewrite list_filter_filter. apply list_filter_iff.
      intros x. rewrite elem_of_cons. tauto.
    + now rewrite Ht, Ht1.
    + now rewrite Hu, Hu1.
Qed.

Lemma cleared_stays (hs : list (nat * nat)) : forall (ts : list (option (Z * callback))) t x,
  (forall y, ts !! t <> Some (Some y)) ->
  foldl (fun ts kt => <[kt.2 := None]> ts) ts hs !! t <> Some (Some x).
Proof.
  induction hs as [|[k' t'] hs IH]; intros ts t x H; [apply H|].
  simpl. apply IH. intros y. simpl.
  destruct (decide (t' = t)) as [->|Hne].
  - destruct (decide (t < length ts)%nat).
    + rewrite list_lookup_insert_eq by lia. discriminate.
    + rewrite list_insert_ge by lia. apply H.
  - rewrite list_lookup_insert_ne by exact Hne. apply H.
Qed.

Lemma cleared_by (hs : list (nat * nat)) : forall (ts : list (option (Z * callback))) k t x,
  (k, t) ∈ hs ->
  foldl (fun ts kt => <[kt.2 := None]> ts) ts hs !! t <> Some (Some x).
Proof.
  induction hs as [|[k' t'] hs IH]; intros ts k t x Hin.
  - now apply elem_of_nil in Hin.
  - apply elem_of_cons in Hin as [[= -> ->]|Hin]; simpl.
    + apply cleared_stays. intros y.
      destruct (decide (t' < length ts)%nat).
      * rewrite list_lookup_insert_eq by lia. discriminate.
      * rewrite list_insert_ge by lia. intros H. apply lookup_lt_Some in H. lia.
    + now apply (IH _ k).
Qed.

(** X4.  A frame of type ['chat_response'] on the current session serves
    every request waiting there: afterwards the socket has no response
    handler left, the timer of each handler it had is no longer armed,
    and no exception has left the listener. *)
Theorem reply_detaches_all (w : world) (st : state) (h : nat) (sk : socket) (j : json) :
  ws st = Some h ->
  sockets st !! h = Some sk ->
  is_str "chat_response" (prop "type" j) = true ->
  let st' := step st (w, WsMessage h (Parsed j)) in
  handlers <$> sockets st' !! h = Some [] /\
  (forall k t x, (k, t) ∈ handlers sk -> timers st' !! t <> Some (Some x)) /\
  uncaught st' = uncaught st.
Proof.
  intros Hw Hs Hj. cbv zeta. unfold step, on_message. rewrite Hs.
  assert (F : forall m, ws (notify m st) = Some h /\ sockets (notify m st) !! h = Some sk /\
                        timers (notify m st) = timers st /\
                        uncaught (notify m st) = uncaught st)
    by (intros m; unfold notify; destruct (mainWindow st); simpl; auto).
  unfold forwardMessage. destruct (F (BackendMessage j)) as (Fw & Fs & Ft & Fu).
  destruct (callHandlers_chat_detaches (handlers sk) j h _ sk Fw Fs Hj)
    as (st' & sk' & -> & Hs' & Hh & Ht & Hu).
  rewrite Hs'. simpl. repeat split.
  - f_equal. rewrite Hh. apply filter_none. intros x Hx. tauto.
  - intros k t x Hin. rewrite Ht. now apply (cleared_by _ _ k).
  - now rewrite Hu, Fu.
Qed.

Lemma reply_detaches_all_witness :
  let st' := step asking (world_started, WsMessage 0 (Parsed chatReply)) in
  handlers <$> sockets asking !! 0%nat = Some [(0, 2)%nat] /\
  handlers <$> sockets st' !! 0%nat = Some [] /\
  timers st' !! 2%nat = Some None.
Proof.
  split; [reflexivity|]. split; [|reflexivity].
  apply (reply_detaches_all world_started asking 0
           {| readyState := OPEN; handlers := [(0, 2)%nat];
              sent := [{| frame_id := 1700000000000; frame_message := "hello";
                          frame_timestamp := 1700000000000 |}] |} chatReply);
    reflexivity.
Defined.

Lemma callHandlers_ui hs d st : ui (callHandlers hs d st).2 = ui st.
Proof.
  revert st. induction hs as [|[k t] hs IH]; intros st; [reflexivity|].
  simpl.
  assert (R : ui (responseHandler k t d st).2 = ui st).
  { unfold responseHandler, detach_and_settle, ws_off, isChatResponse,
      clearTimeout, upd_socket, settle, try_catch.
    repeat case_match; simplify_eq/=; reflexivity. }
  destruct (responseHandler k t d st) as [[[]|e] s1]; simpl in *; [|exact R].
  now rewrite IH.
Qed.

Lemma fire_request_timeout w t ms k st :
  timers st !! t = Some (Some (ms, RequestTimeout k)) ->
  step st (w, TimerFires t) =
    settle k (Rejected (Error "Request timeout")) (clearTimeout t st).
Proof. intros H. unfold step, fire. now rewrite H. Qed.

(** X5.  When the deadline of a request passes (only ignored frames
    having arrived), its response handler stays attached to the socket.
    A frame of type ['chat_response'] that arrives later is still
    forwarded to the window, but the promise remains rejected with
    "Request timeout". *)
Theorem timeout_keeps_handler (msg : string) (w : world) (st : state) (h : nat)
    (frames : list wsdata) (j : json) :
  openSocket st = Some h ->
  Forall (fun d => ignored d = true) frames ->
  mainWindow st = true ->
  let k := (sendToPython msg w st).1 in
  let t := length (timers st) in
  let st2 := run (sendToPython msg w st).2
                 (map (fun d => (w, WsMessage h d)) frames ++ [(w, TimerFires t)]) in
  let st3 := step st2 (w, WsMessage h (Parsed j)) in
  (exists sk, sockets st2 !! h = Some sk /\ (k, t) ∈ handlers sk) /\
  outcome k st3 = Some (Rejected (Error "Request timeout")) /\
  last (ui st3) = Some (BackendMessage j).
Proof.
  intros Ho Hf Hm. cbv zeta.
  destruct (sendToPython_open msg w st h Ho) as (sk & Hs & E). rewrite E.
  simpl fst. simpl snd. unfold run. rewrite foldl_app. simpl foldl.
  match goal with |- context [foldl step ?s (map _ frames)] =>
    destruct (run_ignored w h frames s Hf) as [u Hu]; unfold run in Hu; rewrite Hu end.
  match goal with |- context [step ?s (w, TimerFires ?t)] =>
    rewrite (fire_request_timeout w t 30000 (length (promises st)) s)
      by (simpl; apply lookup_snoc_length) end.
  set (st2 := settle _ _ _).
  assert (S2 : sockets st2 !! h =
    Some {| readyState := OPEN;
            handlers := handlers sk ++ [(length (promises st), length (timers st))];
            sent := sent sk ++ [{| frame_id := clock w; frame_message := msg;
                                   frame_timestamp := clock w |}] |}).
  { unfold st2. simpl.
    apply list_lookup_insert_eq. now apply lookup_lt_Some in Hs. }
  assert (O2 : outcome (length (promises st)) st2 = Some (Rejected (Error "Request timeout"))).
  { unfold st2, outcome. simpl. unfold record. rewrite lookup_snoc_length.
    rewrite list_lookup_insert_eq by (rewrite length_app; simpl; lia). reflexivity. }
  assert (M2 : mainWindow st2 = true) by exact Hm.
  split; [|split].
  - eexists. split; [exact S2|]. simpl. set_solver.
  - apply (run_settled [(w, WsMessage h (Parsed j))]). exact O2.
  - unfold step, on_message. rewrite S2.
    unfold forwardMessage, notify. rewrite M2.
    match goal with |- context [callHandlers ?hs ?d ?s] =>
      pose proof (callHandlers_ui hs d s) as U;
      destruct (callHandlers hs d s) as [[[]|e] st']; simpl in *; rewrite U; simpl;
      apply last_snoc
    end.
Qed.

Lemma timeout_keeps_handler_witness :
  let st2 := run asking [(world_started, WsMessage 0 statusFrame);
                         (world_started, TimerFires 2)] in
  let st3 := step st2 (world_started, WsMessage 0 (Parsed chatReply)) in
  openSocket connected = Some 0%nat /\
  handlers <$> sockets st2 !! 0%nat = Some [(0, 2)%nat] /\
  outcome 0 st3 = Some (Rejected (Error "Request timeout")).
Proof.
  split; [reflexivity|]. split; [reflexivity|].
  apply (timeout_keeps_handler "hello" world_started connected 0 [statusFrame] chatReply);
    [reflexivity | repeat constructor | reflexivity].
Defined.

End Listeners.

(** ** The port announced on stdout *)

Section StdoutPort.
Import JS Json Main MainMore Sample.

Lemma between_cases lo hi c :
  between lo hi c = true -> (lo <= c /\ c <= hi)%N.
Proof.
  unfold between. intros H. apply andb_true_iff in H as [H1 H2].
  split; now apply N.leb_le.
Qed.

Lemma decimal_digit_cases c :
  isDecimalDigit c = true ->
  c = 48%N \/ c = 49%N \/ c = 50%N \/ c = 51%N \/ c = 52%N \/
  c = 53%N \/ c = 54%N \/ c = 55%N \/ c = 56%N \/ c = 57%N.
Proof. intros H. apply between_cases in H. lia. Qed.

Lemma takeDigits_digits s : Forall (fun c => isDecimalDigit c = true) (takeDigits s).
Proof.
  induction s as [|c s IH]; simpl; [constructor|].
  destruct (isDecimalDigit c) eqn:E; constructor; assumption.
Qed.

(** What [matchPort] captures is a non-empty run of decimal digits. *)
Lemma matchPort_digits output ds :
  matchPort output = Some ds ->
  ds <> [] /\ Forall (fun c => isDecimalDigit c = true) ds.
Proof.
  induction output as [|c output IH].
  - simpl. discriminate.
  - change (matchPort (c :: output)) with
      (match
         match stripPrefix (lit "Auto-selected port: ") (c :: output) with
         | Some rest => match takeDigits rest with [] => None | d :: l => Some (d :: l) end
         | None => None
         end
       with
       | Some ds => Some ds
       | None => matchPort output
       end).
    destruct (stripPrefix _ (c :: output)) as [rest|]; [|exact IH].
    pose proof (takeDigits_digits rest) as Hd.
    destruct (takeDigits rest) as [|d l]; [exact IH|].
    intros [= <-]. split; [discriminate | exact Hd].
Qed.

Lemma digit_not_space c : isDecimalDigit c = true -> isWhiteSpace c = false.
Proof. intros H. destruct (decimal_digit_cases c H) as [->|[->|[->|[->|[->|[->|[->|[->|[->| ->]]]]]]]]]; reflexivity. Qed.

Lemma digitIn_decimal c :
  isDecimalDigit c = true -> digitIn 10 c = Some (Z.of_N c - 48).
Proof. intros H. destruct (decimal_digit_cases c H) as [->|[->|[->|[->|[->|[->|[->|[->|[->| ->]]]]]]]]]; reflexivity. Qed.

Lemma digitPrefix_decimal ds :
  Forall (fun c => isDecimalDigit c = true) ds ->
  digitPrefix 10 ds = digitValues ds.
Proof.
  induction 1 as [|c ds Hc _ IH]; [reflexivity|].
  simpl. rewrite (digitIn_decimal c Hc). now rewrite IH.
Qed.

(** [parseInt] of a non-empty run of decimal digits is the number they
    denote, rounded to a double. *)
Lemma parseInt_decimal ds :
  ds <> [] ->
  Forall (fun c => isDecimalDigit c = true) ds ->
  parseInt ds = toNumber64 (mathInt 10 (digitValues ds)).
Proof.
  intros Hne Hd. destruct ds as [|c ds]; [congruence|].
  apply Forall_cons in Hd as [Hc Hd].
  assert (P : digitPrefix 10 (c :: ds) = digitValues (c :: ds))
    by (apply digitPrefix_decimal; now constructor).
  unfold parseInt. simpl trimStart. rewrite (digit_not_space c Hc).
  assert (S : readSign (c :: ds) = (false, c :: ds))
    by (destruct (decimal_digit_cases c Hc) as [->|[->|[->|[->|[->|[->|[->|[->|[->| ->]]]]]]]]];
        reflexivity).
  rewrite S.
  assert (R : readRadix (c :: ds) = (10, c :: ds)).
  { destruct ds as [|c' ds'].
    - destruct (decimal_digit_cases c Hc) as [->|[->|[->|[->|[->|[->|[->|[->|[->| ->]]]]]]]]];
        reflexivity.
    - apply Forall_cons in Hd as [Hc' _].
      destruct (decimal_digit_cases c Hc) as [->|[->|[->|[->|[->|[->|[->|[->|[->| ->]]]]]]]]];
        try reflexivity.
      destruct (decimal_digit_cases c' Hc') as [->|[->|[->|[->|[->|[->|[->|[->|[->| ->]]]]]]]]];
        reflexivity. }
  rewrite R, P. simpl. reflexivity.
Qed.

Lemma mathInt_nonneg_from ds : forall acc,
  0 <= acc -> Forall (fun d => 0 <= d) ds ->
  0 <= fold_left (fun acc d => acc * 10 + d) ds acc.
Proof.
  induction ds as [|d ds IH]; intros acc Ha Hd; [exact Ha|].
  apply Forall_cons in Hd as [H0 Hd]. simpl. apply IH; [lia | exact Hd].
Qed.

Lemma digitValues_nonneg ds :
  Forall (fun c => isDecimalDigit c = true) ds -> Forall (fun d => 0 <= d) (digitValues ds).
Proof.
  induction 1 as [|c ds Hc _ IH]; [constructor|].
  simpl. constructor; [|exact IH]. apply between_cases in Hc. lia.
Qed.

Lemma toNumber64_nonneg z :
  0 <= z ->
  (exists z', 0 <= z' /\ toNumber64 z = Int z') \/ toNumber64 z = Infinity false.
Proof.
  intros Hz. unfold toNumber64.
  destruct (Z.abs z <? 2 ^ 53); [left; eauto|].
  assert (Hn : (z <? 0) = false) by (apply Z.ltb_ge; exact Hz). rewrite Hn.
  match goal with |- context [if ?b then Infinity false else _] => destruct b end;
    [now right|].
  left. eexists. split; [|reflexivity].
  apply Z.shiftl_nonneg.
  assert (Hq : 0 <= Z.shiftr (Z.abs z) (Z.log2 (Z.abs z) - 52))
    by (apply Z.shiftr_nonneg; lia).
  match goal with |- context [if ?b then _ else _] => destruct b end; lia.
Qed.

(** X6.  Whatever a stdout chunk contains, the listener either leaves
    [currentPort] alone or sets it to a non-negative integer (or to
    [+Infinity], for a run of digits beyond the range of a double):
    never to NaN and never to a negative number, unlike the sidecar
    file. *)
Theorem stdout_port_is_a_number (output : jsstring) (st : state) :
  currentPort (on_stdout output st) = currentPort st \/
  (exists z, 0 <= z /\ currentPort (on_stdout output st) = Int z) \/
  currentPort (on_stdout output st) = Infinity false.
Proof.
  unfold on_stdout. destruct (matchPort output) as [ds|] eqn:E; [|now left].
  right. simpl. destruct (matchPort_digits output ds E) as [Hne Hd].
  rewrite (parseInt_decimal ds Hne Hd).
  apply toNumber64_nonneg. unfold mathInt.
  apply mathInt_nonneg_from; [lia | now apply digitValues_nonneg].
Qed.

Lemma matchPort_unfold output :
  matchPort output =
  match
    match stripPrefix (lit "Auto-selected port: ") output with
    | Some rest => match takeDigits rest with [] => None | d :: l => Some (d :: l) end
    | None => None
    end
  with
  | Some ds => Some ds
  | None => match output with _ :: output' => matchPort output' | [] => None end
  end.
Proof. now destruct output. Qed.

Lemma stripPrefix_Some p : forall s r, stripPrefix p s = Some r -> s = p ++ r.
Proof.
  induction p as [|a p IH]; intros s r H; simpl in *; [now simplify_eq|].
  destruct s as [|b s]; [discriminate|].
  destruct (a =? b)%N eqn:E; [|discriminate].
  apply N.eqb_eq in E as ->. now rewrite (IH s r H).
Qed.

Lemma stripPrefix_app p s : stripPrefix p (p ++ s) = Some s.
Proof. induction p as [|a p IH]; simpl; [reflexivity|]. now rewrite N.eqb_refl. Qed.

Lemma takeDigits_run ds rest :
  Forall (fun c => isDecimalDigit c = true) ds ->
  takeDigits rest = [] ->
  takeDigits (ds ++ rest) = ds.
Proof.
  induction 1 as [|c ds Hc _ IH]; intros Hr; simpl; [exact Hr|].
  rewrite Hc. now rewrite IH.
Qed.

(** A match that starts inside [pre], in front of the literal, lies
    within [pre]. *)
Lemma no_match_across pre c tail r :
  stripPrefix (lit "Auto-selected port: ") (c :: pre ++ lit "Auto-selected port: " ++ tail)
    = Some r ->
  takeDigits r <> [] ->
  exists r', stripPrefix (lit "Auto-selected port: ") (c :: pre) = Some r' /\
             takeDigits r' <> [].
Proof.
  set (L := lit "Auto-selected port: ").
  intros Hs Hd. apply stripPrefix_Some in Hs.
  assert (HL : Forall (fun x => isDecimalDigit x = false) L) by (repeat constructor).
  assert (Hlen : length L = 20%nat) by reflexivity.
  set (n := length (c :: pre)).
  assert (Hs' : (c :: pre) ++ L ++ tail = L ++ r) by exact Hs.
  destruct (decide (length L < n)%nat) as [Hlt|Hge].
  - (* the literal and the digit after it lie in [c :: pre] *)
    assert (E : c :: pre = L ++ take (n - length L) r).
    { transitivity (take n ((c :: pre) ++ L ++ tail)).
      - symmetry. apply take_app_length.
      - rewrite Hs'. apply take_app_ge. lia. }
    exists (take (n - length L) r). split.
    + rewrite E. apply stripPrefix_app.
    + destruct r as [|d r]; [now simpl in Hd|].
      destruct (n - length L)%nat as [|m] eqn:En; [lia|].
      simpl in *. destruct (isDecimalDigit d); [discriminate | exact Hd].
  - (* the character after the literal is one of the second literal *)
    exfalso. apply Hd.
    assert (Hn : (1 <= n)%nat) by (unfold n; simpl; lia).
    assert (Hr : r = drop (length L - n) L ++ tail).
    { transitivity (drop (length L) (L ++ r)); [symmetry; apply drop_app_length|].
      rewrite <- Hs'. rewrite drop_app_ge by (fold n; lia). fold n.
      apply drop_app_le. lia. }
    destruct (drop (length L - n) L) as [|x l0] eqn:Ed.
    + apply (f_equal length) in Ed. rewrite length_drop in Ed. simpl in Ed. lia.
    + assert (Hin : x ∈ L).
      { apply (list_elem_of_lookup_2 _ (length L - n + 0)).
        rewrite <- lookup_drop, Ed. reflexivity. }
      rewrite Hr. simpl. rewrite Forall_forall in HL. now rewrite (HL x Hin).
Qed.

Lemma matchPort_after pre ds rest :
  matchPort pre = None ->
  ds <> [] ->
  Forall (fun c => isDecimalDigit c = true) ds ->
  takeDigits rest = [] ->
  matchPort (pre ++ lit "Auto-selected port: " ++ ds ++ rest) = Some ds.
Proof.
  intros Hp Hne Hd Hr. induction pre as [|c pre IH].
  - rewrite app_nil_l, matchPort_unfold, stripPrefix_app, (takeDigits_run ds rest Hd Hr).
    destruct ds; [congruence | reflexivity].
  - rewrite matchPort_unfold in Hp.
    destruct (stripPrefix _ (c :: pre)) as [r'|] eqn:E'.
    + destruct (takeDigits r') as [|d l] eqn:Et; [|discriminate].
      rewrite <- app_comm_cons, matchPort_unfold.
      destruct (stripPrefix _ (c :: pre ++ _)) as [r|] eqn:E; [|now apply IH].
      destruct (takeDigits r) as [|d l] eqn:Etr; [now apply IH|].
      destruct (no_match_across pre c (ds ++ rest) r E) as (r2 & E2 & Hd2);
        [rewrite Etr; discriminate|].
      assert (r2 = r') by congruence. subst r2. contradiction.
    + rewrite <- app_comm_cons, matchPort_unfold.
      destruct (stripPrefix _ (c :: pre ++ _)) as [r|] eqn:E; [|now apply IH].
      destruct (takeDigits r) as [|d l] eqn:Etr; [now apply IH|].
      destruct (no_match_across pre c (ds ++ rest) r E) as (r2 & E2 & Hd2);
        [rewrite Etr; discriminate|].
      congruence.
Qed.

(** X7.  A stdout chunk holds the text "Auto-selected port: " followed
    by a run of decimal digits, with no complete announcement in front
    of it and no further digit behind the run: the listener sets
    [currentPort] to the number the digits denote (exactly, below
    [2^53]). *)
Theorem stdout_announcement (pre ds rest : jsstring) (st : state) :
  matchPort pre = None ->
  ds <> [] ->
  Forall (fun c => isDecimalDigit c = true) ds ->
  takeDigits rest = [] ->
  mathInt 10 (digitValues ds) < 2 ^ 53 ->
  currentPort (on_stdout (pre ++ lit "Auto-selected port: " ++ ds ++ rest) st)
  = Int (mathInt 10 (digitValues ds)).
Proof.
  intros Hp Hne Hd Hr Hlt. unfold on_stdout.
  rewrite (matchPort_after pre ds rest Hp Hne Hd Hr). simpl.
  rewrite (parseInt_decimal ds Hne Hd). unfold toNumber64.
  assert (H0 : 0 <= mathInt 10 (digitValues ds))
    by (apply mathInt_nonneg_from; [lia | now apply digitValues_nonneg]).
  rewrite Z.abs_eq by exact H0.
  apply Z.ltb_lt in Hlt. now rewrite Hlt.
Qed.

Lemma stdout_announcement_witness :
  currentPort (on_stdout (lit "INFO:     Auto-selected port: 8001 (8000 was busy)")
                         (init ∅)) = Int 8001.
Proof.
  apply (stdout_announcement (lit "INFO:     ") (lit "8001") (lit " (8000 was busy)") (init ∅));
    [reflexivity | discriminate | repeat constructor | reflexivity | reflexivity].
Defined.

End StdoutPort.

(** ** Saving settings, slow replies, reconnection *)

Section IpcMore.
Import JS Json Main MainMore Sample MoreSample IpcSample.

(** X8.  After [save-settings] with an object whose keys are plain
    names, every key of the object reads back from [get-settings] with
    its value and from the store with its value as the store's JSON file
    holds it (an infinity has become [null]); every other key reads as
    before. *)
Theorem save_settings_reads_back (w : world) (news : list (string * json)) (st : state) :
  NoDup news.*1 ->
  Forall (fun k => plainKey k = true) news.*1 ->
  let st' := ipc_save_settings w news st in
  (forall k v, (k, v) ∈ news ->
     store st' !! k = Some (viaJson v) /\ ipc_get_settings st' !! k = Some v) /\
  (forall k, k ∉ news.*1 ->
     store st' !! k = store st !! k /\
     ipc_get_settings st' !! k = ipc_get_settings st !! k).
Proof.
  intros Hnd Hp. cbv zeta. rewrite (store_after_save w news st Hp).
  unfold ipc_save_settings, ipc_get_settings. simpl. split.
  - intros k v Hin. split.
    + now apply (foldl_set_member viaJson).
    + now apply (foldl_set_member (fun v => v)).
  - intros k Hk. split.
    + now apply (foldl_set_other viaJson).
    + now apply (foldl_set_other (fun v => v)).
Qed.

Lemma save_settings_reads_back_witness :
  let st' := ipc_save_settings world_started
               [("jarvis-ai-model", JStr "mistral.gguf"); ("limit", JInf false)]
               connected in
  store st' !! "jarvis-ai-model" = Some (JStr "mistral.gguf") /\
  store st' !! "limit" = Some JNull /\
  ipc_get_settings st' !! "limit" = Some (JInf false).
Proof.
  cbv zeta.
  destruct (save_settings_reads_back world_started
              [("jarvis-ai-model", JStr "mistral.gguf"); ("limit", JInf false)] connected)
    as [H _].
  - apply NoDup_cons. split; [|apply NoDup_singleton].
    intros Hin. apply list_elem_of_singleton in Hin. discriminate Hin.
  - repeat constructor.
  - split; [|split].
    + apply (H "jarvis-ai-model" (JStr "mistral.gguf")). apply list_elem_of_here.
    + apply (H "limit" (JInf false)). apply list_elem_of_further, list_elem_of_here.
    + apply (H "limit" (JInf false)). apply list_elem_of_further, list_elem_of_here.
Defined.

(** X9.  A successful response that arrives 30 seconds or more, but
    less than 120 seconds, after the request: the handler returns its
    body when the URL contains "/model/download", and the abort failure
    for every other URL. *)
Theorem slow_reply_only_for_downloads (w : world) (request : ipc_request)
    (path : string) (r : response) (d : json) (st : state) :
  globalFetch w || requireNodeFetch w || importNodeFetch w = true ->
  url request = Some path ->
  30000 <= latency r < 120000 ->
  ok r = true ->
  body r = Some d ->
  (ipc_send_backend_request w (FetchResponds r) request st).1 =
    Normal (if includes "/model/download" path then d
            else failure (Error "This operation was aborted")).
Proof.
  intros Hf Hu [Hl1 Hl2] Ho Hb.
  unfold ipc_send_backend_request, backendRequestBody. rewrite Hf, Hu. simpl.
  destruct (includes "/model/download" path).
  - apply Z.leb_gt in Hl2. rewrite Hl2, Ho, Hb. reflexivity.
  - apply Z.leb_le in Hl1. rewrite Hl1. reflexivity.
Qed.

Lemma slow_reply_only_for_downloads_witness :
  (ipc_send_backend_request world_started slowReply downloadRequest connected).1 =
    Normal (JObj [("success", JBool true)]) /\
  (ipc_send_backend_request world_started slowReply checkRequest connected).1 =
    Normal (JObj [("success", JBool false); ("error", JStr "This operation was aborted")]).
Proof.
  split.
  - apply (slow_reply_only_for_downloads world_started downloadRequest "/model/download"
             {| latency := 45000; ok := true; status := 200; statusText := "OK";
                body := Some (JObj [("success", JBool true)]) |}
             (JObj [("success", JBool true)]) connected);
      try reflexivity; simpl; lia.
  - apply (slow_reply_only_for_downloads world_started checkRequest "/model/check"
             {| latency := 45000; ok := true; status := 200; statusText := "OK";
                body := Some (JObj [("success", JBool true)]) |}
             (JObj [("success", JBool true)]) connected);
      try reflexivity; simpl; lia.
Defined.





End IpcMore.

(** ** More of the model switch workflow *)

Section ModelSwitchMore.
Import JS Json Settings SettingsMore.

Variable backend : nat -> backend_call -> json.
Variable coerced_ge_100 : json -> completion bool.

Ltac page_ops :=
  unfold showSuccessMessage, showInfoMessage, showErrorMessage, setStatus,
    showLoadingOverlay, saveToStore, setItem, setTheme.

Lemma overlay_facts (b : bool) (q : page) :
  calls (showLoadingOverlay b q) = calls q /\
  polling (showLoadingOverlay b q) = polling q /\
  localStorage (showLoadingOverlay b q) = localStorage q /\
  saved (showLoadingOverlay b q) = saved q /\
  status (showLoadingOverlay b q) = status q /\
  elements (showLoadingOverlay b q) = elements q /\
  fields (showLoadingOverlay b q) = fields q.
Proof. unfold showLoadingOverlay. now destruct (settingsLoadingOverlay _). Qed.

(** The form values as [saveSettingsInternal] writes them. *)
Lemma handleModelChange_storage (m : string) (pg : page) :
  localStorage (handleModelChange backend m pg) = localStorage pg \/
  localStorage (handleModelChange backend m pg) = <["jarvis-ai-model" := m]> (localStorage pg).
Proof.
  unfold handleModelChange, downloadAndSwitchModel, sendBackendRequest, try_catch.
  page_ops. simpl. repeat case_match; simplify_eq/=; auto.
Qed.

Lemma handleModelChange_fields (m : string) (pg : page) :
  fields (handleModelChange backend m pg) = fields pg.
Proof.
  unfold handleModelChange, downloadAndSwitchModel, sendBackendRequest, try_catch.
  page_ops. simpl. repeat case_match; simplify_eq/=; reflexivity.
Qed.

(** The page on which [saveSettingsInternal] decides about the model:
    the form has been written to [localStorage]. *)
Lemma saveSettingsInternal_shape (pg : page) :
  let f := fields pg in
  let sel := str_or (modelSelect f) defaultModel in
  let changed :=
    modelChanged sel (str_or (localStorage pg !! "jarvis-ai-model") defaultModel)
      (backend (length (calls pg)) (getCall "/model/current")) in
  exists pg3,
    saveSettingsInternal backend pg =
      (true,
       showLoadingOverlay false
         (if changed then handleModelChange backend sel pg3
          else showSuccessMessage [Lit "Settings applied successfully!"] pg3)) /\
    localStorage pg3 =
      (let written :=
         <["jarvis-ai-model" := sel]>
         (<["jarvis-backend-port" := str_or (pythonPortInput f) "8000"]>
         (<["jarvis-auto-start" := string_of_bool (bool_decide (autoStartCheck f = Some true))]>
         (<["jarvis-voice-enabled" :=
              string_of_bool (bool_decide (voiceEnabledCheck f <> Some false))]>
         (<["jarvis-theme" := str_or (themeSelect f) "light"]> (localStorage pg))))) in
       match themeSelect f with
       | Some theme => <["jarvis-theme" := theme]> written
       | None => written
       end) /\
    fields pg3 = f /\
    calls pg3 = calls pg ++ [getCall "/model/current"] /\
    elements pg3 = elements pg /\
    saved pg3 = saved pg /\
    polling pg3 = polling pg /\
    status pg3 = status pg.
Proof.
  cbv zeta. unfold saveSettingsInternal, sendBackendRequest. simpl.
  destruct (overlay_facts true pg) as (Oc & Op & Ol & Os & Ot & Oe & Of).
  rewrite Of, Ol, Oc.
  eexists. split; [reflexivity|].
  clear. unfold showLoadingOverlay.
  destruct (settingsLoadingOverlay (elements pg));
    destruct (themeSelect (fields pg)); simpl; repeat split; reflexivity.
Qed.

(** What [saveSettingsInternal] leaves in [localStorage]. *)
Lemma saveSettingsInternal_storage (pg : page) :
  let f := fields pg in
  let r := saveSettingsInternal backend pg in
  r.1 = true /\
  localStorage r.2 !! "jarvis-ai-model" = Some (str_or (modelSelect f) defaultModel) /\
  localStorage r.2 !! "jarvis-backend-port" = Some (str_or (pythonPortInput f) "8000") /\
  localStorage r.2 !! "jarvis-auto-start"
    = Some (string_of_bool (bool_decide (autoStartCheck f = Some true))) /\
  localStorage r.2 !! "jarvis-voice-enabled"
    = Some (string_of_bool (bool_decide (voiceEnabledCheck f <> Some false))) /\
  localStorage r.2 !! "jarvis-theme" = Some (default "light" (themeSelect f)) /\
  fields r.2 = f.
Proof.
  cbv zeta. destruct (saveSettingsInternal_shape pg) as (pg3 & -> & L3 & F3 & _).
  simpl fst. simpl snd.
  set (sel := str_or (modelSelect (fields pg)) defaultModel) in *.
  split; [reflexivity|].
  match goal with |- context [showLoadingOverlay false ?q] =>
    destruct (overlay_facts false q) as (_ & _ & -> & _ & _ & _ & ->); set (pg4 := q) end.
  assert (L4 : localStorage pg4 = localStorage pg3 \/
               localStorage pg4 = <["jarvis-ai-model" := sel]> (localStorage pg3)).
  { unfold pg4. match goal with |- context [if ?c then _ else _] => destruct c end.
    - apply handleModelChange_storage.
    - left. page_ops. now destruct (modelStatus _ && modelStatusText _). }
  assert (F4 : fields pg4 = fields pg).
  { unfold pg4. match goal with |- context [if ?c then _ else _] => destruct c end.
    - now rewrite handleModelChange_fields.
    - page_ops. now destruct (modelStatus _ && modelStatusText _). }
  rewrite F4.
  destruct L4 as [-> | ->]; rewrite L3; cbv zeta;
    destruct (themeSelect (fields pg)) as [t|]; simpl;
    repeat split; now simplify_map_eq.
Qed.

(** X11.  [saveSettingsInternal] returns [true] and leaves the five
    settings of the form in [localStorage], whatever the backend
    replies: a model change that fails does not undo them. *)
Theorem settings_are_stored (pg : page) :
  let f := fields pg in
  let r := saveSettingsInternal backend pg in
  r.1 = true /\
  localStorage r.2 !! "jarvis-ai-model" = Some (str_or (modelSelect f) defaultModel) /\
  localStorage r.2 !! "jarvis-backend-port" = Some (str_or (pythonPortInput f) "8000") /\
  localStorage r.2 !! "jarvis-auto-start"
    = Some (string_of_bool (bool_decide (autoStartCheck f = Some true))) /\
  localStorage r.2 !! "jarvis-voice-enabled"
    = Some (string_of_bool (bool_decide (voiceEnabledCheck f <> Some false))) /\
  localStorage r.2 !! "jarvis-theme" = Some (default "light" (themeSelect f)) /\
  fields r.2 = f.
Proof.
  cbv zeta.
  destruct (saveSettingsInternal_storage pg) as (Hr & Hm & Hp & Ha & Hv & Ht & Hf).
  split; [exact Hr|]. split; [exact Hm|]. split; [exact Hp|].
  split; [exact Ha|]. split; [exact Hv|]. split; [exact Ht | exact Hf].
Qed.

Section RoundTrip.

Variable sanitizeNumber : string -> string.

Lemma filled (v dflt : string) :
  v <> "" -> (if String.eqb v "" then dflt else v) = v.
Proof. intros Hv. destruct (String.eqb_spec v ""); [contradiction | reflexivity]. Qed.

(** An option of a [select] element of [settings.html] is not the empty
    string. *)
Lemma option_filled (options : list string) (v : string) :
  v ∈ options -> "" ∉ options -> v <> "".
Proof. intros Hv Hn ->. contradiction. Qed.

Lemma options_filled : ("" ∉ themeOptions) /\ ("" ∉ modelOptions).
Proof.
  unfold themeOptions, modelOptions.
  split; intros H;
    repeat (apply elem_of_cons in H as [H|H]; [discriminate|]);
    inversion H.
Qed.

Lemma checkModelAvailability_fields (m : string) (q : page) :
  fields (checkModelAvailability backend m q) = fields q.
Proof.
  unfold checkModelAvailability, sendBackendRequest. simpl.
  repeat case_match; reflexivity.
Qed.

(** The form as [loadSettings] fills it. *)
Lemma loadSettings_fields (q : page) :
  let f := fields q in
  let ls := localStorage q in
  fields (loadSettings backend sanitizeNumber q) =
    {| themeSelect :=
         (fun _ => assignSelect themeOptions (str_or (ls !! "jarvis-theme") "light"))
           <$> themeSelect f;
       voiceEnabledCheck :=
         (fun _ => bool_decide (ls !! "jarvis-voice-enabled" <> Some "false"))
           <$> voiceEnabledCheck f;
       autoStartCheck :=
         (fun _ => bool_decide (ls !! "jarvis-auto-start" = Some "true"))
           <$> autoStartCheck f;
       pythonPortInput :=
         (fun _ => sanitizeNumber (str_or (ls !! "jarvis-backend-port") "8000"))
           <$> pythonPortInput f;
       modelSelect :=
         (fun _ => assignSelect modelOptions (str_or (ls !! "jarvis-ai-model") defaultModel))
           <$> modelSelect f |}.
Proof.
  cbv zeta. unfold loadSettings.
  destruct (modelSelect (fields q)), (themeSelect (fields q));
    rewrite ?checkModelAvailability_fields; reflexivity.
Qed.

(** X19.  Cancel after apply: [cancelSettings] reloads from
    [localStorage] the form that [saveSettingsInternal] stored, so the
    controls keep their values, provided the two selections are options
    of their [select] elements and the port field is filled with text
    that the number input keeps. *)
Theorem apply_then_cancel_keeps_form (pg : page) :
  let f := fields pg in
  (forall t, themeSelect f = Some t -> t ∈ themeOptions) ->
  (forall m, modelSelect f = Some m -> m ∈ modelOptions) ->
  (forall p, pythonPortInput f = Some p -> p <> "" /\ sanitizeNumber p = p) ->
  fields (cancelSettings backend sanitizeNumber (saveSettingsInternal backend pg).2) = f.
Proof.
  intros f Ht Hm Hp. unfold cancelSettings. rewrite loadSettings_fields. cbv zeta.
  destruct (saveSettingsInternal_storage pg) as (_ & -> & -> & -> & -> & -> & ->).
  fold f. destruct f as [t v a p m]. simpl in *. f_equal.
  - destruct t as [t|]; [|reflexivity]. simpl.
    specialize (Ht t eq_refl).
    rewrite !(filled t "light" (option_filled _ _ Ht (proj1 options_filled))).
    unfold assignSelect. now rewrite bool_decide_eq_true_2.
  - now destruct v as [[|]|].
  - now destruct a as [[|]|].
  - destruct p as [p|]; [|reflexivity]. simpl.
    destruct (Hp p eq_refl) as [Hne Hsan].
    rewrite !(filled p "8000" Hne). now rewrite Hsan.
  - destruct m as [m|]; [|reflexivity]. simpl.
    specialize (Hm m eq_refl).
    rewrite !(filled m defaultModel (option_filled _ _ Hm (proj2 options_filled))).
    unfold assignSelect. now rewrite bool_decide_eq_true_2.
Qed.

End RoundTrip.

End ModelSwitchMore.

Section RoundTripWitness.
Import JS Json Settings SettingsMore SettingsSample2.

Lemma apply_then_cancel_keeps_form_witness :
  fields (cancelSettings backendDown keepsText (saveSettingsInternal backendDown page1).2)
  = fields page1.
Proof.
  apply (apply_then_cancel_keeps_form backendDown keepsText page1).
  - intros t Ht. injection Ht as <-.
    apply list_elem_of_further, list_elem_of_further, list_elem_of_here.
  - intros m Hm. injection Hm as <-.
    do 3 apply list_elem_of_further. apply list_elem_of_here.
  - intros p Hp. injection Hp as <-. split; [discriminate | reflexivity].
Defined.

End RoundTripWitness.

(** ** What the settings window shows and stores *)

Section SettingsOutcomes.
Import JS Json Settings SettingsMore.

Variable backend : nat -> backend_call -> json.
Variable coerced_ge_100 : json -> completion bool.

Ltac page_ops :=
  unfold showSuccessMessage, showInfoMessage, showErrorMessage, setStatus,
    showLoadingOverlay, saveToStore, setItem, setTheme.

(** The page on which [saveSettingsInternal] decides about the model:
    only the storage and the list of requests have changed. *)
Lemma saveSettingsInternal_page (pg : page) :
  let sel := str_or (modelSelect (fields pg)) defaultModel in
  let changed :=
    modelChanged sel (str_or (localStorage pg !! "jarvis-ai-model") defaultModel)
      (backend (length (calls pg)) (getCall "/model/current")) in
  exists pg3,
    saveSettingsInternal backend pg =
      (true,
       showLoadingOverlay false
         (if changed then handleModelChange backend sel pg3
          else showSuccessMessage [Lit "Settings applied successfully!"] pg3)) /\
    fields pg3 = fields pg /\
    calls pg3 = calls pg ++ [getCall "/model/current"] /\
    elements pg3 = elements pg /\
    saved pg3 = saved pg /\
    polling pg3 = polling pg /\
    status pg3 = status pg /\
    unhandled pg3 = unhandled pg.
Proof.
  cbv zeta. unfold saveSettingsInternal, sendBackendRequest. simpl.
  assert (Of : fields (showLoadingOverlay true pg) = fields pg)
    by (unfold showLoadingOverlay; now destruct (settingsLoadingOverlay _)).
  assert (Ol : localStorage (showLoadingOverlay true pg) = localStorage pg)
    by (unfold showLoadingOverlay; now destruct (settingsLoadingOverlay _)).
  assert (Oc : calls (showLoadingOverlay true pg) = calls pg)
    by (unfold showLoadingOverlay; now destruct (settingsLoadingOverlay _)).
  rewrite Of, Ol, Oc.
  eexists. split; [reflexivity|].
  clear. unfold showLoadingOverlay.
  destruct (settingsLoadingOverlay (elements pg));
    destruct (themeSelect (fields pg)); simpl; repeat split; reflexivity.
Qed.

Lemma overlay_keeps (b : bool) (q : page) :
  calls (showLoadingOverlay b q) = calls q /\
  polling (showLoadingOverlay b q) = polling q /\
  saved (showLoadingOverlay b q) = saved q /\
  status (showLoadingOverlay b q) = status q /\
  unhandled (showLoadingOverlay b q) = unhandled q.
Proof. unfold showLoadingOverlay. now destruct (settingsLoadingOverlay _). Qed.

(** X12.  The model selected is the stored one and the backend names no
    other as current: [saveSettingsInternal] makes the one request for
    the current model and nothing else, and reports the settings
    applied. *)
Theorem unchanged_model_one_request (pg : page) :
  let sel := str_or (modelSelect (fields pg)) defaultModel in
  modelChanged sel (str_or (localStorage pg !! "jarvis-ai-model") defaultModel)
    (backend (length (calls pg)) (getCall "/model/current")) = false ->
  let pg' := (saveSettingsInternal backend pg).2 in
  calls pg' = calls pg ++ [getCall "/model/current"] /\
  saved pg' = saved pg /\
  polling pg' = polling pg /\
  (modelStatus (elements pg) && modelStatusText (elements pg) = true ->
   status pg' = Some ([Lit "Settings applied successfully!"], "status-text success")).
Proof.
  intros sel Hc pg'. subst pg'.
  destruct (saveSettingsInternal_page pg) as (pg3 & -> & _ & C3 & E3 & S3 & P3 & _).
  fold sel. rewrite Hc. simpl snd.
  destruct (overlay_keeps false (showSuccessMessage [Lit "Settings applied successfully!"] pg3))
    as (-> & -> & -> & -> & _).
  page_ops. rewrite E3.
  destruct (modelStatus (elements pg) && modelStatusText (elements pg)); simpl;
    repeat split; auto; discriminate.
Qed.

(** The model change when the check request fails. *)
Lemma handleModelChange_unchecked (m : string) (pg : page) :
  succeeded (backend (length (calls pg)) (modelCall "/model/check" m)) = false ->
  let pg' := handleModelChange backend m pg in
  calls pg' = calls pg ++ [modelCall "/model/check" m] /\
  saved pg' = saved pg /\
  polling pg' = polling pg /\
  unhandled pg' = unhandled pg /\
  (modelStatus (elements pg) && modelStatusText (elements pg) = true ->
   status pg' = Some ([Lit "Model switching failed: ";
                       Lit "Unable to check model availability";
                       Lit ". Other settings have been applied."], "status-text error")).
Proof.
  intros Hs pg'. subst pg'.
  unfold handleModelChange, sendBackendRequest, try_catch. simpl. rewrite Hs.
  page_ops. simpl.
  destruct (modelStatus (elements pg) && modelStatusText (elements pg)); simpl;
    repeat split; auto; discriminate.
Qed.

(** X13.  The model has changed and the check request fails (the backend
    is down, or answers without [success]): no switch and no download is
    requested, and the window shows that the model switch failed while
    the other settings were applied. *)
Theorem check_failure_reported (pg : page) :
  let sel := str_or (modelSelect (fields pg)) defaultModel in
  let n := length (calls pg) in
  modelChanged sel (str_or (localStorage pg !! "jarvis-ai-model") defaultModel)
    (backend n (getCall "/model/current")) = true ->
  succeeded (backend (S n) (modelCall "/model/check" sel)) = false ->
  let pg' := (saveSettingsInternal backend pg).2 in
  calls pg' = calls pg ++ [getCall "/model/current"; modelCall "/model/check" sel] /\
  saved pg' = saved pg /\
  polling pg' = polling pg /\
  (modelStatus (elements pg) && modelStatusText (elements pg) = true ->
   status pg' = Some ([Lit "Model switching failed: ";
                       Lit "Unable to check model availability";
                       Lit ". Other settings have been applied."], "status-text error")).
Proof.
  intros sel n Hc Hs pg'. subst pg'.
  destruct (saveSettingsInternal_page pg) as (pg3 & -> & _ & C3 & E3 & S3 & P3 & _).
  fold sel n. rewrite Hc. simpl snd.
  destruct (overlay_keeps false (handleModelChange backend sel pg3))
    as (-> & -> & -> & -> & _).
  assert (Hn : length (calls pg3) = S n) by (rewrite C3, length_app; simpl; lia).
  rewrite <- Hn in Hs.
  destruct (handleModelChange_unchecked sel pg3 Hs) as (Hcalls & Hsaved & Hpoll & _ & Hst).
  rewrite Hcalls, Hsaved, Hpoll, C3, S3, P3, <- app_assoc.
  repeat split; auto. rewrite <- E3. exact Hst.
Qed.

(** The model change when the model has to be downloaded. *)
Lemma handleModelChange_download (m : string) (pg : page) :
  let n := length (calls pg) in
  elements pg = settings_html ->
  succeeded (backend n (modelCall "/model/check" m)) = true ->
  truthy_opt (prop "available" (backend n (modelCall "/model/check" m))) = false ->
  let dl := backend (S n) (modelCall "/model/download" m) in
  let pg' := handleModelChange backend m pg in
  calls pg' = calls pg ++ [modelCall "/model/check" m; modelCall "/model/download" m] /\
  saved pg' = saved pg /\
  polling pg' = (if succeeded dl then true else polling pg) /\
  status pg' =
    (if succeeded dl
     then Some ([Lit "Successfully downloaded and switched to "; Lit m; Lit "!"],
                "status-text success")
     else Some ([Lit "Error downloading model: "; error_or dl "Failed to start download"],
                "status-text error")).
Proof.
  intros n He Hs Ha dl pg'. subst pg' dl n.
  unfold handleModelChange, sendBackendRequest. simpl.
  rewrite Hs, Ha. unfold downloadAndSwitchModel, sendBackendRequest. page_ops. simpl.
  rewrite He. simpl. rewrite length_app. simpl. rewrite Nat.add_1_r.
  destruct (succeeded (backend (S (length (calls pg))) (modelCall "/model/download" m)));
    simpl; repeat (rewrite He; simpl); rewrite <- ?app_assoc; repeat split; reflexivity.
Qed.

(** X14.  The model is not available and the backend accepts the
    download: when [saveSettingsInternal] returns, the window reads
    "Successfully downloaded and switched to ...", although the poll has
    only been started: no progress and no switch request has been made,
    and nothing has been saved to the store. *)
Theorem download_announced_at_start (pg : page) :
  let sel := str_or (modelSelect (fields pg)) defaultModel in
  let n := length (calls pg) in
  let check := backend (S n) (modelCall "/model/check" sel) in
  elements pg = settings_html ->
  modelChanged sel (str_or (localStorage pg !! "jarvis-ai-model") defaultModel)
    (backend n (getCall "/model/current")) = true ->
  succeeded check = true ->
  truthy_opt (prop "available" check) = false ->
  succeeded (backend (2 + n) (modelCall "/model/download" sel)) = true ->
  let pg' := (saveSettingsInternal backend pg).2 in
  status pg' = Some ([Lit "Successfully downloaded and switched to "; Lit sel; Lit "!"],
                     "status-text success") /\
  polling pg' = true /\
  calls pg' = calls pg ++ [getCall "/model/current"; modelCall "/model/check" sel;
                           modelCall "/model/download" sel] /\
  saved pg' = saved pg.
Proof.
  intros sel n check He Hc Hs Ha Hd pg'. subst pg' check.
  destruct (saveSettingsInternal_page pg) as (pg3 & -> & _ & C3 & E3 & S3 & P3 & _).
  fold sel n. rewrite Hc. simpl snd.
  destruct (overlay_keeps false (handleModelChange backend sel pg3))
    as (-> & -> & -> & -> & _).
  assert (Hn : length (calls pg3) = S n) by (rewrite C3, length_app; simpl; lia).
  rewrite <- Hn in Hs, Ha. change (2 + n)%nat with (S (S n)) in Hd. rewrite <- Hn in Hd.
  rewrite He in E3.
  destruct (handleModelChange_download sel pg3 E3 Hs Ha) as (Hcalls & Hsaved & Hpoll & Hst).
  rewrite Hd in Hpoll, Hst.
  rewrite Hst, Hpoll, Hcalls, Hsaved, C3, S3, <- app_assoc. repeat split.
Qed.

(** X15.  The model is not available and the backend refuses the
    download: the window shows the error of the reply after "Error
    downloading model: ", and no poll is started. *)
Theorem download_refused (pg : page) :
  let sel := str_or (modelSelect (fields pg)) defaultModel in
  let n := length (calls pg) in
  let check := backend (S n) (modelCall "/model/check" sel) in
  let dl := backend (2 + n) (modelCall "/model/download" sel) in
  elements pg = settings_html ->
  modelChanged sel (str_or (localStorage pg !! "jarvis-ai-model") defaultModel)
    (backend n (getCall "/model/current")) = true ->
  succeeded check = true ->
  truthy_opt (prop "available" check) = false ->
  succeeded dl = false ->
  let pg' := (saveSettingsInternal backend pg).2 in
  status pg' = Some ([Lit "Error downloading model: "; error_or dl "Failed to start download"],
                     "status-text error") /\
  polling pg' = polling pg /\
  saved pg' = saved pg.
Proof.
  intros sel n check dl He Hc Hs Ha Hd pg'. subst pg' check dl.
  destruct (saveSettingsInternal_page pg) as (pg3 & E & _ & C3 & E3 & S3 & P3 & _).
  fold sel n in E. rewrite Hc in E.
  assert (Hn : length (calls pg3) = S n) by (rewrite C3, length_app; simpl; lia).
  rewrite <- Hn in Hs, Ha. change (2 + n)%nat with (S (S n)) in *. rewrite <- Hn in Hd.
  rewrite He in E3.
  destruct (handleModelChange_download sel pg3 E3 Hs Ha) as (Hcalls & Hsaved & Hpoll & Hst).
  rewrite Hd in Hpoll, Hst.
  destruct (overlay_keeps false (handleModelChange backend sel pg3))
    as (Oc & Op & Os & Ot & _).
  rewrite E. simpl snd. rewrite Ot, Op, Os, Hst, Hpoll, Hsaved, P3, S3, Hn.
  repeat split.
Qed.

(** X16.  A run of the poll callback never displays a failure: it
    leaves the status as it was, or writes "Loading new model..." with
    the class unchanged, or "Model loaded successfully!".  Whatever it
    throws stops the poll and is left unhandled. *)
Theorem poll_never_shows_failure (m : string) (pg : page) :
  let pg' := pollTick backend coerced_ge_100 m pg in
  (status pg' = status pg \/
   status pg' = Some ([Lit "Loading new model..."], default "" (snd <$> status pg)) \/
   status pg' = Some ([Lit "Model loaded successfully!"], "status-text success")) /\
  (unhandled pg' = unhandled pg \/
   exists e, unhandled pg' = unhandled pg ++ [e] /\ polling pg' = false).
Proof.
  cbv zeta. unfold pollTick, pollBody, sendBackendRequest, try_catch. page_ops.
  repeat case_match; simplify_eq/=; split; eauto.
Qed.

(** X17.  The download is complete and the switch request fails: the
    poll stops, the failure is thrown out of the callback, and the
    window keeps reading "Loading new model...".  The model stays in
    [localStorage] as [saveSettingsInternal] wrote it, and nothing is
    saved to the store. *)
Theorem switch_failure_after_download (m : string) (pg : page) :
  let n := length (calls pg) in
  let r := backend n (getCall "/model/progress") in
  let sw := backend (S n) (modelCall "/model/switch" m) in
  elements pg = settings_html ->
  succeeded r = true ->
  reportsComplete r ->
  succeeded sw = false ->
  let pg' := pollTick backend coerced_ge_100 m pg in
  polling pg' = false /\
  status pg' = Some ([Lit "Loading new model..."], default "" (snd <$> status pg)) /\
  unhandled pg' = unhandled pg ++ [[Lit "Failed to switch model: "; error_or sw "Unknown error"]] /\
  localStorage pg' = localStorage pg /\
  saved pg' = saved pg /\
  forall k, poll backend coerced_ge_100 k m pg' = pg'.
Proof.
  intros n r sw He Hs Hr Hsw pg'.
  assert (Hc : downloadComplete coerced_ge_100 r = Normal true)
    by now apply reportsComplete_downloadComplete.
  assert (Hp : polling pg' = false).
  { subst pg' r sw n. unfold pollTick, pollBody, sendBackendRequest. simpl.
    rewrite Hs, He, Hc. simpl. rewrite length_app. simpl. rewrite Nat.add_1_r.
    now rewrite Hsw. }
  split; [exact Hp|].
  split; [|split; [|split; [|split]]]; try (intros [|k]; simpl; now rewrite ?Hp);
    subst pg' r sw n; unfold pollTick, pollBody, sendBackendRequest; simpl;
    rewrite Hs, He, Hc; simpl; rewrite length_app; simpl; rewrite Nat.add_1_r;
    now rewrite Hsw.
Qed.

(** X18.  The poll has no bound of its own: through [N] replies that
    are neither complete nor failed (or not successful at all) it makes
    [N] progress requests and is still running. *)
Theorem poll_keeps_waiting (m : string) (N : nat) : forall pg : page,
  let n := length (calls pg) in
  elements pg = settings_html ->
  polling pg = true ->
  (forall i, (i < N)%nat ->
     waiting coerced_ge_100 (backend (n + i) (getCall "/model/progress")) = true) ->
  let pg' := poll backend coerced_ge_100 N m pg in
  polling pg' = true /\
  calls pg' = calls pg ++ replicate N (getCall "/model/progress") /\
  saved pg' = saved pg /\
  unhandled pg' = unhandled pg.
Proof.
  induction N as [|N IH]; intros pg n He Hp Hw pg'; subst pg' n.
  - simpl. now rewrite app_nil_r.
  - simpl. rewrite Hp.
    assert (Hw0 : waiting coerced_ge_100 (backend (length (calls pg)) (getCall "/model/progress"))
                  = true) by (rewrite <- (Nat.add_0_r (length _)); apply Hw; lia).
    destruct (pollTick_waiting backend coerced_ge_100 m pg He Hw0)
      as (Tc & Te & Tp & Tl & Ts & Tu).
    destruct (IH (pollTick backend coerced_ge_100 m pg)) as (Rp & Rc & Rs & Ru).
    + now rewrite Te.
    + now rewrite Tp.
    + intros i Hi. rewrite Tc, length_app. simpl.
      replace (length (calls pg) + 1 + i)%nat with (length (calls pg) + S i)%nat by lia.
      apply Hw. lia.
    + rewrite Rc, Tc, Rs, Ts, Ru, Tu, <- app_assoc. repeat split. exact Rp.
Qed.

End SettingsOutcomes.

Section SettingsOutcomesWitness.
Import JS Json Settings SettingsSample SettingsSample2.

Lemma unchanged_model_one_request_witness :
  let pg' := (saveSettingsInternal backendDown page1).2 in
  calls pg' = [getCall "/model/current"] /\
  status pg' = Some ([Lit "Settings applied successfully!"], "status-text success").
Proof.
  destruct (unchanged_model_one_request backendDown page1 eq_refl) as (Hc & _ & _ & Hs).
  split; [exact Hc | exact (Hs eq_refl)].
Defined.

Lemma check_failure_reported_witness :
  let pg' := (saveSettingsInternal backendDown page0).2 in
  calls pg' = [getCall "/model/current"; modelCall "/model/check" "mistral.gguf"] /\
  saved pg' = [].
Proof.
  destruct (check_failure_reported backendDown page0 eq_refl eq_refl) as (Hc & Hs & _).
  split; [exact Hc | exact Hs].
Defined.

Lemma download_announced_at_start_witness :
  let pg' := (saveSettingsInternal backendMissing page0).2 in
  status pg' = Some ([Lit "Successfully downloaded and switched to "; Lit "mistral.gguf";
                      Lit "!"], "status-text success") /\
  polling pg' = true /\ saved pg' = [].
Proof.
  destruct (download_announced_at_start backendMissing page0
              eq_refl eq_refl eq_refl eq_refl eq_refl) as (Hs & Hp & _ & Hv).
  split; [exact Hs | split; [exact Hp | exact Hv]].
Defined.

Lemma download_refused_witness :
  let pg' := (saveSettingsInternal backendRefuses page0).2 in
  status pg' = Some ([Lit "Error downloading model: "; Val (JStr "No space left")],
                     "status-text error") /\
  polling pg' = false.
Proof.
  destruct (download_refused backendRefuses page0
              eq_refl eq_refl eq_refl eq_refl eq_refl) as (Hs & Hp & _).
  split; [exact Hs | exact Hp].
Defined.

Lemma switch_failure_after_download_witness :
  let pg := (saveSettingsInternal backendSwitchFails page0).2 in
  let pg' := pollTick backendSwitchFails neverReached "mistral.gguf" pg in
  elements pg = settings_html /\
  polling pg' = false /\
  status pg' = Some ([Lit "Loading new model..."], "status-text success") /\
  unhandled pg' = [[Lit "Failed to switch model: "; Val (JStr "Model file corrupt")]].
Proof.
  cbv zeta. split; [reflexivity|].
  destruct (switch_failure_after_download backendSwitchFails neverReached "mistral.gguf"
              (saveSettingsInternal backendSwitchFails page0).2 eq_refl eq_refl)
    as (Hp & Hs & Hu & _).
  - right. split; reflexivity.
  - reflexivity.
  - split; [exact Hp | split; [exact Hs | exact Hu]].
Defined.

Lemma poll_keeps_waiting_witness :
  let pg := (saveSettingsInternal backendStuck page0).2 in
  let pg' := poll backendStuck neverReached 5 "mistral.gguf" pg in
  polling pg = true /\
  polling pg' = true /\
  calls pg' = calls pg ++ replicate 5 (getCall "/model/progress").
Proof.
  cbv zeta. split; [reflexivity|].
  destruct (poll_keeps_waiting backendStuck neverReached "mistral.gguf" 5
              (saveSettingsInternal backendStuck page0).2 eq_refl eq_refl)
    as (Hp & Hc & _).
  - intros i Hi. do 5 (destruct i as [|i]; [reflexivity|]). lia.
  - split; [exact Hp | exact Hc].
Defined.

End SettingsOutcomesWitness.

(** ** The chat window *)

Section ChatWindow.
Import JS Json Renderer RendererMore.

Variable actionFormats : json -> bool.

Lemma addMessage_keeps (t : text) (sender type : string) (now : Z) (vw : view) :
  let vw' := addMessage t sender type now vw in
  chatMessages vw' = chatMessages vw /\
  typingIndicator vw' = typingIndicator vw /\
  isProcessing vw' = isProcessing vw /\
  backendConnected vw' = backendConnected vw /\
  typing vw' = typing vw /\
  chatHistory vw' = chatHistory vw /\
  invoked vw' = invoked vw.
Proof.
  cbv zeta. unfold addMessage.
  destruct (chatMessages vw) eqn:E; simpl; rewrite ?E; repeat split; reflexivity.
Qed.

Lemma addMessage_bound (t : text) (sender type : string) (now : Z) (vw : view) :
  (length (messageHistory vw) <= 100)%nat ->
  (length (messageHistory (addMessage t sender type now vw)) <= 100)%nat.
Proof.
  intros H. unfold addMessage. destruct (chatMessages vw); simpl; [|exact H].
  destruct (Nat.ltb_spec 100 (length (messageHistory vw ++
    [{| e_text := t; e_sender := sender; e_type := type; e_timestamp := now |}])));
    [rewrite length_drop|]; lia.
Qed.

Lemma finish_keeps (vw : view) :
  messageHistory (finish vw) = messageHistory vw /\
  bubbles (finish vw) = bubbles vw /\
  chatHistory (finish vw) = chatHistory vw /\
  invoked (finish vw) = invoked vw /\
  chatMessages (finish vw) = chatMessages vw /\
  isProcessing (finish vw) = false /\
  (typingIndicator vw = true -> typing (finish vw) = false).
Proof.
  unfold finish, showTypingIndicator. simpl.
  destruct (typingIndicator vw); simpl; repeat split; auto; discriminate.
Qed.

Lemma saveToHistory_keeps (c : conversation) (vw : view) :
  messageHistory (saveToHistory c vw) = messageHistory vw /\
  bubbles (saveToHistory c vw) = bubbles vw /\
  invoked (saveToHistory c vw) = invoked vw /\
  chatMessages (saveToHistory c vw) = chatMessages vw.
Proof. unfold saveToHistory. now destruct (chatHistory vw). Qed.

Lemma handleChatResponse_bound (response : json) (now : Z) (vw : view) :
  (length (messageHistory vw) <= 100)%nat ->
  (length (messageHistory (handleChatResponse actionFormats response now vw).2) <= 100)%nat.
Proof.
  intros H. unfold handleChatResponse, handleActionResult.
  repeat case_match; simplify_eq/=;
    rewrite ?(proj1 (saveToHistory_keeps _ _));
    repeat apply addMessage_bound; exact H.
Qed.

(** X20.  [messageHistory] never holds more than 100 entries: neither
    sending a message nor handling the reply takes it beyond. *)
Theorem message_history_bounded (vw : view) :
  (length (messageHistory vw) <= 100)%nat ->
  (forall quick now,
     (length (messageHistory (sendMessage_begin quick now vw).2) <= 100)%nat) /\
  (forall reply now,
     (length (messageHistory (sendMessage_resume actionFormats reply now vw)) <= 100)%nat).
Proof.
  intros H. split.
  - intros quick now. unfold sendMessage_begin.
    repeat case_match; simplify_eq/=; try exact H;
      rewrite ?(proj1 (finish_keeps _)); repeat apply addMessage_bound;
      unfold showTypingIndicator; repeat case_match; exact H.
  - intros reply now. unfold sendMessage_resume.
    repeat case_match; simplify_eq/=;
      rewrite ?(proj1 (finish_keeps _)); repeat apply addMessage_bound;
      try exact H;
      match goal with
      | E : handleChatResponse _ ?r ?n ?v = (_, ?v') |- _ =>
          replace v' with (handleChatResponse actionFormats r n v).2 by now rewrite E
      end; now apply handleChatResponse_bound.
Qed.

Lemma begin_awaiting (quick : option string) (now : Z) (vw vw' : view) :
  sendMessage_begin quick now vw = (Awaiting, vw') ->
  isProcessing vw' = true.
Proof.
  unfold sendMessage_begin. intros H.
  repeat case_match; simplify_eq/=;
    rewrite (proj1 (proj2 (proj2 (addMessage_keeps _ _ _ _ _))));
    unfold showTypingIndicator; repeat case_match; reflexivity.
Qed.

Lemma resume_idle (reply : completion json) (now : Z) (vw : view) :
  isProcessing (sendMessage_resume actionFormats reply now vw) = false.
Proof.
  unfold sendMessage_resume. repeat case_match; apply finish_keeps.
Qed.

(** X21.  One request at a time: while [sendMessage] waits for a reply,
    another call returns at once and changes nothing, so the message is
    dropped; the reply, whatever it is, ends the wait. *)
Theorem one_request_at_a_time (quick : option string) (now : Z) (vw vw' : view) :
  sendMessage_begin quick now vw = (Awaiting, vw') ->
  (forall quick' now', sendMessage_begin quick' now' vw' = (Finished, vw')) /\
  (forall reply now',
     isProcessing (sendMessage_resume actionFormats reply now' vw') = false).
Proof.
  intros H. apply begin_awaiting in H. split.
  - intros quick' now'. unfold sendMessage_begin. now rewrite H.
  - intros reply now'. apply resume_idle.
Qed.

(** X22.  A request that the main process reports as failed (no
    session, a timeout, a frame that does not parse) shows nothing: the
    [send-message] handler turns the rejection into an object, in which
    the window finds neither a response nor an action result.  The
    apology is not displayed. *)
Theorem failed_request_shows_nothing (e : Main.error) (now : Z) (vw : view) :
  let reply := Wiring.invoke (Main.ipc_send_message (Main.Rejected e)) in
  let vw' := sendMessage_resume actionFormats reply now vw in
  bubbles vw' = bubbles vw /\
  messageHistory vw' = messageHistory vw /\
  isProcessing vw' = false.
Proof.
  cbv zeta. unfold sendMessage_resume, handleChatResponse. simpl.
  destruct (finish_keeps (saveToHistory
    {| c_timestamp := now; c_userMessage := previousText vw; c_aiResponse := None;
       c_action := None; c_actionResult := None |} vw)) as (-> & -> & _ & _ & _ & -> & _).
  destruct (saveToHistory_keeps
    {| c_timestamp := now; c_userMessage := previousText vw; c_aiResponse := None;
       c_action := None; c_actionResult := None |} vw) as (-> & -> & _).
  repeat split.
Qed.

(** The entry before the last of a history that has just grown. *)
Lemma previous_of_capped (h : list entry) (u e : entry) :
  let full := (h ++ [u]) ++ [e] in
  let kept := if (100 <? length full)%nat then drop (length full - 100) full else full in
  kept !! (length kept - 2)%nat = Some u /\ (2 <=? length kept)%nat = true.
Proof.
  cbv zeta.
  assert (L : length ((h ++ [u]) ++ [e]) = S (S (length h)))
    by (rewrite !length_app; simpl; lia).
  assert (U : ((h ++ [u]) ++ [e]) !! length h = Some u).
  { rewrite <- app_assoc. rewrite lookup_app_r by lia.
    now replace (length h - length h)%nat with 0%nat by lia. }
  destruct (Nat.ltb_spec 100 (length ((h ++ [u]) ++ [e]))) as [Hlt|Hle].
  - rewrite length_drop, lookup_drop. rewrite L in *.
    replace (S (S (length h)) - 100 + (S (S (length h)) - (S (S (length h)) - 100) - 2))%nat
      with (length h) by lia.
    split; [exact U|]. apply Nat.leb_le. lia.
  - rewrite L. replace (S (S (length h)) - 2)%nat with (length h) by lia.
    split; [exact U|]. apply Nat.leb_le. lia.
Qed.

Lemma previousText_after (t : text) (sender type : string) (now : Z)
    (vw : view) (h : list entry) (u : entry) :
  chatMessages vw = true ->
  messageHistory vw = h ++ [u] ->
  previousText (addMessage t sender type now vw) = textOrEmpty (e_text u).
Proof.
  intros Hc Hh. unfold previousText, addMessage. rewrite Hc.
  cbn [negb messageHistory set_messageHistory set_bubbles]. rewrite Hh.
  destruct (previous_of_capped h u
    {| e_text := t; e_sender := sender; e_type := type; e_timestamp := now |}) as [-> ->].
  reflexivity.
Qed.

Lemma addMessage_history (t : text) (sender type : string) (now : Z) (vw : view) :
  chatMessages vw = true ->
  exists h, messageHistory (addMessage t sender type now vw) =
            h ++ [{| e_text := t; e_sender := sender; e_type := type; e_timestamp := now |}].
Proof.
  intros Hc. unfold addMessage. rewrite Hc. simpl.
  set (e := {| e_text := t; e_sender := sender; e_type := type; e_timestamp := now |}).
  destruct (Nat.ltb_spec 100 (length (messageHistory vw ++ [e]))) as [Hlt|Hle].
  - rewrite length_app in *. simpl in *.
    rewrite drop_app_le by lia. now eexists.
  - now eexists.
Qed.

(** X23.  Which message [handleChatResponse] saves as the user's.  With
    a response text and no action result it is the entry that was last
    in [messageHistory] before the reply: the user's message.  With a
    response text and an action result, two entries have been added,
    and the text saved as the user's message is the response itself. *)
Theorem saved_conversation_pairs (response r : json) (now : Z) (vw : view)
    (h : list entry) (u : entry) :
  chatMessages vw = true ->
  chatHistory vw <> NotArray ->
  messageHistory vw = h ++ [u] ->
  present (prop "response" response) = Some r ->
  let vw' := (handleChatResponse actionFormats response now vw).2 in
  (present (prop "action_result" response) = None ->
   c_userMessage <$> newest vw' = Some (stringified (textOrEmpty (e_text u)))) /\
  (forall result,
     present (prop "action_result" response) = Some result ->
     actionFormats result = true ->
     c_userMessage <$> newest vw' = Some (Value (reparsed r))).
Proof.
  intros Hc Hn Hh Hr vw'. subst vw'. unfold handleChatResponse. rewrite Hr.
  assert (Tr : truthy r = true).
  { unfold present in Hr. destruct (prop "response" response) as [j|]; [|discriminate].
    destruct (truthy j) eqn:E; [|discriminate]. now simplify_eq. }
  split.
  - intros ->. simpl.
    rewrite (previousText_after _ _ _ _ _ h u Hc Hh).
    unfold newest, saveToHistory.
    rewrite (proj1 (proj2 (proj2 (proj2 (proj2 (proj2 (addMessage_keeps _ _ _ _ _))))))).
    destruct (chatHistory vw); [reflexivity | contradiction | reflexivity].
  - intros result -> Hf. unfold handleActionResult. rewrite Hf. simpl.
    destruct (addMessage_history (Value r) "ai" "normal" now vw Hc) as [h' Hh'].
    assert (Hc' : chatMessages (addMessage (Value r) "ai" "normal" now vw) = true)
      by now rewrite (proj1 (addMessage_keeps _ _ _ _ _)).
    rewrite (previousText_after _ _ _ _ _ h' _ Hc' Hh'). simpl. rewrite Tr.
    unfold newest, saveToHistory.
    rewrite !(proj1 (proj2 (proj2 (proj2 (proj2 (proj2 (addMessage_keeps _ _ _ _ _))))))).
    destruct (chatHistory vw); [reflexivity | contradiction | reflexivity].
Qed.

Lemma saveToHistory_history (c : conversation) (vw : view) :
  chatHistory (saveToHistory c vw) = chatHistory vw \/
  (chatHistory vw <> NotArray /\
   exists l, chatHistory (saveToHistory c vw) = Items l /\ (length l <= 50)%nat).
Proof.
  unfold saveToHistory. destruct (chatHistory vw) eqn:E; simpl; rewrite ?E; auto; right;
    (split; [discriminate|]); eexists; (split; [reflexivity|]);
    simpl; rewrite ?length_take; lia.
Qed.

Lemma handleChatResponse_history (response : json) (now : Z) (vw : view) :
  let vw' := (handleChatResponse actionFormats response now vw).2 in
  chatHistory vw' = chatHistory vw \/
  (chatHistory vw <> NotArray /\
   exists l, chatHistory vw' = Items l /\ (length l <= 50)%nat).
Proof.
  assert (A : forall t s ty n v, chatHistory (addMessage t s ty n v) = chatHistory v)
    by (intros; apply addMessage_keeps).
  cbv zeta. unfold handleChatResponse, handleActionResult.
  repeat case_match; simplify_eq/=; rewrite ?A; auto;
    match goal with
    | |- context [saveToHistory ?c ?v] =>
        generalize (saveToHistory_history c v); rewrite ?A; intros G; exact G
    end.
Qed.

(** X24.  Handling a reply leaves the stored history as it was or
    replaces it by one of at most 50 conversations; the latter never
    happens to a [chatHistory] item that does not hold an array, so that
    no conversation is saved from then on. *)
Theorem chat_history_bounded (reply : completion json) (now : Z) (vw : view) :
  let vw' := sendMessage_resume actionFormats reply now vw in
  chatHistory vw' = chatHistory vw \/
  (chatHistory vw <> NotArray /\
   exists l, chatHistory vw' = Items l /\ (length l <= 50)%nat).
Proof.
  assert (A : forall t s ty n v, chatHistory (addMessage t s ty n v) = chatHistory v)
    by (intros; apply addMessage_keeps).
  assert (F : forall v, chatHistory (finish v) = chatHistory v)
    by (intros; apply finish_keeps).
  cbv zeta. unfold sendMessage_resume.
  repeat case_match; simplify_eq/=; rewrite ?F, ?A; auto;
    match goal with
    | E : handleChatResponse _ ?r ?n ?v = (_, ?v') |- _ =>
        generalize (handleChatResponse_history r n v); rewrite E; intros G; exact G
    end.
Qed.

(** X25.  After the first toggle the theme is 'dark' or 'light' and the
    stored theme follows it; from there two toggles return to the same
    theme.  A theme other than these two, such as the 'blue' of the
    settings window, is replaced by 'dark'. *)
Theorem toggle_theme_alternates (vw : view) :
  let v1 := toggleTheme vw in
  (dataTheme v1 = Some "dark" \/ dataTheme v1 = Some "light") /\
  themeItem v1 = dataTheme v1 /\
  toggleTheme (toggleTheme v1) = v1 /\
  (dataTheme vw <> Some "dark" -> dataTheme v1 = Some "dark").
Proof.
  cbv zeta. unfold toggleTheme, setTheme.
  destruct (bool_decide (dataTheme vw = Some "dark")) eqn:E; simpl.
  - repeat split; auto. intros H. apply bool_decide_eq_true in E. contradiction.
  - repeat split; auto.
Qed.

End ChatWindow.

Section ChatWindowWitness.
Import JS Json Renderer RendererMore ChatSample.

Lemma message_history_bounded_witness :
  (length (messageHistory (sendMessage_begin None 0 online).2) <= 100)%nat.
Proof.
  apply (message_history_bounded formatsAll online). simpl. lia.
Defined.

Lemma one_request_at_a_time_witness :
  let vw' := (sendMessage_begin None 0 online).2 in
  sendMessage_begin None 0 online = (Awaiting, vw') /\
  sendMessage_begin (Some "Find all text files in the current directory") 1 vw'
    = (Finished, vw').
Proof.
  cbv zeta. split; [reflexivity|].
  apply (one_request_at_a_time formatsAll None 0 online _ eq_refl).
Defined.

Lemma saved_conversation_pairs_witness :
  let asked := (sendMessage_begin None 0 online).2 in
  c_userMessage <$> newest (handleChatResponse formatsAll plainReply 1 asked).2
    = Some (Typed (lit "hello")) /\
  c_userMessage <$> newest (handleChatResponse formatsAll actionReply 1 asked).2
    = Some (Value (JStr "Done.")).
Proof.
  cbv zeta. split.
  - apply (saved_conversation_pairs formatsAll plainReply (JStr "Hello!") 1
             (sendMessage_begin None 0 online).2 []
             {| e_text := Typed (lit "hello"); e_sender := "user"; e_type := "normal";
                e_timestamp := 0 |}); try reflexivity. discriminate.
  - apply (saved_conversation_pairs formatsAll actionReply (JStr "Done.") 1
             (sendMessage_begin None 0 online).2 []
             {| e_text := Typed (lit "hello"); e_sender := "user"; e_type := "normal";
                e_timestamp := 0 |}) with
      (result := JObj [("success", JBool true); ("message", JStr "File created")]);
      try reflexivity. discriminate.
Defined.

End ChatWindowWitness.

(** ** The main process and the chat window *)

Section Together.
Import JS Json Main Renderer Wiring.

Lemma upd_socket_keeps (h : nat) (f : socket -> socket) (st : state) :
  mainWindow (upd_socket h f st) = mainWindow st /\
  ui (upd_socket h f st) = ui st /\
  pythonProcess (upd_socket h f st) = pythonProcess st /\
  children (upd_socket h f st) = children st /\
  currentPort (upd_socket h f st) = currentPort st.
Proof. unfold upd_socket. now destruct (sockets st !! h). Qed.

(** What the socket's [open] and [close] listeners send to the window. *)
Lemma on_open_sends (w : world) (h : nat) (st : state) :
  mainWindow st = true ->
  ui (on_open w h st) = ui st ++ [BackendStatus true (Some true) (Some (currentPort st))].
Proof.
  intros Hm. unfold on_open, syncSettingsWithBackend, notify.
  destruct (upd_socket_keeps h (set_readyState OPEN) st) as (E1 & E2 & _ & _ & E5).
  rewrite E1, Hm. destruct (globalFetch w || importNodeFetch w); simpl; now rewrite E2, E5.
Qed.

Lemma on_close_sends (h : nat) (st : state) :
  mainWindow st = true ->
  ui (on_close h st) =
    ui st ++ [BackendStatus false (Main.pythonRunning st) (Some (currentPort st))] /\
  pythonProcess (on_close h st) = pythonProcess st /\
  children (on_close h st) = children st.
Proof.
  intros Hm. unfold on_close, setTimeout, notify, Main.pythonRunning.
  destruct (upd_socket_keeps h (set_readyState CLOSED) st) as (E1 & E2 & E3 & E4 & E5).
  rewrite E1, Hm. simpl. now rewrite E2, E3, E4, E5.
Qed.

Lemma sentSince_app (st st' : state) (l : list ui_message) :
  ui st' = ui st ++ l -> sentSince st st' = l.
Proof. intros E. unfold sentSince. rewrite E. now rewrite drop_app_length. Qed.

Lemma addMessage_bubbles (t : text) (sender type : string) (now : Z) (vw : view) :
  chatMessages vw = true ->
  bubbles (addMessage t sender type now vw) =
    bubbles vw ++ [{| e_text := t; e_sender := sender; e_type := type;
                      e_timestamp := now |}].
Proof. intros Hc. unfold addMessage. now rewrite Hc. Qed.

Lemma addMessage_rest (t : text) (sender type : string) (now : Z) (vw : view) :
  chatMessages (addMessage t sender type now vw) = chatMessages vw /\
  isProcessing (addMessage t sender type now vw) = isProcessing vw /\
  backendConnected (addMessage t sender type now vw) = backendConnected vw /\
  invoked (addMessage t sender type now vw) = invoked vw.
Proof.
  unfold addMessage.
  destruct (chatMessages vw) eqn:E; simpl; rewrite ?E; repeat split; reflexivity.
Qed.

Lemma finish_rest (vw : view) :
  bubbles (finish vw) = bubbles vw /\
  invoked (finish vw) = invoked vw /\
  isProcessing (finish vw) = false.
Proof. unfold finish, showTypingIndicator. simpl. now destruct (typingIndicator vw). Qed.

Lemma updateBackendStatus_rest (s : status) (vw : view) :
  chatMessages (updateBackendStatus s vw) = chatMessages vw /\
  isProcessing (updateBackendStatus s vw) = isProcessing vw /\
  invoked (updateBackendStatus s vw) = invoked vw /\
  bubbles (updateBackendStatus s vw) = bubbles vw /\
  backendConnected (updateBackendStatus s vw) = connected s.
Proof. unfold updateBackendStatus. simpl. now destruct (statusElements vw). Qed.

(** [sendMessage] with a message given, in a window that is idle: the
    page up to the test of [backendConnected]. *)
Lemma sendMessage_begin_given (s : string) (now : Z) (vw : view) :
  chatMessages vw = true ->
  isProcessing vw = false ->
  s <> "" ->
  exists vw3,
    sendMessage_begin (Some s) now vw =
      (if bool_decide (backendConnected vw = Some true)
       then (Awaiting, set_invoked (invoked vw3 ++ [Fixed s]) vw3)
       else (Finished, finish (addMessage (Fixed warning) "ai" "warning" now vw3))) /\
    chatMessages vw3 = true /\
    invoked vw3 = invoked vw /\
    bubbles vw3 = bubbles vw ++ [{| e_text := Fixed s; e_sender := "user";
                                    e_type := "normal"; e_timestamp := now |}].
Proof.
  intros Hc Hp Hs.
  assert (Es : String.eqb s "" = false) by now apply String.eqb_neq.
  unfold sendMessage_begin. rewrite Hp, Es.
  set (vw1 := showTypingIndicator true (set_isProcessing true vw)).
  assert (F1 : chatMessages vw1 = true /\ invoked vw1 = invoked vw /\
               bubbles vw1 = bubbles vw /\ backendConnected vw1 = backendConnected vw).
  { unfold vw1, showTypingIndicator. simpl. now destruct (typingIndicator vw). }
  destruct F1 as (C1 & I1 & B1 & K1).
  assert (E2 : match messageInput vw1 with
               | Some _ => vw1
               | None => vw1
               end = vw1) by now destruct (messageInput vw1).
  rewrite E2.
  destruct (addMessage_rest (Fixed s) "user" "normal" now vw1) as (C3 & _ & K3 & I3).
  rewrite K3, K1.
  eexists. split; [reflexivity|].
  rewrite C3, I3, (addMessage_bubbles _ _ _ _ _ C1), C1, I1, B1. repeat split.
Qed.

(** X26.  The window sends a message only while the main process has
    reported a connection.  After the [open] event of the socket a
    message is passed to [send-message]; after its [close] event a
    message gets the warning as answer and nothing is passed on. *)
Theorem sending_follows_reported_status (w : world) (st : state) (h : nat)
    (vw : view) (s : string) (now : Z) :
  mainWindow st = true ->
  chatMessages vw = true ->
  isProcessing vw = false ->
  s <> "" ->
  let user := {| e_text := Fixed s; e_sender := "user"; e_type := "normal";
                 e_timestamp := now |} in
  let opened := step st (w, WsOpen h) in
  let closed := step st (w, WsClose h) in
  let sent_open := sendMessage_begin (Some s) now (deliver (sentSince st opened) vw) in
  let sent_closed := sendMessage_begin (Some s) now (deliver (sentSince st closed) vw) in
  (sent_open.1 = Awaiting /\
   invoked sent_open.2 = invoked vw ++ [Fixed s] /\
   bubbles sent_open.2 = bubbles vw ++ [user]) /\
  (sent_closed.1 = Finished /\
   invoked sent_closed.2 = invoked vw /\
   isProcessing sent_closed.2 = false /\
   bubbles sent_closed.2 =
     bubbles vw ++ [user; {| e_text := Fixed warning; e_sender := "ai";
                             e_type := "warning"; e_timestamp := now |}]).
Proof.
  intros Hm Hc Hp Hs. cbv zeta. unfold step.
  rewrite (sentSince_app st (on_open w h st) _ (on_open_sends w h st Hm)).
  rewrite (sentSince_app st (on_close h st) _ (proj1 (on_close_sends h st Hm))).
  unfold deliver, on_ui_message. cbn [foldl statusOf]. split.
  - set (sts := {| connected := Some true; pythonRunning := Some true |}).
    destruct (updateBackendStatus_rest sts vw) as (C & P & I & B & K).
    destruct (sendMessage_begin_given s now (updateBackendStatus sts vw))
      as (vw3 & -> & C3 & I3 & B3); [congruence | congruence | exact Hs |].
    rewrite K. simpl. now rewrite I3, B3, I, B.
  - set (sts := {| connected := Some false;
                   pythonRunning := Main.pythonRunning st |}).
    destruct (updateBackendStatus_rest sts vw) as (C & P & I & B & K).
    destruct (sendMessage_begin_given s now (updateBackendStatus sts vw))
      as (vw3 & -> & C3 & I3 & B3); [congruence | congruence | exact Hs |].
    rewrite K. simpl.
    destruct (finish_rest (addMessage (Fixed warning) "ai" "warning" now vw3))
      as (-> & -> & ->).
    destruct (addMessage_rest (Fixed warning) "ai" "warning" now vw3) as (_ & _ & _ & ->).
    rewrite (addMessage_bubbles _ _ _ _ _ C3), I3, B3, I, B, <- app_assoc.
    repeat split.
Qed.

(** X27.  The backend exits by itself and the socket closes: the first
    message to the window says that the backend is not running, the
    second one that it is, since a child that was not killed still counts
    as running.  The window ends up reading "Starting...". *)
Theorem backend_exit_reads_starting (w : world) (st : state) (p h : nat)
    (c : child_process) (vw : view) :
  mainWindow st = true ->
  pythonProcess st = Some p ->
  children st !! p = Some c ->
  killed c = false ->
  statusElements vw = true ->
  let st' := run st [(w, ChildClose p); (w, WsClose h)] in
  let vw' := deliver (sentSince st st') vw in
  sentSince st st' = [BackendStatus false (Some false) None;
                      BackendStatus false (Some true) (Some (currentPort st))] /\
  statusLabel vw' = Some "Starting..." /\
  backendConnected vw' = Some false /\
  (ipc_get_backend_status st').1.2 = Some true.
Proof.
  intros Hm Hp Hc Hk He. cbv zeta. unfold run. cbn [foldl]. unfold step.
  set (st1 := on_child_close p st).
  assert (F1 : mainWindow st1 = true /\ ui st1 = ui st ++ [BackendStatus false (Some false) None] /\
               pythonProcess st1 = Some p /\ currentPort st1 = currentPort st /\
               Main.pythonRunning st1 = Some true).
  { unfold st1, on_child_close, notify, upd_child, Main.pythonRunning. rewrite Hc. simpl.
    rewrite Hm. simpl. rewrite Hp.
    rewrite list_lookup_insert_eq by (eapply lookup_lt_Some; eassumption).
    simpl. now rewrite Hk. }
  destruct F1 as (M1 & U1 & P1 & C1 & R1).
  destruct (on_close_sends h st1 M1) as (U2 & P2 & K2).
  assert (R2 : Main.pythonRunning (on_close h st1) = Some true)
    by (unfold Main.pythonRunning in *; now rewrite P2, K2).
  rewrite R1, C1, U1, <- app_assoc in U2.
  rewrite (sentSince_app st (on_close h st1) _ U2).
  split; [reflexivity|].
  unfold deliver, on_ui_message, updateBackendStatus. simpl. rewrite He. simpl.
  rewrite He. repeat split. exact R2.
Qed.

End Together.

Section TogetherWitness.
Import JS Json Main Renderer Wiring Sample ChatSample.

Lemma sending_follows_reported_status_witness :
  let closed := step connected (world_started, WsClose 0) in
  (sendMessage_begin (Some "Show me the current system information") 5
     (deliver (sentSince connected closed) online)).1 = Finished.
Proof.
  destruct (sending_follows_reported_status world_started connected 0 online
              "Show me the current system information" 5 eq_refl eq_refl eq_refl)
    as [_ (H & _)].
  - discriminate.
  - exact H.
Defined.

Lemma backend_exit_reads_starting_witness :
  let st' := run connected [(world_started, ChildClose 0); (world_started, WsClose 0)] in
  statusLabel (deliver (sentSince connected st') online) = Some "Starting...".
Proof.
  destruct (backend_exit_reads_starting world_started connected 0 0
              {| exited := false; killed := false; signals := [] |} online
              eq_refl eq_refl eq_refl eq_refl eq_refl)
    as (_ & H & _).
  exact H.
Defined.

End TogetherWitness.
